(** * PPTX feature extractor: a shallow embedding of [slide_extractor.py]

    The development follows the Python class [PPTXFeatureExtractor]:
    ElementTree nodes are rose trees, [find]/[findall] with a [.//tag] path
    are searches over the descendants in document order, a function that
    may raise returns a [result], and a loop that appends to an element
    while it advances a counter threads the pair explicitly.

    Text is ASCII: a [string] is read as the Python [str] with the same
    characters.

    Numbers.  Python ints are [Z].  The extractor prints its floats, and
    reads some of them back; the output tree keeps every printed number as
    the exact rational it was computed from together with its format
    ([pyval]).  Where a property needs values, binary64 arithmetic is
    idealized as exact arithmetic over [Q], and a number printed with [k]
    decimals denotes the rational rounded to [k] decimals, ties to even.
    The sample values used below are dyadic or far from a rounding tie, so
    binary64 agrees with the idealization on them. *)

Set Warnings "-register-all,-notation-for-abbreviation".

From Stdlib Require Import ZArith QArith Qabs Qround Lqa Bool List Sorted Permutation
  String Ascii Lia.
Import ListNotations.

Open Scope string_scope.
Open Scope list_scope.
Open Scope Z_scope.

(** ** Results of calls that may raise *)

Inductive result (A : Type) : Type :=
| Ok (a : A)
| Raise.
Arguments Ok {A} a.
Arguments Raise {A}.

Definition bind {A B : Type} (r : result A) (k : A -> result B) : result B :=
  match r with
  | Ok a => k a
  | Raise => Raise
  end.

Notation "x <- r ;; k" := (bind r (fun x => k))
  (at level 61, r at next level, right associativity).

Definition of_option {A : Type} (o : option A) : result A :=
  match o with
  | Some a => Ok a
  | None => Raise
  end.

Definition raised {A : Type} (r : result A) : bool :=
  match r with
  | Ok _ => false
  | Raise => true
  end.

(** ** Python string operations *)

Module PyStr.

Fixpoint drop (n : nat) (s : string) : string :=
  match n, s with
  | O, _ => s
  | S _, EmptyString => EmptyString
  | S k, String _ s' => drop k s'
  end.

(** [s[i:j]] for [0 <= i <= j]. *)
Definition slice (i j : nat) (s : string) : string := substring 0 (j - i) (drop i s).

Definition startswith (s pre : string) : bool := prefix pre s.

Definition endswith (s suf : string) : bool :=
  (String.length suf <=? String.length s)%nat
  && String.eqb (drop (String.length s - String.length suf) s) suf.

(** [sub in s] *)
Fixpoint contains (sub s : string) : bool :=
  prefix sub s
  || match s with
     | EmptyString => false
     | String _ s' => contains sub s'
     end.

Definition upper_ascii (c : ascii) : ascii :=
  let n := N_of_ascii c in
  if ((97 <=? n) && (n <=? 122))%N then ascii_of_N (n - 32) else c.

Fixpoint upper (s : string) : string :=
  match s with
  | EmptyString => EmptyString
  | String c s' => String (upper_ascii c) (upper s')
  end.

(** [s.replace(old, new)] for a non-empty [old]: occurrences are taken
    left to right and do not overlap; [skip] counts the characters of the
    occurrence just replaced that are still to be passed over. *)
Fixpoint replace_from (old new : string) (skip : nat) (s : string) : string :=
  match s with
  | EmptyString => EmptyString
  | String c s' =>
      match skip with
      | S k => replace_from old new k s'
      | O =>
          if prefix old s
          then (new ++ replace_from old new (String.length old - 1) s')%string
          else String c (replace_from old new 0 s')
      end
  end.

Definition replace (old new s : string) : string := replace_from old new 0 s.

(** [s.split(sep)] for a one-character separator. *)
Fixpoint split (sep : ascii) (s : string) : list string :=
  match s with
  | EmptyString => [EmptyString]
  | String c s' =>
      if Ascii.eqb c sep then EmptyString :: split sep s'
      else match split sep s' with
           | [] => [String c EmptyString]
           | h :: t => String c h :: t
           end
  end.

(** [sep.join(l)] *)
Definition join (sep : string) (l : list string) : string := String.concat sep l.

(** Truth value of a string: non-empty. *)
Definition truthy (s : string) : bool :=
  match s with
  | EmptyString => false
  | String _ _ => true
  end.

(** Insertion of one name into a list sorted by code points. *)
Fixpoint insert_sorted (x : string) (l : list string) : list string :=
  match l with
  | [] => [x]
  | y :: l' => if String.leb x y then x :: l else y :: insert_sorted x l'
  end.

(** [l.sort()] on a list of strings. *)
Definition sort (l : list string) : list string := fold_right insert_sorted [] l.

End PyStr.

(** ** Python [int(s, base)] on a string

    Leading and trailing whitespace is skipped, one sign is accepted, base 16
    accepts a [0x] prefix, digits may be separated by single underscores, and
    at least one digit is required.  (The limit that recent interpreters put
    on the number of decimal digits is left out.) *)

Module PyInt.

Definition is_space (c : ascii) : bool :=
  let n := N_of_ascii c in
  (((9 <=? n) && (n <=? 13)) || (n =? 32))%N.

Definition digit_value (c : ascii) : option Z :=
  let n := Z.of_N (N_of_ascii c) in
  if (48 <=? n) && (n <=? 57) then Some (n - 48)
  else if (97 <=? n) && (n <=? 122) then Some (n - 87)
  else if (65 <=? n) && (n <=? 90) then Some (n - 55)
  else None.

Fixpoint lstrip (s : string) : string :=
  match s with
  | String c s' => if is_space c then lstrip s' else s
  | EmptyString => EmptyString
  end.

Fixpoint all_space (s : string) : bool :=
  match s with
  | EmptyString => true
  | String c s' => is_space c && all_space s'
  end.

(** The digit loop: the value read so far, whether the previous character
    was an underscore, and the number of digits read.  It stops at the
    first character that is neither a digit of the base nor an
    underscore, and fails on a doubled or a trailing underscore. *)
Fixpoint scan (base acc : Z) (prev_us : bool) (ndigits : nat) (s : string)
  : option (Z * nat * string) :=
  let stop := if prev_us then None else Some (acc, ndigits, s) in
  match s with
  | EmptyString => stop
  | String c s' =>
      if Ascii.eqb c "_"
      then (if prev_us then None else scan base acc true ndigits s')
      else match digit_value c with
           | Some d =>
               if d <? base then scan base (acc * base + d) false (S ndigits) s'
               else stop
           | None => stop
           end
  end.

Definition strip_sign (s : string) : Z * string :=
  match s with
  | String "+" r => (1, r)
  | String "-" r => (-1, r)
  | _ => (1, s)
  end.

Definition strip_prefix (base : Z) (s : string) : string :=
  if base =? 16 then
    match s with
    | String "0" (String x r) =>
        if Ascii.eqb x "x" || Ascii.eqb x "X"
        then match r with
             | String "_" r' => r'
             | _ => r
             end
        else s
    | _ => s
    end
  else s.

Definition parse (base : Z) (s : string) : option Z :=
  let '(sign, s1) := strip_sign (lstrip s) in
  let s2 := strip_prefix base s1 in
  match s2 with
  | String "_" _ => None
  | _ =>
      match scan base 0 false 0 s2 with
      | Some (v, S _, rest) => if all_space rest then Some (sign * v) else None
      | _ => None
      end
  end.

(** [int(s)] and [int(s, 16)], raising [ValueError] as [Raise]. *)
Definition int10 (s : string) : result Z := of_option (parse 10 s).
Definition int16 (s : string) : result Z := of_option (parse 16 s).

End PyInt.

(** ** ElementTree nodes *)

Inductive node (V : Type) : Type :=
| Node (tag : string) (attrib : list (string * V)) (text : option V)
       (children : list (node V)).
Arguments Node {V} tag attrib text children.

Module ET.
Section Generic.
Context {V : Type}.

Definition tag (n : node V) : string := let 'Node t _ _ _ := n in t.
Definition attrib (n : node V) : list (string * V) := let 'Node _ a _ _ := n in a.
Definition text (n : node V) : option V := let 'Node _ _ x _ := n in x.
Definition children (n : node V) : list (node V) := let 'Node _ _ _ c := n in c.

Fixpoint lookup (key : string) (a : list (string * V)) : option V :=
  match a with
  | [] => None
  | (k, v) :: a' => if String.eqb k key then Some v else lookup key a'
  end.

(** [elem.get(key)] *)
Definition get (n : node V) (key : string) : option V := lookup key (attrib n).

(** [elem.get(key, default)] *)
Definition get_or (n : node V) (key : string) (default : V) : V :=
  match get n key with
  | Some v => v
  | None => default
  end.

(** [elem.set(key, value)]: an existing key keeps its place. *)
Fixpoint assign (key : string) (v : V) (a : list (string * V)) : list (string * V) :=
  match a with
  | [] => [(key, v)]
  | (k, w) :: a' => if String.eqb k key then (k, v) :: a' else (k, w) :: assign key v a'
  end.

Definition set (n : node V) (key : string) (v : V) : node V :=
  let 'Node t a x c := n in Node t (assign key v a) x c.

(** [elem.append(child)] *)
Definition append (n : node V) (child : node V) : node V :=
  let 'Node t a x c := n in Node t a x (c ++ [child]).

Definition extend (n : node V) (more : list (node V)) : node V :=
  let 'Node t a x c := n in Node t a x (c ++ more).

(** All the descendants of a node, itself excluded, in document order:
    the nodes that a [.//] step ranges over. *)
Fixpoint descendants (n : node V) : list (node V) :=
  let 'Node _ _ _ cs := n in
  (fix walk (l : list (node V)) : list (node V) :=
     match l with
     | [] => []
     | c :: l' => c :: descendants c ++ walk l'
     end) cs.

Definition has_tag (t : string) (n : node V) : bool := String.eqb (tag n) t.

(** [elem.findall('.//t')] and [elem.find('.//t')] *)
Definition findall (t : string) (n : node V) : list (node V) :=
  filter (has_tag t) (descendants n).

Definition find (t : string) (n : node V) : option (node V) :=
  hd_error (findall t n).

(** [elem.findall('.//t[@key]')] *)
Definition findall_with_attr (t key : string) (n : node V) : list (node V) :=
  filter (fun c => has_tag t c && match get c key with Some _ => true | None => false end)
         (descendants n).

(** [elem.find('.//*[@key]')] *)
Definition find_any_with_attr (key : string) (n : node V) : option (node V) :=
  hd_error (filter (fun c => match get c key with Some _ => true | None => false end)
                   (descendants n)).

(** The direct children with a given tag: what a path without [.//]
    would select. *)
Definition children_with_tag (t : string) (n : node V) : list (node V) :=
  filter (has_tag t) (children n).

End Generic.
End ET.

(** A leaf element holding only text, and an element without text. *)
Definition leaf {V : Type} (t : string) (x : V) : node V := Node t [] (Some x) [].
Definition elem {V : Type} (t : string) (a : list (string * V)) (c : list (node V)) : node V :=
  Node t a None c.

(** ** Qualified names

    ElementTree writes a namespaced tag or attribute as [{uri}local]; the
    prefixes are those of the extractor's namespace table. *)

Module NS.

Definition p : string := "http://schemas.openxmlformats.org/presentationml/2006/main".
Definition a : string := "http://schemas.openxmlformats.org/drawingml/2006/main".
Definition r : string := "http://schemas.openxmlformats.org/officeDocument/2006/relationships".
Definition c : string := "http://schemas.openxmlformats.org/drawingml/2006/chart".
Definition rels : string := "http://schemas.openxmlformats.org/package/2006/relationships".
Definition cp : string :=
  "http://schemas.openxmlformats.org/package/2006/metadata/core-properties".
Definition dc : string := "http://purl.org/dc/elements/1.1/".
Definition dcterms : string := "http://purl.org/dc/terms/".
Definition extended : string :=
  "http://schemas.openxmlformats.org/officeDocument/2006/extended-properties".
Definition custom : string :=
  "http://schemas.openxmlformats.org/officeDocument/2006/custom-properties".

Definition qname (uri local : string) : string := ("{" ++ uri ++ "}" ++ local)%string.

End NS.

Notation "'p:' l" := (NS.qname NS.p l) (at level 1, l at level 0, only parsing).
Notation "'a:' l" := (NS.qname NS.a l) (at level 1, l at level 0, only parsing).
Notation "'r:' l" := (NS.qname NS.r l) (at level 1, l at level 0, only parsing).
Notation "'c:' l" := (NS.qname NS.c l) (at level 1, l at level 0, only parsing).

(** ** Values written into the output tree

    The output tree holds strings.  Those that the extractor copies or
    chooses are kept as they are; those that it prints from a number are kept
    as the number, with the format that prints it. *)

Inductive pyval : Type :=
| PStr (s : string)                 (* a string as it is *)
| PInt (z : Z)                      (* str(z) for an int z *)
| PFloat (q : Q)                    (* str(x), x the float for the quotient q *)
| PFixed (digits : nat) (q : Q)     (* f"{x:.<digits>f}" *)
| PInf                              (* "inf", what f"{float('inf'):.2f}" prints *)
| PRgb (rgb : Z * Z * Z)            (* f"{r},{g},{b}" *)
| PLab (rgb : Z * Z * Z)            (* the Lab triple of rgb_to_lab(rgb), one decimal each *)
| PRatio (w h : Z)                  (* f"{w}:{h}" *)
| PStem (path : string)             (* Path(path).stem *)
| PSuffix (path : string)           (* Path(path).suffix[1:] *)
| PDigest (part : string)           (* 16 hex digits of the SHA-256 of a part's bytes *)
| PNumbered (stem : string) (z : Z) (* f"<stem>{z}" *)
| PEnv (what : string)              (* a value of the run: file name, time, identifier *)
| PNone.                            (* None, where a string is expected *)

Notation snode := (node string) (only parsing).
Notation onode := (node pyval) (only parsing).

Definition pbool (b : bool) : pyval := PStr (if b then "true" else "false").

Definition is_str (v : option pyval) (s : string) : bool :=
  match v with
  | Some (PStr s') => String.eqb s' s
  | _ => false
  end.

(** [elem.findall('.//t[@key="value"]')] and the matching [find] on the
    output tree. *)
Definition findall_attr_eq (t key value : string) (n : onode) : list onode :=
  filter (fun e => ET.has_tag t e && is_str (ET.get e key) value) (ET.descendants n).

Definition find_attr_eq (t key value : string) (n : onode) : option onode :=
  hd_error (findall_attr_eq t key value n).

(** ** The package

    The archive is the list of its entries in archive order; an entry
    holds the parsed content of a part, or nothing when its bytes are not
    well-formed XML.  Reading a part and parsing it raises when the name is
    absent or the content malformed; of two entries with one name the later
    one is read. *)

Definition package : Type := list (string * option snode).

Definition namelist (pkg : package) : list string := map fst pkg.

Definition read_xml (pkg : package) (name : string) : result snode :=
  match List.find (fun e => String.eqb (fst e) name) (rev pkg) with
  | Some (_, Some root) => Ok root
  | _ => Raise
  end.

Definition option_string_eqb (x y : option string) : bool :=
  match x, y with
  | Some s, Some t => String.eqb s t
  | None, None => true
  | _, _ => false
  end.

Section Relationships.
Variable pkg : package.

Definition relationship_nodes (rels_root : snode) : list snode :=
  ET.findall (NS.qname NS.rels "Relationship") rels_root.

(** The identifier may be [None] (an absent attribute of the caller's
    node); it is then compared with the [Id] of each relationship, absent
    ones included. *)
Definition get_relationship_target (rels_file : string) (rel_id : option string)
  : option string :=
  match read_xml pkg rels_file with
  | Raise => None
  | Ok rels_root =>
      match List.find (fun rel => option_string_eqb (ET.get rel "Id") rel_id)
                      (relationship_nodes rels_root) with
      | Some rel => ET.get rel "Target"
      | None => None
      end
  end.

Definition get_all_relationships (rels_file rel_type : string) : list (option string) :=
  match read_xml pkg rels_file with
  | Raise => []
  | Ok rels_root =>
      map (fun rel => ET.get rel "Target")
          (filter (fun rel => PyStr.contains rel_type (ET.get_or rel "Type" ""))
                  (relationship_nodes rels_root))
  end.

Definition has_relationship_type (rels_file rel_type : string) : bool :=
  match read_xml pkg rels_file with
  | Raise => false
  | Ok rels_root =>
      existsb (fun rel => PyStr.contains rel_type (ET.get_or rel "Type" ""))
              (relationship_nodes rels_root)
  end.

End Relationships.

(** ** Colors *)

Definition nonempty (o : option string) : option string :=
  match o with
  | Some s => if PyStr.truthy s then Some s else None
  | None => None
  end.

(** The last-rendered value of the system color of a node: that of its
    first [sysClr], when the attribute is there and not empty. *)
Definition last_rendered (element : snode) : option string :=
  match ET.find a:"sysClr" element with
  | Some sys_clr => nonempty (ET.get sys_clr "lastClr")
  | None => None
  end.

Definition extract_color_value (element : snode) : option string :=
  match ET.find a:"srgbClr" element with
  | Some srgb_clr => Some ("#" ++ PyStr.upper (ET.get_or srgb_clr "val" "FFFFFF"))%string
  | None =>
      match ET.find a:"schemeClr" element with
      | Some scheme_clr => Some ("scheme:" ++ ET.get_or scheme_clr "val" "dk1")%string
      | None =>
          match last_rendered element with
          | Some last_clr => Some ("#" ++ PyStr.upper last_clr)%string
          | None =>
              match ET.find a:"prstClr" element with
              | Some prst_clr => Some ("preset:" ++ ET.get_or prst_clr "val" "black")%string
              | None => None
              end
          end
      end
  end.

Definition gray : Z * Z * Z := (128, 128, 128).

Definition hex_to_rgb (hex_color : string) : Z * Z * Z :=
  let hex_color :=
    if PyStr.startswith hex_color "#" then PyStr.drop 1 hex_color else hex_color in
  if PyStr.startswith hex_color "scheme:" || PyStr.startswith hex_color "preset:"
  then gray
  else
    match (r <- PyInt.int16 (PyStr.slice 0 2 hex_color) ;;
           g <- PyInt.int16 (PyStr.slice 2 4 hex_color) ;;
           b <- PyInt.int16 (PyStr.slice 4 6 hex_color) ;;
           Ok (r, g, b)) with
    | Ok rgb => rgb
    | Raise => gray
    end.

(** The element [color] that carries a resolved color with its RGB and Lab
    readings (theme palette and text runs). *)
Definition color_attrs (hex_color : string) : list (string * pyval) :=
  let rgb := hex_to_rgb hex_color in
  [("hex", PStr hex_color); ("rgb", PRgb rgb); ("lab", PLab rgb)].

(** ** Numbers read back from text, and printed with fixed decimals *)

(** The nearest integer, ties to the even one. *)
Definition round_half_even (q : Q) : Z :=
  let f := Qfloor q in
  match Qcompare (q - inject_Z f) (1 # 2) with
  | Lt => f
  | Gt => f + 1
  | Eq => if Z.even f then f else f + 1
  end.

(** The value that [digits] decimals of [q] denote. *)
Definition fixed_value (digits : nat) (q : Q) : Q :=
  let scale := inject_Z (10 ^ Z.of_nat digits) in
  (inject_Z (round_half_even (q * scale)) / scale)%Q.

(** [n / d] on ints: true division, raising on a zero divisor.  (Ints too
    large for a binary64 quotient, on which Python raises as well, are left
    out.) *)
Definition py_div (n d : Z) : result Q :=
  if d =? 0 then Raise else Ok (inject_Z n / inject_Z d)%Q.

(** [float(x.text or 0)].  A free-form string is never met where the
    extractor reads a number back, and is not parsed here. *)
Definition py_float (text : option pyval) : result Q :=
  match text with
  | None => Ok 0%Q
  | Some (PStr s) => if PyStr.truthy s then Raise else Ok 0%Q
  | Some (PInt z) => Ok (inject_Z z)
  | Some (PFloat q) => Ok q
  | Some (PFixed digits q) => Ok (fixed_value digits q)
  | Some _ => Raise
  end.

(** [int(x.text or 0)] *)
Definition py_int (text : option pyval) : result Z :=
  match text with
  | None => Ok 0
  | Some (PStr s) => if PyStr.truthy s then PyInt.int10 s else Ok 0
  | Some (PInt z) => Ok z
  | Some _ => Raise
  end.

(** ** Walking a list of source nodes with a counter

    The loops of [extract_slide_elements] and [extract_group_element] all
    have one shape: each source node is handed to an extractor together
    with the current counter; an element that comes back is appended and
    the counter advances; nothing is done for [None]; an exception leaves
    the loop, and what was appended stays appended. *)

Record cursor : Type := { appended : list onode; z_order : Z }.

Definition start : cursor := {| appended := []; z_order := 1 |}.

Fixpoint run_pass (extract : snode -> Z -> result (option onode))
                  (sources : list snode) (cur : cursor) : cursor * bool :=
  match sources with
  | [] => (cur, false)
  | src :: rest =>
      match extract src (z_order cur) with
      | Raise => (cur, true)
      | Ok None => run_pass extract rest cur
      | Ok (Some e) =>
          run_pass extract rest
                   {| appended := appended cur ++ [e]; z_order := z_order cur + 1 |}
      end
  end.

(** A further loop after one that may have been left by an exception. *)
Definition then_pass (extract : snode -> Z -> result (option onode))
                     (sources : list snode) (st : cursor * bool) : cursor * bool :=
  if snd st then st else run_pass extract sources (fst st).

(** [for idx, x in enumerate(l, from)] with a body that may raise. *)
Fixpoint map_enumerate {A B : Type} (f : A -> Z -> result B) (from : Z) (l : list A)
  : result (list B) :=
  match l with
  | [] => Ok []
  | x :: l' =>
      y <- f x from ;;
      ys <- map_enumerate f (from + 1) l' ;;
      Ok (y :: ys)
  end.

Fixpoint enumerate {A : Type} (from : Z) (l : list A) : list (Z * A) :=
  match l with
  | [] => []
  | x :: l' => (from, x) :: enumerate (from + 1) l'
  end.

Definition opt_list {A : Type} (o : option A) : list A :=
  match o with
  | Some x => [x]
  | None => []
  end.

(** ** The slide feature extractor *)

Section Extractor.
Variable pkg : package.

Definition default_width : Z := 9144000.
Definition default_height : Z := 6858000.

(** [int(n.get(key, default))] with an int as default. *)
Definition int_attr (n : snode) (key : string) (default : Z) : result Z :=
  match ET.get n key with
  | Some s => PyInt.int10 s
  | None => Ok default
  end.

(** The canvas that [extract_geometry] normalizes against.  The two sizes
    are assigned one after the other inside one [try]: a width that parses
    is kept even when the height does not. *)
Definition canvas_size : Z * Z :=
  match read_xml pkg "ppt/presentation.xml" with
  | Raise => (default_width, default_height)
  | Ok root =>
      match ET.find p:"sldSz" root with
      | None => (default_width, default_height)
      | Some sld_sz =>
          match int_attr sld_sz "cx" 9144000 with
          | Raise => (default_width, default_height)
          | Ok slide_width =>
              match int_attr sld_sz "cy" 6858000 with
              | Raise => (slide_width, default_height)
              | Ok slide_height => (slide_width, slide_height)
              end
          end
      end
  end.

Definition extract_geometry (xfrm : snode) : result onode :=
  let '(slide_width, slide_height) := canvas_size in
  position <-
    match ET.find a:"off" xfrm with
    | Some off =>
        x <- int_attr off "x" 0 ;;
        y <- int_attr off "y" 0 ;;
        nx <- py_div x slide_width ;;
        ny <- py_div y slide_height ;;
        Ok [leaf "x" (PFixed 6 nx); leaf "y" (PFixed 6 ny)]
    | None => Ok []
    end ;;
  size <-
    match ET.find a:"ext" xfrm with
    | Some ext =>
        cx <- int_attr ext "cx" 0 ;;
        cy <- int_attr ext "cy" 0 ;;
        nw <- py_div cx slide_width ;;
        nh <- py_div cy slide_height ;;
        Ok [leaf "width" (PFixed 6 nw); leaf "height" (PFixed 6 nh)]
    | None => Ok []
    end ;;
  rot <- PyInt.int10 (ET.get_or xfrm "rot" "0") ;;
  let flip_h := ET.get_or xfrm "flipH" "0" in
  let flip_v := ET.get_or xfrm "flipV" "0" in
  Ok (elem "geometry" [("unit", PStr "normalized")]
        (position ++ size
         ++ [leaf "rotation" (PFloat (inject_Z rot / 60000));
             leaf "flip_h" (pbool (String.eqb flip_h "1"));
             leaf "flip_v" (pbool (String.eqb flip_v "1"))])).

(** The geometry child of an element, when its source has a transform. *)
Definition geometry_of (src : snode) : result (list onode) :=
  match ET.find a:"xfrm" src with
  | Some xfrm => geom <- extract_geometry xfrm ;; Ok [geom]
  | None => Ok []
  end.

Definition solid_color (owner : snode) : option string :=
  match ET.find a:"solidFill" owner with
  | Some solid_fill => nonempty (extract_color_value solid_fill)
  | None => None
  end.

Definition extract_fill_properties (shape : snode) : onode :=
  match ET.find p:"spPr" shape with
  | None => elem "fill" [("type", PStr "none")] []
  | Some sp_pr =>
      match solid_color sp_pr with
      | Some color => elem "fill" [("type", PStr "solid"); ("color", PStr color)] []
      | None =>
          match ET.find a:"gradFill" sp_pr with
          | Some grad_fill =>
              elem "fill" [("type", PStr "gradient")]
                (flat_map
                   (fun stop =>
                      match nonempty (extract_color_value stop) with
                      | Some color =>
                          [elem "gradient_stop"
                             [("position", PStr (ET.get_or stop "pos" "0"));
                              ("color", PStr color)] []]
                      | None => []
                      end)
                   (ET.findall a:"gs" grad_fill))
          | None =>
              match ET.find a:"pattFill" sp_pr with
              | Some _ => elem "fill" [("type", PStr "pattern")] []
              | None =>
                  match ET.find a:"blipFill" sp_pr with
                  | Some _ => elem "fill" [("type", PStr "image")] []
                  | None =>
                      match ET.find a:"noFill" sp_pr with
                      | Some _ => elem "fill" [("type", PStr "none")] []
                      | None => elem "fill" [("type", PStr "default")] []
                      end
                  end
              end
          end
      end
  end.

Definition extract_stroke_properties (shape : snode) : result onode :=
  match ET.find p:"spPr" shape with
  | None => Ok (elem "stroke" [("width", PStr "0")] [])
  | Some sp_pr =>
      match ET.find a:"ln" sp_pr with
      | Some ln =>
          width <- PyInt.int10 (ET.get_or ln "w" "0") ;;
          let color :=
            match solid_color ln with
            | Some color => [("color", PStr color)]
            | None => []
            end in
          let dash :=
            match ET.find a:"prstDash" ln with
            | Some dash => [("dash", PStr (ET.get_or dash "val" "solid"))]
            | None => []
            end in
          Ok (elem "stroke"
                ([("width", PFloat (inject_Z width / 12700))] ++ color ++ dash) [])
      | None => Ok (elem "stroke" [("width", PStr "0")] [])
      end
  end.

Definition extract_text_run (r : snode) (idx : Z) : result onode :=
  let text :=
    match ET.find a:"t" r with
    | Some t => match nonempty (ET.text t) with Some s => s | None => "" end
    | None => ""
    end in
  formatting <-
    match ET.find a:"rPr" r with
    | None => Ok []
    | Some r_pr =>
        let font_family :=
          match ET.find a:"latin" r_pr with
          | Some latin => ET.get_or latin "typeface" "Calibri"
          | None => "Calibri"
          end in
        sz <- PyInt.int10 (ET.get_or r_pr "sz" "1800") ;;
        let bold := String.eqb (ET.get_or r_pr "b" "0") "1" in
        let italic := String.eqb (ET.get_or r_pr "i" "0") "1" in
        let underline := negb (String.eqb (ET.get_or r_pr "u" "none") "none") in
        let strike := negb (String.eqb (ET.get_or r_pr "strike" "noStrike") "noStrike") in
        let font :=
          elem "font" [("family", PStr font_family);
                       ("size", PFloat (inject_Z sz / 100));
                       ("bold", pbool bold);
                       ("italic", pbool italic);
                       ("underline", pbool underline);
                       ("strike", pbool strike)] [] in
        let color :=
          match solid_color r_pr with
          | Some color => [elem "color" (color_attrs color) []]
          | None => []
          end in
        let spc := ET.get_or r_pr "spc" "0" in
        letter_spacing <-
          (if String.eqb spc "0" then Ok []
           else v <- PyInt.int10 spc ;;
                Ok [leaf "letter_spacing" (PFloat (inject_Z v / 100))]) ;;
        let baseline := ET.get_or r_pr "baseline" "0" in
        let baseline_offset :=
          if String.eqb baseline "0" then []
          else [leaf "baseline_offset" (PStr baseline)] in
        Ok ([font] ++ color ++ letter_spacing ++ baseline_offset)
    end ;;
  Ok (elem "text_run" [("idx", PInt idx)] ([leaf "text" (PStr text)] ++ formatting)).

Definition spacing_points (p_pr : snode) (tag out : string) : list onode :=
  match ET.find tag p_pr with
  | Some spc =>
      match ET.find a:"spcPts" spc with
      | Some spc_pts => [leaf out (PStr (ET.get_or spc_pts "val" "0"))]
      | None => []
      end
  | None => []
  end.

Definition bullet : string := "•".

Definition extract_paragraph (p : snode) (idx : Z) : result onode :=
  properties <-
    match ET.find a:"pPr" p with
    | None => Ok ([], [])
    | Some p_pr =>
        let alignment := leaf "alignment" (PStr (ET.get_or p_pr "algn" "left")) in
        let level := ("level", PStr (ET.get_or p_pr "lvl" "0")) in
        line_spacing <-
          match ET.find a:"lnSpc" p_pr with
          | Some ln_spc =>
              match ET.find a:"spcPct" ln_spc with
              | Some spc_pct =>
                  val <- PyInt.int10 (ET.get_or spc_pct "val" "100000") ;;
                  Ok [leaf "line_spacing" (PFloat (inject_Z val / 100000))]
              | None => Ok []
              end
          | None => Ok []
          end ;;
        let space_before := spacing_points p_pr a:"spcBef" "space_before" in
        let space_after := spacing_points p_pr a:"spcAft" "space_after" in
        let bullet_attr :=
          match ET.find a:"buNone" p_pr with
          | Some _ => []
          | None =>
              match ET.find a:"buChar" p_pr with
              | Some bu_char => [("bullet", PStr (ET.get_or bu_char "char" bullet))]
              | None => [("bullet", PStr bullet)]
              end
          end in
        Ok ([level] ++ bullet_attr,
            [alignment] ++ line_spacing ++ space_before ++ space_after)
    end ;;
  let runs := ET.findall a:"r" p in
  run_elems <- map_enumerate extract_text_run 0 runs ;;
  let end_run :=
    match runs with
    | [] =>
        match ET.find a:"endParaRPr" p with
        | Some _ => [elem "text_run" [("idx", PStr "0")] [leaf "text" (PStr "")]]
        | None => []
        end
    | _ :: _ => []
    end in
  Ok (elem "paragraph" ([("idx", PInt idx)] ++ fst properties)
        (snd properties ++ run_elems ++ end_run)).

Definition extract_text_body (tx_body : snode) : result onode :=
  let language :=
    match ET.find a:"bodyPr" tx_body with
    | Some body_pr => [leaf "language" (PStr (ET.get_or body_pr "lang" "en-US"))]
    | None => []
    end in
  paragraphs <- map_enumerate extract_paragraph 0 (ET.findall a:"p" tx_body) ;;
  Ok (elem "text_body" [] (language ++ paragraphs)).

(** The [accessibility] child for a non-empty description. *)
Definition accessibility (c_nv_pr : option snode) : list onode :=
  let alt_text :=
    match c_nv_pr with
    | Some c_nv_pr => ET.get_or c_nv_pr "descr" ""
    | None => ""
    end in
  if PyStr.truthy alt_text
  then [elem "accessibility" [] [leaf "alt_text" (PStr alt_text)]]
  else [].

(** The [id] of an element: the source's, or else the counter. *)
Definition element_id (c_nv_pr : option snode) (z_order : Z) : pyval :=
  match c_nv_pr with
  | Some c_nv_pr =>
      match ET.get c_nv_pr "id" with
      | Some id => PStr id
      | None => PInt z_order
      end
  | None => PInt z_order
  end.

Definition extract_shape_element (slide_file : string) (shape : snode) (z_order : Z)
  : result (option onode) :=
  match ET.find p:"nvSpPr" shape with
  | None => Ok None
  | Some nv_sp_pr =>
      let c_nv_pr := ET.find p:"cNvPr" nv_sp_pr in
      let shape_id := element_id c_nv_pr z_order in
      geom <- geometry_of shape ;;
      let placeholder :=
        match ET.find p:"ph" nv_sp_pr with
        | Some ph =>
            [elem "placeholder" [("type", PStr (ET.get_or ph "type" "body"));
                                 ("idx", PStr (ET.get_or ph "idx" "0"))] []]
        | None => []
        end in
      let fill := extract_fill_properties shape in
      stroke <- extract_stroke_properties shape ;;
      text_body <-
        match ET.find p:"txBody" shape with
        | Some tx_body => body <- extract_text_body tx_body ;; Ok [body]
        | None => Ok []
        end ;;
      Ok (Some (elem "element"
                  [("id", shape_id); ("type", PStr "textbox"); ("z_order", PInt z_order)]
                  (geom ++ placeholder ++ [fill; stroke] ++ text_body
                   ++ accessibility c_nv_pr)))
  end.

Definition rels_of (part : string) : string := PyStr.replace ".xml" ".xml.rels" part.

Definition extract_picture_element (slide_file : string) (pic : snode) (z_order : Z)
  : result (option onode) :=
  match ET.find p:"nvPicPr" pic with
  | None => Ok None
  | Some nv_pic_pr =>
      let c_nv_pr := ET.find p:"cNvPr" nv_pic_pr in
      let pic_id := element_id c_nv_pr z_order in
      geom <- geometry_of pic ;;
      let media :=
        match ET.find a:"blip" pic with
        | Some blip =>
            match nonempty (ET.get blip r:"embed") with
            | Some embed =>
                match nonempty (get_relationship_target pkg (rels_of slide_file) (Some embed)) with
                | Some image_file =>
                    [elem "media_reference"
                       [("file", PStr image_file); ("type", PSuffix image_file)] []]
                | None => []
                end
            | None => []
            end
        | None => []
        end in
      Ok (Some (elem "element"
                  [("id", pic_id); ("type", PStr "picture"); ("z_order", PInt z_order)]
                  (geom ++ media ++ accessibility c_nv_pr)))
  end.

Definition get_text_from_chart_element (e : option snode) : option string :=
  match e with
  | None => None
  | Some e =>
      let rich :=
        match ET.find a:"t" e with
        | Some rich => nonempty (ET.text rich)
        | None => None
        end in
      match rich with
      | Some s => Some s
      | None =>
          match ET.find c:"strRef" e with
          | Some str_ref =>
              match ET.find c:"strCache" str_ref with
              | Some str_cache =>
                  match ET.find c:"pt" str_cache with
                  | Some pt =>
                      match ET.find c:"v" pt with
                      | Some v => nonempty (ET.text v)
                      | None => None
                      end
                  | None => None
                  end
              | None => None
              end
          | None => None
          end
      end
  end.

(** The chart definition is built inside one [try]: nothing has been added
    to it yet when reading the part, parsing it, or splitting the tag of the
    plot raises, so an exception leaves it empty. *)
Definition extract_chart_definition (chart_file : string) : onode :=
  let built :=
    chart_root <- read_xml pkg chart_file ;;
    chart_type <-
      match ET.find c:"plotArea" chart_root with
      | Some plot_area =>
          match List.find (fun child => PyStr.contains "Chart" (ET.tag child))
                          (ET.children plot_area) with
          | Some child =>
              local <- of_option (nth_error (PyStr.split "}" (ET.tag child)) 1) ;;
              Ok [leaf "chart_type" (PStr local)]
          | None => Ok []
          end
      | None => Ok []
      end ;;
    let title :=
      match nonempty (get_text_from_chart_element (ET.find c:"title" chart_root)) with
      | Some title_text => [leaf "title" (PStr title_text)]
      | None => []
      end in
    let legend :=
      match ET.find c:"legend" chart_root with
      | Some legend =>
          let position :=
            match ET.find c:"legendPos" legend with
            | Some leg_pos => ET.get_or leg_pos "val" "r"
            | None => "r"
            end in
          [elem "legend" [("position", PStr position); ("show", PStr "true")] []]
      | None => []
      end in
    let series :=
      match ET.findall c:"ser" chart_root with
      | [] => []
      | series_list =>
          [elem "series" []
             (map (fun '(idx, ser) =>
                     let name :=
                       match nonempty (get_text_from_chart_element (ET.find c:"tx" ser)) with
                       | Some ser_name => [("name", PStr ser_name)]
                       | None => []
                       end in
                     elem "data_series" ([("idx", PInt idx)] ++ name) [])
                  (enumerate 0 series_list))]
      end in
    Ok (chart_type ++ title ++ legend ++ series) in
  match built with
  | Ok parts => elem "chart_definition" [] parts
  | Raise => elem "chart_definition" [] []
  end.

Definition extract_chart_element (slide_file : string) (gf : snode) (z_order : Z)
  : result onode :=
  geom <- geometry_of gf ;;
  let chart_def :=
    match ET.find c:"chart" gf with
    | Some chart_elem =>
        match nonempty (ET.get chart_elem r:"id") with
        | Some rid =>
            match nonempty (get_relationship_target pkg (rels_of slide_file) (Some rid)) with
            | Some chart_file => [extract_chart_definition ("ppt/" ++ chart_file)%string]
            | None => []
            end
        | None => []
        end
    | None => []
    end in
  Ok (elem "element" [("type", PStr "chart"); ("z_order", PInt z_order)]
        (geom ++ chart_def)).

Definition get_all_text_from_element (e : snode) : string :=
  PyStr.join " "
    (flat_map (fun t => opt_list (nonempty (ET.text t))) (ET.findall a:"t" e)).

Definition extract_table_element (slide_file : string) (gf : snode) (z_order : Z)
  : result onode :=
  geom <- geometry_of gf ;;
  let table_def :=
    match ET.find a:"tbl" gf with
    | Some tbl =>
        let rows := ET.findall a:"tr" tbl in
        let col_count :=
          match rows with
          | first :: _ =>
              [leaf "col_count" (PInt (Z.of_nat (List.length (ET.findall a:"tc" first))))]
          | [] => []
          end in
        let row_elems :=
          map (fun '(row_idx, row) =>
                 elem "row" [("idx", PInt row_idx)]
                   (map (fun '(cell_idx, cell) =>
                           let text := get_all_text_from_element cell in
                           elem "cell" [("idx", PInt cell_idx)]
                             (if PyStr.truthy text then [leaf "text" (PStr text)] else []))
                        (enumerate 0 (ET.findall a:"tc" row))))
              (enumerate 0 rows) in
        [elem "table_definition" []
           ([leaf "row_count" (PInt (Z.of_nat (List.length rows)))]
            ++ col_count ++ [elem "rows" [] row_elems])]
    | None => []
    end in
  Ok (elem "element" [("type", PStr "table"); ("z_order", PInt z_order)]
        (geom ++ table_def)).

Definition extract_graphic_frame (slide_file : string) (gf : snode) (z_order : Z)
  : result (option onode) :=
  let chart := ET.find c:"chart" gf in
  let table := ET.find a:"tbl" gf in
  match chart, table with
  | Some _, _ => e <- extract_chart_element slide_file gf z_order ;; Ok (Some e)
  | None, Some _ => e <- extract_table_element slide_file gf z_order ;; Ok (Some e)
  | None, None =>
      Ok (Some (elem "element" [("type", PStr "graphic"); ("z_order", PInt z_order)] []))
  end.

Definition extract_group_element (slide_file : string) (grp : snode) (z_order : Z)
  : result (option onode) :=
  geom <- geometry_of grp ;;
  let '(inner, exn) :=
    run_pass (extract_shape_element slide_file) (ET.findall p:"sp" grp) start in
  if exn then Raise
  else Ok (Some (elem "element" [("type", PStr "group"); ("z_order", PInt z_order)]
                   (geom ++ [elem "children" [] (appended inner)]))).

(** The four loops over the shape tree.  The result is what has been
    appended to the [elements] element, the counter, and whether an
    exception left the function. *)
Definition extract_slide_elements (slide_root : snode) (slide_file : string)
  : cursor * bool :=
  match ET.find p:"spTree" slide_root with
  | None => (start, false)
  | Some sp_tree =>
      let st := run_pass (extract_shape_element slide_file)
                         (ET.findall p:"sp" sp_tree) start in
      let st := then_pass (extract_picture_element slide_file)
                          (ET.findall p:"pic" sp_tree) st in
      let st := then_pass (extract_graphic_frame slide_file)
                          (ET.findall p:"graphicFrame" sp_tree) st in
      then_pass (extract_group_element slide_file) (ET.findall p:"grpSp" sp_tree) st
  end.

Definition infer_slide_role (slide_root : snode) (index : Z) : string :=
  if index =? 1 then "title_slide"
  else
    match ET.find p:"spTree" slide_root with
    | None => "content"
    | Some sp_tree =>
        match ET.findall c:"chart" sp_tree with
        | _ :: _ => "data_visualization"
        | [] =>
            match ET.findall a:"tbl" sp_tree with
            | _ :: _ => "table_content"
            | [] =>
                if (2 <? List.length (ET.findall p:"pic" sp_tree))%nat
                then "image_gallery"
                else "content"
            end
        end
    end.

End Extractor.

(** ** Per-slide derived features *)

Definition Qltb (x y : Q) : bool := negb (Qle_bool y x).

Definition Qmax (x y : Q) : Q := if Qle_bool x y then y else x.
Definition Qmin (x y : Q) : Q := if Qle_bool x y then x else y.

Fixpoint sum_results (l : list (result Q)) : result Q :=
  match l with
  | [] => Ok 0%Q
  | r :: l' => x <- r ;; s <- sum_results l' ;; Ok (x + s)%Q
  end.

(** The area that one element adds to the covered total. *)
Definition element_area (e : onode) : result Q :=
  match ET.find "geometry" e with
  | Some geom =>
      match ET.find "width" geom, ET.find "height" geom with
      | Some width_elem, Some height_elem =>
          width <- py_float (ET.text width_elem) ;;
          height <- py_float (ET.text height_elem) ;;
          Ok (width * height)%Q
      | _, _ => Ok 0%Q
      end
  | None => Ok 0%Q
  end.

Record weights : Type :=
  { left_weight : Q; right_weight : Q; top_weight : Q; bottom_weight : Q }.

Definition no_weight : weights :=
  {| left_weight := 0; right_weight := 0; top_weight := 0; bottom_weight := 0 |}.

(** The four numbers of the geometry of an element, when it has all four. *)
Definition geometry_reading (e : onode) : result (option (Q * Q * Q * Q)) :=
  match ET.find "geometry" e with
  | Some geom =>
      match ET.find "x" geom, ET.find "y" geom,
            ET.find "width" geom, ET.find "height" geom with
      | Some x_elem, Some y_elem, Some width_elem, Some height_elem =>
          x <- py_float (ET.text x_elem) ;;
          y <- py_float (ET.text y_elem) ;;
          width <- py_float (ET.text width_elem) ;;
          height <- py_float (ET.text height_elem) ;;
          Ok (Some (x, y, width, height))
      | _, _, _, _ => Ok None
      end
  | None => Ok None
  end.

(** The whole weight of an element goes to one side of each midpoint:
    left or top when its centre is strictly before 0.5, right or bottom
    otherwise. *)
Definition place (w : weights) (x y width height : Q) : weights :=
  let weight := (width * height)%Q in
  let w1 :=
    if Qltb (x + width / 2) (1 # 2)
    then {| left_weight := left_weight w + weight;
            right_weight := right_weight w;
            top_weight := top_weight w;
            bottom_weight := bottom_weight w |}
    else {| left_weight := left_weight w;
            right_weight := right_weight w + weight;
            top_weight := top_weight w;
            bottom_weight := bottom_weight w |} in
  if Qltb (y + height / 2) (1 # 2)
  then {| left_weight := left_weight w1;
          right_weight := right_weight w1;
          top_weight := top_weight w1 + weight;
          bottom_weight := bottom_weight w1 |}
  else {| left_weight := left_weight w1;
          right_weight := right_weight w1;
          top_weight := top_weight w1;
          bottom_weight := bottom_weight w1 + weight |}.

(** One turn of the layout-balance loop. *)
Definition weigh (w : weights) (e : onode) : result weights :=
  g <- geometry_reading e ;;
  match g with
  | Some (x, y, width, height) => Ok (place w x y width height)
  | None => Ok w
  end.

Fixpoint weigh_all (w : weights) (l : list onode) : result weights :=
  match l with
  | [] => Ok w
  | e :: l' => w' <- weigh w e ;; weigh_all w' l'
  end.

(** [1.0 - abs(a - b) / total if total > 0 else 1.0] *)
Definition balance (a b : Q) : Q :=
  let total := (a + b)%Q in
  if Qltb 0 total then (1 - Qabs (a - b) / total)%Q else 1%Q.

(** The pair [(h_balance, v_balance)] of [compute_slide_features]. *)
Definition layout_balance (elements : onode) : result (Q * Q) :=
  w <- weigh_all no_weight (ET.findall "element" elements) ;;
  Ok (balance (left_weight w) (right_weight w),
      balance (top_weight w) (bottom_weight w)).

(** [len(x.text)] where [x.text] is a string of known characters. *)
Definition text_length (v : option pyval) : Z :=
  match v with
  | Some (PStr s) => Z.of_nat (String.length s)
  | _ => 0
  end.

Definition pv_truthy (v : pyval) : bool :=
  match v with
  | PStr s => PyStr.truthy s
  | PNone => false
  | _ => true
  end.

Definition pv_startswith (v : pyval) (pre : string) : bool :=
  match v with
  | PStr s => PyStr.startswith s pre
  | _ => false
  end.

Definition pyval_eq_dec (x y : pyval) : {x = y} + {x <> y}.
Proof.
  repeat decide equality.
Defined.

Definition pyval_eqb (x y : pyval) : bool := if pyval_eq_dec x y then true else false.

(** The colors that count: the [hex] of every [color] element below [n],
    empty values and scheme references left out. *)
Definition counted_colors (n : onode) : list pyval :=
  flat_map
    (fun color =>
       match ET.get color "hex" with
       | Some hex_val =>
           if pv_truthy hex_val && negb (pv_startswith hex_val "scheme:")
           then [hex_val] else []
       | None => []
       end)
    (ET.findall_with_attr "color" "hex" n).

Definition has_title_placeholder (e : onode) : bool :=
  match find_attr_eq "placeholder" "type" "title" e with
  | Some _ => true
  | None =>
      match find_attr_eq "placeholder" "type" "ctrTitle" e with
      | Some _ => true
      | None => false
      end
  end.

Definition compute_slide_features (slide_elem : onode) : result onode :=
  match ET.find "elements" slide_elem with
  | None => Ok (elem "computed_features" [] [])
  | Some elements =>
      let element_count := Z.of_nat (List.length (ET.children elements)) in
      let text_count :=
        Z.of_nat (List.length (findall_attr_eq "element" "type" "textbox" elements)) in
      let image_count :=
        Z.of_nat (List.length (findall_attr_eq "element" "type" "picture" elements)) in
      let chart_count :=
        Z.of_nat (List.length (findall_attr_eq "element" "type" "chart" elements)) in
      let ratio :=
        if 0 <? image_count + chart_count
        then PFixed 2 (inject_Z text_count / inject_Z (image_count + chart_count))
        else if 0 <? text_count then PInf else PFixed 2 0 in
      total_area <- sum_results (map element_area (ET.findall "element" elements)) ;;
      let whitespace := Qmax 0 (1 - Qmin total_area 1) in
      let total_chars :=
        fold_left Z.add
          (map (fun text_elem => text_length (ET.text text_elem))
               (ET.findall "text" slide_elem)) 0 in
      let readability := Qmax 0 (Qmin 100 (100 - inject_Z total_chars / 10)) in
      let hierarchy_score :=
        if existsb has_title_placeholder (ET.findall "element" elements)
        then (9 # 10)%Q else (1 # 2)%Q in
      let colors := nodup pyval_eq_dec (counted_colors slide_elem) in
      let color_diversity := Qmin (inject_Z (Z.of_nat (List.length colors)) / 10) 1 in
      hv <- layout_balance elements ;;
      Ok (elem "computed_features" []
            [leaf "element_count" (PInt element_count);
             leaf "text_to_image_ratio" ratio;
             leaf "whitespace_ratio" (PFixed 2 whitespace);
             leaf "readability_flesch" (PFixed 1 readability);
             leaf "visual_hierarchy_score" (PFixed 2 hierarchy_score);
             leaf "color_diversity" (PFixed 2 color_diversity);
             leaf "layout_balance_horizontal" (PFixed 2 (fst hv));
             leaf "layout_balance_vertical" (PFixed 2 (snd hv))])
  end.

(** ** One slide *)

Section Slide.
Variable pkg : package.

Definition extract_slide_metadata (slide_root : snode) (slide_file : string) : onode :=
  let show := ET.get_or slide_root "show" "1" in
  let has_notes := has_relationship_type pkg (rels_of slide_file) "notesSlide" in
  let transition :=
    match ET.find p:"transition" slide_root with
    | Some transition =>
        elem "transition" [("type", PStr (ET.get_or transition "spd" "medium"));
                           ("duration", PStr (ET.get_or transition "dur" "500"))] []
    | None => elem "transition" [("type", PStr "none")] []
    end in
  elem "slide_metadata" []
    [leaf "is_hidden" (pbool (String.eqb show "0"));
     leaf "has_notes" (pbool has_notes);
     transition].

Definition extract_background (slide_root : snode) : onode :=
  match ET.find p:"bg" slide_root with
  | None => elem "background" [("type", PStr "none")] []
  | Some bg_elem =>
      match solid_color bg_elem with
      | Some color => elem "background" [("type", PStr "solid"); ("color", PStr color)] []
      | None =>
          match ET.find a:"gradFill" bg_elem with
          | Some _ => elem "background" [("type", PStr "gradient")] []
          | None =>
              match ET.find a:"blipFill" bg_elem with
              | Some _ => elem "background" [("type", PStr "image")] []
              | None => elem "background" [("type", PStr "none")] []
              end
          end
      end
  end.

(** The body of [extract_slide_features] runs in one [try]: an exception
    keeps what the slide element holds at that point. *)
Definition extract_slide_features (slide_file : string) (index : Z) : onode :=
  let slide_elem := elem "slide" [("id", PStem slide_file); ("index", PInt index)] [] in
  match read_xml pkg slide_file with
  | Raise => slide_elem
  | Ok slide_root =>
      let metadata := extract_slide_metadata slide_root slide_file in
      let bg := extract_background slide_root in
      let semantic_role := infer_slide_role slide_root index in
      let '(cur, exn) := extract_slide_elements pkg slide_root slide_file in
      let slide_elem :=
        ET.extend slide_elem
          [metadata; bg;
           leaf "semantic_role" (PStr semantic_role);
           leaf "slide_hash" (PDigest slide_file);
           elem "elements" [] (appended cur)] in
      if exn then slide_elem
      else
        match compute_slide_features slide_elem with
        | Ok computed => ET.append slide_elem computed
        | Raise => slide_elem
        end
  end.

End Slide.

(** ** Document-level statistics *)

(** A [defaultdict(int)] used as a counter: keys stay in the order in which
    they were first met. *)
Fixpoint bump (k : pyval) (d : list (pyval * Z)) : list (pyval * Z) :=
  match d with
  | [] => [(k, 1)]
  | (k', n) :: d' => if pyval_eqb k' k then (k', n + 1) :: d' else (k', n) :: bump k d'
  end.

Definition tally (keys : list pyval) : list (pyval * Z) :=
  fold_left (fun d k => bump k d) keys [].

(** [sorted(items, key=lambda x: x[1], reverse=True)]: descending counts,
    items of equal count in their original order. *)
Fixpoint insert_desc (x : pyval * Z) (l : list (pyval * Z)) : list (pyval * Z) :=
  match l with
  | [] => [x]
  | y :: l' => if snd y <? snd x then x :: l else y :: insert_desc x l'
  end.

Definition sorted_desc (items : list (pyval * Z)) : list (pyval * Z) :=
  fold_left (fun acc x => insert_desc x acc) items [].

(** The ranking [top_colors] and the total it is a percentage of. *)
Definition top_colors (training_data : onode) : list (pyval * Z) :=
  firstn 10 (sorted_desc (tally (counted_colors training_data))).

Definition total_color_count (training_data : onode) : Z :=
  Z.of_nat (List.length (counted_colors training_data)).

Fixpoint sum_ints (l : list (result Z)) : result Z :=
  match l with
  | [] => Ok 0
  | r :: l' => x <- r ;; s <- sum_ints l' ;; Ok (x + s)
  end.

Definition compute_global_statistics (training_data : onode) : result onode :=
  match ET.find "slides" training_data with
  | None => Ok (elem "global_statistics" [] [])
  | Some slides =>
      let slide_count := Z.of_nat (List.length (ET.findall "slide" slides)) in
      let layout_usage :=
        tally (map (fun slide => ET.get_or slide "layout_ref" (PStr "unknown"))
                   (ET.findall "slide" slides)) in
      let role_usage :=
        tally (flat_map
                 (fun role =>
                    match ET.text role with
                    | Some t => if pv_truthy t then [t] else []
                    | None => []
                    end)
                 (ET.findall "semantic_role" slides)) in
      total_elements <-
        sum_ints (map (fun e => py_int (ET.text e))
                      (flat_map (ET.children_with_tag "element_count")
                                (ET.findall "computed_features" slides))) ;;
      let avg_elements :=
        if 0 <? slide_count then (inject_Z total_elements / inject_Z slide_count)%Q
        else 0%Q in
      let total := total_color_count training_data in
      Ok (elem "global_statistics" []
            [leaf "total_slides" (PInt slide_count);
             elem "layout_usage" []
               (map (fun '(layout, count) =>
                       elem "layout" [("ref", layout); ("count", PInt count)] [])
                    layout_usage);
             elem "semantic_role_distribution" []
               (map (fun '(role, count) =>
                       elem "role" [("type", role); ("count", PInt count)] [])
                    role_usage);
             leaf "avg_elements_per_slide" (PFixed 1 avg_elements);
             elem "most_used_colors" []
               (map (fun '(color, count) =>
                       let percentage :=
                         if 0 <? total
                         then (inject_Z count / inject_Z total * 100)%Q else 0%Q in
                       elem "color" [("hex", color); ("count", PInt count);
                                     ("percentage", PFixed 1 percentage)] [])
                    (top_colors training_data))])
  end.

(** ** Part decoders of the document level *)

(** The last component of a path, POSIX flavour. *)
Definition path_name (path : string) : string :=
  last (filter (fun part => negb (String.eqb part "" || String.eqb part "."))
               (PyStr.split "/" path)) "".

Section Document.
Variable pkg : package.

(** [get_text(root, xpath, default)] *)
Definition get_text (root : snode) (tag default : string) : string :=
  match ET.find tag root with
  | Some e => match nonempty (ET.text e) with Some s => s | None => default end
  | None => default
  end.

Definition extract_core_properties : list (string * string) :=
  let core :=
    match read_xml pkg "docProps/core.xml" with
    | Ok root =>
        [("author", get_text root (NS.qname NS.dc "creator") "");
         ("created_date", get_text root (NS.qname NS.dcterms "created") "");
         ("modified_date", get_text root (NS.qname NS.dcterms "modified") "");
         ("revision", get_text root (NS.qname NS.cp "revision") "1");
         ("language", get_text root (NS.qname NS.dc "language") "en-US")]
    | Raise => []
    end in
  let app :=
    match read_xml pkg "docProps/app.xml" with
    | Ok root => [("company", get_text root (NS.qname NS.extended "Company") "")]
    | Raise => []
    end in
  core ++ app.

Definition calculate_aspect_ratio (width height : Z) : result pyval :=
  let divisor := Z.gcd width height in
  if divisor =? 0 then Raise else Ok (PRatio (width / divisor) (height / divisor)).

(** The sizes are appended before the aspect ratio is computed, so a
    failure there leaves them in place and the defaults follow them. *)
Definition extract_slide_dimensions : onode :=
  let defaults := [leaf "width" (PStr "9144000"); leaf "height" (PStr "6858000")] in
  let children :=
    match read_xml pkg "ppt/presentation.xml" with
    | Raise => defaults
    | Ok root =>
        match ET.find p:"sldSz" root with
        | None => []
        | Some sld_sz =>
            match (width <- int_attr sld_sz "cx" 9144000 ;;
                   height <- int_attr sld_sz "cy" 6858000 ;;
                   Ok (width, height)) with
            | Raise => defaults
            | Ok (width, height) =>
                let sizes := [leaf "width" (PInt width);
                              leaf "height" (PInt height);
                              leaf "normalized_width" (PStr "1.0");
                              leaf "normalized_height" (PStr "1.0")] in
                match calculate_aspect_ratio width height with
                | Ok aspect => sizes ++ [leaf "aspect_ratio" aspect]
                | Raise => sizes ++ defaults
                end
            end
        end
    end in
  elem "slide_dimensions" [("unit", PStr "emu")] children.

Definition extract_custom_properties : option onode :=
  let properties :=
    match read_xml pkg "docProps/custom.xml" with
    | Raise => []
    | Ok root =>
        flat_map
          (fun prop =>
             let name := match ET.get prop "name" with Some s => PStr s | None => PNone end in
             match ET.find_any_with_attr "lpwstr" prop with
             | Some value_elem =>
                 let value :=
                   match nonempty (ET.text value_elem) with Some s => s | None => "" end in
                 [elem "property" [("key", name); ("value", PStr value)] []]
             | None => []
             end)
          (ET.findall (NS.qname NS.custom "property") root)
    end in
  match properties with
  | [] => None
  | _ :: _ => Some (elem "custom_properties" [] properties)
  end.

Definition extract_document_metadata : onode :=
  elem "document_metadata" []
    ([Node "presentation_id" [("type", PStr "uuid")] (Some (PEnv "uuid")) [];
      leaf "filename" (PEnv "filename");
      Node "file_hash" [("algorithm", PStr "sha256")] (Some (PEnv "file_hash")) [];
      leaf "extraction_timestamp" (PEnv "now");
      elem "provenance" []
        (map (fun '(key, value) => leaf key (PStr value)) extract_core_properties);
      extract_slide_dimensions]
     ++ opt_list extract_custom_properties).

Definition color_map : list (string * string) :=
  [("dk1", "text1"); ("lt1", "background1"); ("dk2", "text2"); ("lt2", "background2");
   ("accent1", "accent1"); ("accent2", "accent2"); ("accent3", "accent3");
   ("accent4", "accent4"); ("accent5", "accent5"); ("accent6", "accent6");
   ("hlink", "hyperlink"); ("folHlink", "followed_hyperlink")].

Definition extract_color_scheme (theme_root : snode) : onode :=
  let colors :=
    match ET.find a:"clrScheme" theme_root with
    | Some clr_scheme =>
        flat_map
          (fun '(name, role) =>
             match ET.find (NS.qname NS.a name) clr_scheme with
             | Some color_elem =>
                 match nonempty (extract_color_value color_elem) with
                 | Some hex_color =>
                     [elem "color" ([("name", PStr name); ("role", PStr role)]
                                    ++ color_attrs hex_color) []]
                 | None => []
                 end
             | None => []
             end)
          color_map
    | None => []
    end in
  elem "color_palette" [] [elem "color_scheme" [("type", PStr "main")] colors].

(** [e.find('.//t1/t2')] *)
Definition find_child_of (t1 t2 : string) (e : snode) : option snode :=
  hd_error (flat_map (ET.children_with_tag t2) (ET.findall t1 e)).

Definition extract_font_scheme (theme_root : snode) : onode :=
  let fonts :=
    match ET.find a:"fontScheme" theme_root with
    | Some font_scheme_elem =>
        (match find_child_of a:"majorFont" a:"latin" font_scheme_elem with
         | Some major_font =>
             [elem "major_font"
                [("family", PStr (ET.get_or major_font "typeface" "Calibri Light"))] []]
         | None => []
         end)
        ++
        (match find_child_of a:"minorFont" a:"latin" font_scheme_elem with
         | Some minor_font =>
             [elem "minor_font"
                [("family", PStr (ET.get_or minor_font "typeface" "Calibri"))] []]
         | None => []
         end)
    | None => []
    end in
  elem "font_scheme" [] fonts.

Definition extract_effect_styles (theme_root : snode) : option onode :=
  let styles :=
    match ET.find a:"effectStyleLst" theme_root with
    | Some effect_list =>
        map (fun '(idx, _) =>
               elem "effect_style" [("id", PNumbered "style" idx);
                                    ("has_effects", PStr "true")] [])
            (enumerate 1 (ET.findall a:"effectStyle" effect_list))
    | None => []
    end in
  match styles with
  | [] => None
  | _ :: _ => Some (elem "effect_styles" [] styles)
  end.

Definition extract_theme_definition : onode :=
  let parts :=
    match read_xml pkg "ppt/theme/theme1.xml" with
    | Raise => []
    | Ok root =>
        (match ET.find a:"theme" root with
         | Some theme_name => [leaf "theme_name" (PStr (ET.get_or theme_name "name" "Default"))]
         | None => []
         end)
        ++ [extract_color_scheme root; extract_font_scheme root]
        ++ opt_list (extract_effect_styles root)
    end in
  elem "theme_definition" [("id", PStr "theme1")] parts.

Definition extract_placeholder_info (shape_elem : snode) : result (option onode) :=
  match ET.find p:"ph" shape_elem with
  | None => Ok None
  | Some ph_elem =>
      geom <- geometry_of pkg shape_elem ;;
      Ok (Some (elem "placeholder"
                  [("type", PStr (ET.get_or ph_elem "type" "body"));
                   ("idx", PStr (ET.get_or ph_elem "idx" "0"))] geom))
  end.

(** The loop over the shapes of a layout sits in a [try]: the placeholders
    appended before an exception stay. *)
Definition extract_layout_info (layout_file : string) : onode :=
  match read_xml pkg layout_file with
  | Raise => elem "layout" [("id", PStem layout_file)] []
  | Ok layout_root =>
      let name :=
        match ET.find p:"cSld" layout_root with
        | Some cSld => [("name", PStr (ET.get_or cSld "name" "Unknown"))]
        | None => []
        end in
      let '(cur, _) :=
        run_pass (fun sp _ => extract_placeholder_info sp)
                 (filter (fun sp => match ET.find p:"ph" sp with
                                    | Some _ => true
                                    | None => false
                                    end)
                         (ET.findall p:"sp" layout_root))
                 start in
      elem "layout" ([("id", PStem layout_file)] ++ name) (appended cur)
  end.

(** The layouts of a master, up to the first relationship without a
    target (whose path cannot be formed). *)
Fixpoint layouts_of (layout_rels : list (option string)) : list onode :=
  match layout_rels with
  | Some layout_rel :: rest =>
      extract_layout_info ("ppt/slideLayouts/" ++ path_name layout_rel)%string
      :: layouts_of rest
  | None :: _ => []
  | [] => []
  end.

Definition extract_master_info (master_file : string) : onode :=
  match read_xml pkg master_file with
  | Raise => elem "slide_master" [("id", PStem master_file)] []
  | Ok _ =>
      let layout_rels := get_all_relationships pkg (rels_of master_file) "slideLayout" in
      elem "slide_master" [("id", PStem master_file)]
        [leaf "master_name" (PStr "Office Theme");
         elem "layouts" [] (layouts_of layout_rels)]
  end.

Definition presentation_rels : string := "ppt/_rels/presentation.xml.rels".

Definition extract_slide_masters : onode :=
  let masters :=
    match read_xml pkg "ppt/presentation.xml" with
    | Raise => []
    | Ok pres_root =>
        match ET.find p:"sldMasterIdLst" pres_root with
        | Some sld_master_id_list =>
            flat_map
              (fun master_id_elem =>
                 let rid := ET.get master_id_elem r:"id" in
                 match nonempty (get_relationship_target pkg presentation_rels rid) with
                 | Some master_file => [extract_master_info ("ppt/" ++ master_file)%string]
                 | None => []
                 end)
              (ET.findall p:"sldMasterId" sld_master_id_list)
        | None => []
        end
    end in
  elem "slide_masters" [] masters.

(** ** The pipeline driver *)

Definition is_slide_part (f : string) : bool :=
  PyStr.startswith f "ppt/slides/slide" && PyStr.endswith f ".xml".

(** The slide parts in presentation order.  The scan of the archive by
    name is the handler of the [try]: it runs when the presentation part
    cannot be read or parsed, and only then. *)
Definition get_slide_files : list string :=
  match read_xml pkg "ppt/presentation.xml" with
  | Ok root =>
      match ET.find p:"sldIdLst" root with
      | Some sld_id_list =>
          flat_map
            (fun sld_id =>
               let rid := ET.get sld_id r:"id" in
               match nonempty (get_relationship_target pkg presentation_rels rid) with
               | Some slide_file => [("ppt/" ++ slide_file)%string]
               | None => []
               end)
            (ET.findall p:"sldId" sld_id_list)
      | None => []
      end
  | Raise => PyStr.sort (filter is_slide_part (namelist pkg))
  end.

(** The tree that [extract_all_features] builds and returns.  The write of
    the tree, which comes between the two, is [write_tree] below, and the
    whole run is [extract_all_features_and_write]. *)
Definition extract_all_features : result onode :=
  let doc_meta := extract_document_metadata in
  let theme_def := extract_theme_definition in
  let masters := extract_slide_masters in
  let slide_files := get_slide_files in
  let slides_elem :=
    elem "slides" []
      (map (fun '(idx, slide_file) => extract_slide_features pkg slide_file idx)
           (enumerate 1 slide_files)) in
  let training_data :=
    Node "presentation_training_data" [("version", PStr "1.0")] None
         [doc_meta; theme_def; masters; slides_elem] in
  stats <- compute_global_statistics training_data ;;
  Ok (ET.append training_data stats).

End Document.

(** ** Vocabulary of the statements *)

(** [from; from + 1; ...], [n] numbers. *)
Fixpoint z_range (from : Z) (n : nat) : list Z :=
  match n with
  | O => []
  | S k => from :: z_range (from + 1) k
  end.

Definition z_order_attr (e : onode) : option pyval := ET.get e "z_order".
Definition type_attr (e : onode) : option pyval := ET.get e "type".

(** The nodes that the four loops of [extract_slide_elements] go through. *)
Definition processed (sp_tree : snode) : list snode :=
  ET.findall p:"sp" sp_tree ++ ET.findall p:"pic" sp_tree
  ++ ET.findall p:"graphicFrame" sp_tree ++ ET.findall p:"grpSp" sp_tree.

(** A shape or a picture is dropped when it lacks its naming element. *)
Definition named (naming : string) (src : snode) : bool :=
  match ET.find naming src with
  | Some _ => true
  | None => false
  end.

Definition frame_type (gf : snode) : string :=
  match ET.find c:"chart" gf, ET.find a:"tbl" gf with
  | Some _, _ => "chart"
  | None, Some _ => "table"
  | None, None => "graphic"
  end.

(** The reading of the specification for the walk over a slide: the four
    loops range over the direct children of the shape tree only. *)
Definition extract_slide_elements_top_level (pkg : package) (slide_root : snode)
                                            (slide_file : string) : cursor * bool :=
  match ET.find p:"spTree" slide_root with
  | None => (start, false)
  | Some sp_tree =>
      let st := run_pass (extract_shape_element pkg slide_file)
                         (ET.children_with_tag p:"sp" sp_tree) start in
      let st := then_pass (extract_picture_element pkg slide_file)
                          (ET.children_with_tag p:"pic" sp_tree) st in
      let st := then_pass (extract_graphic_frame pkg slide_file)
                          (ET.children_with_tag p:"graphicFrame" sp_tree) st in
      then_pass (extract_group_element pkg slide_file)
                (ET.children_with_tag p:"grpSp" sp_tree) st
  end.

(** How many nodes with a tag the shape tree of a slide holds. *)
Definition count_in_shape_tree (t : string) (slide_root : snode) : nat :=
  match ET.find p:"spTree" slide_root with
  | Some sp_tree => List.length (ET.findall t sp_tree)
  | None => O
  end.

(** The value of the text that [extract_geometry] writes for a raw
    coordinate on a canvas dimension, and that value scaled back. *)
Definition normalized (raw canvas : Z) : Q :=
  fixed_value 6 (inject_Z raw / inject_Z canvas).

Definition scaled_back (raw canvas : Z) : Q :=
  (normalized raw canvas * inject_Z canvas)%Q.

(** Whether a tag occurs nowhere in a tree. *)
Fixpoint lacks (t : string) (n : onode) : bool :=
  let 'Node t' _ _ cs := n in
  negb (String.eqb t' t)
  && (fix all (l : list onode) : bool :=
        match l with
        | [] => true
        | c :: l' => lacks t c && all l'
        end) cs.

(** ** Sample documents *)

Module Sample.

Definition shape_tree (shapes : list snode) : snode := Node p:"spTree" [] None shapes.

Definition slide_of (shapes : list snode) : snode :=
  Node p:"sld" [] None [Node p:"cSld" [] None [shape_tree shapes]].

Definition naming (id : string) : snode :=
  Node p:"nvSpPr" [] None [Node p:"cNvPr" [("id", id); ("name", "Box")] None []].

(** A shape without its naming element, and one with it. *)
Definition anonymous_shape : snode := Node p:"sp" [] None [].
Definition shape (id : string) : snode := Node p:"sp" [] None [naming id].

Definition xfrm (x y cx cy : string) : snode :=
  Node a:"xfrm" [] None
       [Node a:"off" [("x", x); ("y", y)] None [];
        Node a:"ext" [("cx", cx); ("cy", cy)] None []].

Definition shape_at (id x y cx cy : string) : snode :=
  Node p:"sp" [] None [naming id; Node p:"spPr" [] None [xfrm x y cx cy]].

Definition picture (id : string) : snode :=
  Node p:"pic" [] None
       [Node p:"nvPicPr" [] None [Node p:"cNvPr" [("id", id)] None []]].

Definition chart_frame : snode :=
  Node p:"graphicFrame" [] None
       [Node a:"graphic" [] None
             [Node a:"graphicData" [] None [Node c:"chart" [] None []]]].

Definition group (members : list snode) : snode := Node p:"grpSp" [] None members.

Definition run (color : snode) (s : string) : snode :=
  Node a:"r" [] None
       [Node a:"rPr" [] None [Node a:"solidFill" [] None [color]];
        Node a:"t" [] (Some s) []].

Definition text_shape (id : string) (runs : list snode) : snode :=
  Node p:"sp" [] None
       [naming id; Node p:"txBody" [] None [Node a:"p" [] None runs]].

Definition slide1 : string := "ppt/slides/slide1.xml".

(** One shape is dropped, the next one is kept. *)
Definition two_shapes : list snode := [anonymous_shape; shape "5"].
Definition dropped_then_kept : snode := slide_of two_shapes.

(** A group with one shape inside. *)
Definition nested : snode := slide_of [group [shape "7"]].

(** A group, a chart, a picture and a shape, in this document order. *)
Definition mixed_shapes : list snode :=
  [group [shape "9"]; chart_frame; picture "4"; shape "2"; anonymous_shape].
Definition mixed : snode := slide_of mixed_shapes.

(** One chart and three pictures. *)
Definition chart_and_pictures : snode :=
  slide_of [picture "2"; picture "3"; chart_frame; picture "4"].

(** One shape of half the canvas in each direction, centred on it
    (default canvas 9144000 x 6858000). *)
Definition centred : snode :=
  slide_of [shape_at "2" "2286000" "1714500" "4572000" "3429000"].
Definition centred_package : package := [(slide1, Some centred)].

(** A package whose presentation part is not well-formed and that holds no
    slide part. *)
Definition no_slides : package := [("ppt/presentation.xml", None)].

(** A transform one raw unit away from the corner. *)
Definition near_corner : snode := xfrm "1" "1" "1" "1".

(** Three runs: a literal red, a preset red and a scheme accent. *)
Definition colored : snode :=
  slide_of [text_shape "2"
              [run (Node a:"srgbClr" [("val", "ff0000")] None []) "a";
               run (Node a:"prstClr" [("val", "red")] None []) "b";
               run (Node a:"schemeClr" [("val", "accent1")] None []) "c"]].
Definition colored_package : package := [(slide1, Some colored)].

(** A fill that names both a literal and a scheme color. *)
Definition two_forms : snode :=
  Node a:"solidFill" [] None
       [Node a:"schemeClr" [("val", "accent1")] None [];
        Node a:"srgbClr" [("val", "00ff00")] None []].

(** A literal color whose value is three signed digits. *)
Definition signed_color : snode :=
  Node a:"solidFill" [] None [Node a:"srgbClr" [("val", "-1-1-1")] None []].

End Sample.

(** ** Properties of extractors that the statements rely on *)

Definition extractor : Type := snode -> Z -> result (option onode).

(** An extractor stamps its elements with the counter it is given. *)
Definition stamps (f : extractor) : Prop :=
  forall src z e, f src z = Ok (Some e) -> z_order_attr e = Some (PInt z).

(** An extractor drops exactly the sources that [keep] rejects, and gives
    the others the type [ty]. *)
Definition sorts (keep : snode -> bool) (ty : snode -> string) (f : extractor) : Prop :=
  forall src z,
    (f src z = Ok None -> keep src = false)
    /\ (forall e, f src z = Ok (Some e) ->
                  keep src = true /\ type_attr e = Some (PStr (ty src))).

(** The counter is one more than the number of elements appended, and the
    elements are numbered from 1 in the order of the list. *)
Definition counts (cur : cursor) : Prop :=
  z_order cur = 1 + Z.of_nat (List.length (appended cur)).

Definition numbered (cur : cursor) : Prop :=
  map z_order_attr (appended cur)
  = map (fun k => Some (PInt k)) (z_range 1 (List.length (appended cur))).

(** The reading of the specification for the counter: once the walk over a
    slide is over, it has advanced once for every node that the four loops
    went through. *)
Definition per_child_counter (pkg : package) (slide_root : snode) (slide_file : string)
  : Prop :=
  forall sp_tree,
    ET.find p:"spTree" slide_root = Some sp_tree ->
    snd (extract_slide_elements pkg slide_root slide_file) = false ->
    z_order (fst (extract_slide_elements pkg slide_root slide_file))
    = 1 + Z.of_nat (List.length (processed sp_tree)).

(** The hexadecimal digits. *)
Definition hex_chars : list ascii := list_ascii_of_string "0123456789abcdefABCDEF".

(** A ranking in descending order of count. *)
Definition descending (l : list (pyval * Z)) : Prop :=
  StronglySorted (fun x y => snd y <= snd x) l.

(** ** Vocabulary of the further statements *)

(** Whether every node of a tree, the root included, has a tag and a text
    that [P] accepts. *)
Fixpoint all_nodes (P : string -> option pyval -> bool) (n : onode) : bool :=
  let 'Node t _ x cs := n in
  P t x
  && (fix all (l : list onode) : bool :=
        match l with
        | [] => true
        | c :: l' => all_nodes P c && all l'
        end) cs.

(** The tags of the slide level, and those that the derived features read
    a number from. *)
Definition slide_level (t : string) : bool :=
  existsb (String.eqb t) ["slide"; "computed_features"; "elements"; "semantic_role"].

Definition coordinate (t : string) : bool :=
  existsb (String.eqb t) ["x"; "y"; "width"; "height"].

Definition is_number (x : option pyval) : bool :=
  match py_float x with
  | Ok _ => true
  | Raise => false
  end.

(** What holds of every node below the [elements] child of a slide. *)
Definition element_part (t : string) (x : option pyval) : bool :=
  negb (slide_level t) && (negb (coordinate t) || is_number x).

Definition sound (n : onode) : bool := all_nodes element_part n.

Definition slide_attrs (slide_file : string) (index : Z) : list (string * pyval) :=
  [("id", PStem slide_file); ("index", PInt index)].

(** The five children that a slide element gets before its features are
    computed. *)
Definition slide_sections (pkg : package) (slide_root : snode) (slide_file : string)
                          (index : Z) : list onode :=
  [extract_slide_metadata pkg slide_root slide_file;
   extract_background slide_root;
   leaf "semantic_role" (PStr (infer_slide_role slide_root index));
   leaf "slide_hash" (PDigest slide_file);
   elem "elements" [] (appended (fst (extract_slide_elements pkg slide_root slide_file)))].

(** The slide elements of the output, and the tree that the statistics
    are computed from. *)
Definition slides_of (pkg : package) : list onode :=
  map (fun '(idx, slide_file) => extract_slide_features pkg slide_file idx)
      (enumerate 1 (get_slide_files pkg)).

Definition training_data (pkg : package) : onode :=
  Node "presentation_training_data" [("version", PStr "1.0")] None
       [extract_document_metadata pkg; extract_theme_definition pkg;
        extract_slide_masters pkg; elem "slides" [] (slides_of pkg)].

(** The number of elements that a slide element of the output accounts
    for in the statistics: that of its [elements] child when its features
    were computed, none otherwise. *)
Definition reported_elements (slide : onode) : Z :=
  match ET.children_with_tag "computed_features" slide,
        ET.children_with_tag "elements" slide with
  | _ :: _, elements :: _ => Z.of_nat (List.length (ET.children elements))
  | _, _ => 0
  end.

Definition sum_Z (l : list Z) : Z := fold_right Z.add 0 l.

Module Broken.

(** A shape whose offset is not a number, between a sound shape and a
    picture. *)
Definition bad_offset : snode := Sample.shape_at "2" "abc" "0" "1" "1".

Definition slide : snode :=
  Sample.slide_of [Sample.shape "1"; bad_offset; Sample.picture "3"].

Definition deck : package := [(Sample.slide1, Some slide)].

End Broken.

Definition idx_attr (e : onode) : option pyval := ET.get e "idx".

Module Text.

(** A text body of two paragraphs, the first with two runs, the second
    empty but for its end mark. *)
Definition plain_run (s : string) : snode :=
  Node a:"r" [] None [Node a:"t" [] (Some s) []].

Definition two_runs : snode := Node a:"p" [] None [plain_run "a"; plain_run "b"].

Definition end_mark : snode := Node a:"p" [] None [Node a:"endParaRPr" [] None []].

Definition body : snode :=
  Node p:"txBody" [] None [Node a:"bodyPr" [] None []; two_runs; end_mark].

End Text.

(** How often a color occurs among those that count. *)
Definition occurrences (color : pyval) (colors : list pyval) : Z :=
  Z.of_nat (count_occ pyval_eq_dec colors color).

(** The order of [list.sort()] on names. *)
Definition name_order (x y : string) : Prop := String.leb x y = true.

Module Scan.

(** An archive without presentation part: three slide parts and one other
    part, not in name order. *)
Definition deck : package :=
  [("ppt/slides/slide2.xml", None);
   ("ppt/slides/slide10.xml", None);
   ("ppt/slides/_rels/slide1.xml.rels", None);
   ("ppt/slides/slide1.xml", None)].

End Scan.

(** Whether a name is free of dots. *)
Fixpoint dotless (s : string) : bool :=
  match s with
  | EmptyString => true
  | String c s' => negb (Ascii.eqb c ".") && dotless s'
  end.

Module Canvas.

(** A presentation part that declares a canvas without width, and one
    whose height is not a number. *)
Definition presentation (cx cy : string) : snode :=
  Node p:"presentation" [] None [Node p:"sldSz" [("cx", cx); ("cy", cy)] None []].

Definition flat : package := [("ppt/presentation.xml", Some (presentation "0" "6858000"))].

Definition odd_height : package :=
  [("ppt/presentation.xml", Some (presentation "12192000" "tall"))].

End Canvas.

Module Linked.

(** A slide with one picture and one chart, and its relationships in the
    part that the package format puts them in. *)
Definition picture : snode :=
  Node p:"pic" [] None
       [Node p:"nvPicPr" [] None [Node p:"cNvPr" [("id", "4")] None []];
        Node p:"blipFill" [] None [Node a:"blip" [(r:"embed", "rId2")] None []]].

Definition relationships : snode :=
  Node (NS.qname NS.rels "Relationships") [] None
       [Node (NS.qname NS.rels "Relationship")
             [("Id", "rId2"); ("Type", "image"); ("Target", "../media/image1.png")]
             None [];
        Node (NS.qname NS.rels "Relationship")
             [("Id", "rId3"); ("Type", "notesSlide");
              ("Target", "../notesSlides/notesSlide1.xml")]
             None []].

Definition deck : package :=
  [(Sample.slide1, Some (Sample.slide_of [picture]));
   ("ppt/slides/_rels/slide1.xml.rels", Some relationships)].

End Linked.

(** Whether the area that an element weighs in with is not negative. *)
Definition covers (e : onode) : bool :=
  match geometry_reading e with
  | Ok (Some (_, _, width, height)) => Qle_bool 0 (width * height)
  | _ => true
  end.

(** Every character. *)
Definition all_ascii : list ascii := map ascii_of_nat (seq 0 256).

(** Whether a component that [int(s, 16)] gives for a slice is in range. *)
Definition in_range (s : string) : bool :=
  match PyInt.int16 s with
  | Ok v => (-15 <=? v) && (v <=? 255)
  | Raise => true
  end.

Module Blank.

(** A slide element with one text box that has no geometry. *)
Definition elements : onode :=
  elem "elements" []
       [elem "element" [("id", PStr "2"); ("type", PStr "textbox"); ("z_order", PInt 1)] []].

Definition slide : onode := elem "slide" [] [elements].

End Blank.

Module Wide.

(** A presentation part that declares a 16:9 canvas. *)
Definition deck : package :=
  [("ppt/presentation.xml", Some (Canvas.presentation "12192000" "6858000"))].

End Wide.

Module Placed.

(** The elements of a slide with one box in its upper left quarter. *)
Definition elements : onode :=
  elem "elements" []
       [elem "element" [("id", PStr "2"); ("type", PStr "textbox"); ("z_order", PInt 1)]
             [elem "geometry" [("unit", PStr "normalized")]
                   [leaf "x" (PFixed 6 0); leaf "y" (PFixed 6 0);
                    leaf "width" (PFixed 6 (1 # 4)); leaf "height" (PFixed 6 (1 # 4))]]].

End Placed.

(** The value of a hexadecimal digit. *)
Definition hex_value (c : ascii) : Z :=
  match PyInt.digit_value c with
  | Some d => d
  | None => 0
  end.

(** The count that a key has in a counter, 0 when it is absent. *)
Fixpoint count_of (k : pyval) (d : list (pyval * Z)) : Z :=
  match d with
  | [] => 0
  | (k', n) :: d' => if pyval_eqb k' k then n else count_of k d'
  end.

(** Weights none of which is negative. *)
Definition settled (w : weights) : Prop :=
  (0 <= left_weight w)%Q /\ (0 <= right_weight w)%Q
  /\ (0 <= top_weight w)%Q /\ (0 <= bottom_weight w)%Q.

(** The roles of the slides whose part could be read and parsed, in the
    order of the parts. *)
Definition readable_roles (pkg : package) : list pyval :=
  flat_map (fun '(idx, slide_file) =>
              match read_xml pkg slide_file with
              | Ok slide_root => [PStr (infer_slide_role slide_root idx)]
              | Raise => []
              end)
           (enumerate 1 (get_slide_files pkg)).

(** ** The walk, the write and the samples of the statements *)

(** One loop of the walk, in the words of the statements: the sources are
    gone through in their order, each handed to the extractor with the
    counter as it stands; an element that comes back is emitted and the
    counter advances by one; for [None] nothing is emitted and the counter
    stays; an exception ends the loop ([left]), and nothing is emitted for
    that source or a later one. *)
Fixpoint loop_emits (f : extractor) (sources : list snode) (z : Z)
                    (es : list onode) (left : bool) : Prop :=
  match sources with
  | [] => es = [] /\ left = false
  | src :: rest =>
      match f src z with
      | Ok (Some e) => exists es', es = e :: es' /\ loop_emits f rest (z + 1) es' left
      | Ok None => loop_emits f rest z es left
      | Raise => es = [] /\ left = true
      end
  end.

(** A loop that comes after others: it does not run when one of them was
    left by an exception. *)
Definition next_loop_emits (f : extractor) (sources : list snode) (z : Z)
                           (es : list onode) (left_before left : bool) : Prop :=
  if left_before then es = [] /\ left = true else loop_emits f sources z es left.

(** An element that an extractor returned for a source, at some value of
    the counter. *)
Definition came_from (f : extractor) (src : snode) (e : onode) : Prop :=
  exists z, f src z = Ok (Some e).

(** The children of a group element come from the named shapes below the
    group, in document order. *)
Definition holds_shapes_of (pkg : package) (slide_file : string) (grp : snode) (e : onode)
  : Prop :=
  exists geom inner,
    ET.children e = geom ++ [elem "children" [] inner]
    /\ Forall2 (came_from (extract_shape_element pkg slide_file))
               (filter (named p:"nvSpPr") (ET.findall p:"sp" grp)) inner.

(** Whether a tree can be written out: the serializer raises [TypeError]
    on an attribute whose value is [None]. *)
Fixpoint writable (n : onode) : bool :=
  let 'Node _ a _ cs := n in
  forallb (fun kv => match snd kv with PNone => false | _ => true end) a
  && (fix all (l : list onode) : bool :=
        match l with
        | [] => true
        | c :: l' => writable c && all l'
        end) cs.

(** [ET.indent(tree)] and [tree.write(...)], the last step of
    [extract_all_features].  Errors of the file system are left out. *)
Definition write_tree (tree : onode) : result unit :=
  if writable tree then Ok tt else Raise.

(** The whole of [extract_all_features]: the tree is built, then written. *)
Definition extract_all_features_and_write (pkg : package) : result onode :=
  training_data <- extract_all_features pkg ;;
  _ <- write_tree training_data ;;
  Ok training_data.

(** Whether every custom property that is reported has its name. *)
Definition properties_named (pkg : package) : bool :=
  match read_xml pkg "docProps/custom.xml" with
  | Raise => true
  | Ok root =>
      forallb (fun prop =>
                 match ET.find_any_with_attr "lpwstr" prop, ET.get prop "name" with
                 | Some _, None => false
                 | _, _ => true
                 end)
              (ET.findall (NS.qname NS.custom "property") root)
  end.

Module Unnamed.

(** A package without slide parts whose custom properties hold one with a
    value and without a name. *)
Definition properties : snode :=
  Node (NS.qname NS.custom "Properties") [] None
       [Node (NS.qname NS.custom "property") [("fmtid", "x"); ("pid", "2")] None
             [Node "vt:lpwstr" [("lpwstr", "")] (Some "draft") []]].

Definition deck : package :=
  [("ppt/presentation.xml", None); ("docProps/custom.xml", Some properties)].

End Unnamed.

Module Resolved.

(** A fill with a system color that carries its last-rendered value, and
    one whose system color does not. *)
Definition window_text : snode :=
  Node a:"solidFill" [] None
       [Node a:"sysClr" [("val", "windowText"); ("lastClr", "0a0b0c")] None []].

Definition bare_system_color : snode :=
  Node a:"solidFill" [] None [Node a:"sysClr" [("val", "windowText")] None []].

End Resolved.

(** * Proofs *)

(** ** Results and ranges *)

Lemma bind_ok {A B : Type} (r : result A) (k : A -> result B) (b : B) :
  bind r k = Ok b -> exists a, r = Ok a /\ k a = Ok b.
Proof.
  destruct r as [a|]; simpl; intros H; [exists a; auto | discriminate].
Qed.

Lemma z_range_snoc n : forall from,
  z_range from (S n) = z_range from n ++ [from + Z.of_nat n].
Proof.
  induction n as [|n IH]; intros from.
  - simpl. f_equal. lia.
  - change (z_range from (S (S n))) with (from :: z_range (from + 1) (S n)).
    rewrite IH. simpl. do 2 f_equal. f_equal. lia.
Qed.

(** ** The loop keeps the counter and the numbering in step *)

Lemma counts_start : counts start.
Proof. reflexivity. Qed.

Lemma numbered_start : numbered start.
Proof. reflexivity. Qed.

Lemma counts_step cur e :
  counts cur -> counts {| appended := appended cur ++ [e]; z_order := z_order cur + 1 |}.
Proof.
  unfold counts; cbn [appended z_order]; intros H.
  rewrite length_app; cbn [List.length]. lia.
Qed.

Lemma numbered_step cur e :
  counts cur -> numbered cur -> z_order_attr e = Some (PInt (z_order cur)) ->
  numbered {| appended := appended cur ++ [e]; z_order := z_order cur + 1 |}.
Proof.
  unfold counts, numbered; cbn [appended z_order]; intros Hc Hn He.
  rewrite length_app, map_app, Hn; cbn [List.length map].
  rewrite Nat.add_1_r, z_range_snoc, map_app; cbn [map].
  rewrite He, Hc. reflexivity.
Qed.

Lemma run_pass_counts f l : forall cur,
  counts cur -> counts (fst (run_pass f l cur)).
Proof.
  induction l as [|src l IH]; simpl; intros cur Hc; auto.
  destruct (f src (z_order cur)) as [[e|]|]; simpl; auto using counts_step.
Qed.

Lemma run_pass_numbered f l : stamps f -> forall cur,
  counts cur -> numbered cur -> numbered (fst (run_pass f l cur)).
Proof.
  intros Hf. induction l as [|src l IH]; simpl; intros cur Hc Hn; auto.
  destruct (f src (z_order cur)) as [[e|]|] eqn:E; simpl; auto.
  apply IH; [apply counts_step | apply numbered_step]; auto.
  apply (Hf _ _ _ E).
Qed.

Lemma run_pass_types keep ty f l : sorts keep ty f -> forall cur cur',
  run_pass f l cur = (cur', false) ->
  map type_attr (appended cur')
  = map type_attr (appended cur) ++ map (fun s => Some (PStr (ty s))) (filter keep l).
Proof.
  intros Hf. induction l as [|src l IH]; simpl; intros cur cur' H.
  - injection H as <-. now rewrite app_nil_r.
  - destruct (Hf src (z_order cur)) as [Hnone Hsome].
    destruct (f src (z_order cur)) as [[e|]|]; try discriminate.
    + destruct (Hsome e eq_refl) as [-> Hty].
      rewrite (IH _ _ H); simpl. rewrite map_app; simpl.
      rewrite Hty, <- app_assoc. reflexivity.
    + rewrite (Hnone eq_refl). eauto.
Qed.

(** ** What each extractor returns *)

(** Opens the successive binds of a call that returned. *)
Ltac run_binds H :=
  repeat (let a := fresh "a" in
          let Ha := fresh "Ha" in
          apply bind_ok in H; destruct H as (a & Ha & H); cbv beta in H).

Ltac emitted H := injection H as <-.

Section Extractors.
Variable pkg : package.
Variable slide_file : string.

Lemma shape_outcome shape z r :
  extract_shape_element pkg slide_file shape z = Ok r ->
  match r with
  | None => named p:"nvSpPr" shape = false
  | Some e => named p:"nvSpPr" shape = true
              /\ type_attr e = Some (PStr "textbox")
              /\ z_order_attr e = Some (PInt z)
  end.
Proof.
  unfold extract_shape_element, named.
  destruct (ET.find _ shape) as [nv|]; intros H.
  - run_binds H. emitted H. repeat split.
  - emitted H. reflexivity.
Qed.

Lemma picture_outcome pic z r :
  extract_picture_element pkg slide_file pic z = Ok r ->
  match r with
  | None => named p:"nvPicPr" pic = false
  | Some e => named p:"nvPicPr" pic = true
              /\ type_attr e = Some (PStr "picture")
              /\ z_order_attr e = Some (PInt z)
  end.
Proof.
  unfold extract_picture_element, named.
  destruct (ET.find _ pic) as [nv|]; intros H.
  - run_binds H. emitted H. repeat split.
  - emitted H. reflexivity.
Qed.

Lemma frame_outcome gf z r :
  extract_graphic_frame pkg slide_file gf z = Ok r ->
  exists e, r = Some e
            /\ type_attr e = Some (PStr (frame_type gf))
            /\ z_order_attr e = Some (PInt z).
Proof.
  unfold extract_graphic_frame, frame_type, extract_chart_element, extract_table_element.
  destruct (ET.find c:"chart" gf) as [ch|];
    [|destruct (ET.find a:"tbl" gf) as [tb|]]; intros H.
  - apply bind_ok in H as (e & He & H). emitted H.
    run_binds He. emitted He. eexists; repeat split.
  - apply bind_ok in H as (e & He & H). emitted H.
    run_binds He. emitted He. eexists; repeat split.
  - emitted H. eexists; repeat split.
Qed.

Lemma group_outcome grp z r :
  extract_group_element pkg slide_file grp z = Ok r ->
  exists e, r = Some e
            /\ type_attr e = Some (PStr "group")
            /\ z_order_attr e = Some (PInt z).
Proof.
  unfold extract_group_element. intros H. run_binds H.
  destruct (run_pass _ _ start) as [inner [|]]; [discriminate|].
  emitted H. eexists; repeat split.
Qed.

Lemma shape_stamps : stamps (extract_shape_element pkg slide_file).
Proof. intros src z e H. now apply shape_outcome in H. Qed.

Lemma picture_stamps : stamps (extract_picture_element pkg slide_file).
Proof. intros src z e H. now apply picture_outcome in H. Qed.

Lemma frame_stamps : stamps (extract_graphic_frame pkg slide_file).
Proof.
  intros src z e H. apply frame_outcome in H as (e' & [= <-] & _ & H). exact H.
Qed.

Lemma group_stamps : stamps (extract_group_element pkg slide_file).
Proof.
  intros src z e H. apply group_outcome in H as (e' & [= <-] & _ & H). exact H.
Qed.

Lemma shape_sorts :
  sorts (named p:"nvSpPr") (fun _ => "textbox")
        (extract_shape_element pkg slide_file).
Proof.
  intros src z; split; [intros H | intros e H]; apply shape_outcome in H; tauto.
Qed.

Lemma picture_sorts :
  sorts (named p:"nvPicPr") (fun _ => "picture")
        (extract_picture_element pkg slide_file).
Proof.
  intros src z; split; [intros H | intros e H]; apply picture_outcome in H; tauto.
Qed.

Lemma frame_sorts :
  sorts (fun _ => true) frame_type (extract_graphic_frame pkg slide_file).
Proof.
  intros src z; split; [intros H | intros e H];
    apply frame_outcome in H as (e' & E & Ht & _); [discriminate|].
  injection E as <-. auto.
Qed.

Lemma group_sorts :
  sorts (fun _ => true) (fun _ => "group") (extract_group_element pkg slide_file).
Proof.
  intros src z; split; [intros H | intros e H];
    apply group_outcome in H as (e' & E & Ht & _); [discriminate|].
  injection E as <-. auto.
Qed.

End Extractors.

(** ** The four loops of a slide *)

Lemma then_pass_counts f l st : counts (fst st) -> counts (fst (then_pass f l st)).
Proof.
  unfold then_pass. destruct (snd st); auto using run_pass_counts.
Qed.

Lemma then_pass_numbered f l st :
  stamps f -> counts (fst st) -> numbered (fst st) -> numbered (fst (then_pass f l st)).
Proof.
  unfold then_pass. destruct (snd st); auto using run_pass_numbered.
Qed.

Lemma then_pass_completed f l st cur' :
  then_pass f l st = (cur', false) ->
  snd st = false /\ run_pass f l (fst st) = (cur', false).
Proof.
  unfold then_pass. destruct st as [cur [|]]; simpl; intros H; [discriminate | auto].
Qed.

Lemma filter_all {A : Type} (l : list A) : filter (fun _ => true) l = l.
Proof. induction l; simpl; congruence. Qed.

Lemma descendants_node {V : Type} tg a x (cs : list (node V)) :
  ET.descendants (Node tg a x cs) = flat_map (fun c => c :: ET.descendants c) cs.
Proof.
  cbn [ET.descendants]. induction cs as [|c cs IH]; cbn [flat_map app]; congruence.
Qed.

(** *** The loops, turn by turn *)

Lemma run_pass_emits (f : extractor) l : forall cur,
  exists es,
    appended (fst (run_pass f l cur)) = appended cur ++ es
    /\ z_order (fst (run_pass f l cur)) = z_order cur + Z.of_nat (List.length es)
    /\ loop_emits f l (z_order cur) es (snd (run_pass f l cur)).
Proof.
  induction l as [|src l IH]; intros cur; cbn [run_pass loop_emits].
  - exists []. cbn [fst snd List.length]. rewrite app_nil_r. repeat split. lia.
  - destruct (f src (z_order cur)) as [[e|]|].
    + destruct (IH {| appended := appended cur ++ [e]; z_order := z_order cur + 1 |})
        as (es & Ha & Hz & He).
      cbn [appended z_order] in *. exists (e :: es).
      rewrite Ha, Hz, <- app_assoc. cbn [app List.length]. repeat split; [lia|].
      exists es. split; [reflexivity | exact He].
    + apply IH.
    + exists []. cbn [fst snd List.length]. rewrite app_nil_r. repeat split. lia.
Qed.

Lemma then_pass_emits (f : extractor) l st :
  exists es,
    appended (fst (then_pass f l st)) = appended (fst st) ++ es
    /\ z_order (fst (then_pass f l st)) = z_order (fst st) + Z.of_nat (List.length es)
    /\ next_loop_emits f l (z_order (fst st)) es (snd st) (snd (then_pass f l st)).
Proof.
  unfold then_pass, next_loop_emits. destruct (snd st) eqn:E.
  - exists []. rewrite app_nil_r, E. cbn [List.length]. repeat split. lia.
  - apply run_pass_emits.
Qed.

(** The walk over a slide, loop by loop. *)
Lemma walk_emits (pkg : package) (slide_root : snode) (slide_file : string) :
  match ET.find p:"spTree" slide_root with
  | None => extract_slide_elements pkg slide_root slide_file = (start, false)
  | Some sp_tree =>
      exists shapes pictures frames groups left1 left2 left3,
        appended (fst (extract_slide_elements pkg slide_root slide_file))
        = shapes ++ pictures ++ frames ++ groups
        /\ loop_emits (extract_shape_element pkg slide_file)
                      (ET.findall p:"sp" sp_tree) 1 shapes left1
        /\ next_loop_emits (extract_picture_element pkg slide_file)
                           (ET.findall p:"pic" sp_tree)
                           (1 + Z.of_nat (List.length shapes)) pictures left1 left2
        /\ next_loop_emits (extract_graphic_frame pkg slide_file)
                           (ET.findall p:"graphicFrame" sp_tree)
                           (1 + Z.of_nat (List.length (shapes ++ pictures)))
                           frames left2 left3
        /\ next_loop_emits (extract_group_element pkg slide_file)
                           (ET.findall p:"grpSp" sp_tree)
                           (1 + Z.of_nat (List.length (shapes ++ pictures ++ frames)))
                           groups left3
                           (snd (extract_slide_elements pkg slide_root slide_file))
  end.
Proof.
  unfold extract_slide_elements.
  destruct (ET.find _ slide_root) as [sp_tree|]; [|reflexivity]. cbv zeta.
  set (st1 := run_pass (extract_shape_element pkg slide_file) (ET.findall p:"sp" sp_tree)
                       start).
  set (st2 := then_pass (extract_picture_element pkg slide_file)
                        (ET.findall p:"pic" sp_tree) st1).
  set (st3 := then_pass (extract_graphic_frame pkg slide_file)
                        (ET.findall p:"graphicFrame" sp_tree) st2).
  destruct (run_pass_emits (extract_shape_element pkg slide_file)
              (ET.findall p:"sp" sp_tree) start) as (shapes & A1 & Z1 & E1).
  fold st1 in A1, Z1, E1. cbn [appended z_order start app] in A1, Z1, E1.
  destruct (then_pass_emits (extract_picture_element pkg slide_file)
              (ET.findall p:"pic" sp_tree) st1) as (pictures & A2 & Z2 & E2).
  fold st2 in A2, Z2, E2.
  destruct (then_pass_emits (extract_graphic_frame pkg slide_file)
              (ET.findall p:"graphicFrame" sp_tree) st2) as (frames & A3 & Z3 & E3).
  fold st3 in A3, Z3, E3.
  destruct (then_pass_emits (extract_group_element pkg slide_file)
              (ET.findall p:"grpSp" sp_tree) st3) as (groups & A4 & Z4 & E4).
  exists shapes, pictures, frames, groups, (snd st1), (snd st2), (snd st3).
  rewrite A4, A3, A2, A1, <- !app_assoc. split; [reflexivity|].
  split; [exact E1|].
  rewrite Z1 in E2. split; [exact E2|].
  rewrite Z2, Z1 in E3. rewrite length_app, Nat2Z.inj_add, Z.add_assoc.
  split; [exact E3|].
  rewrite Z3, Z2, Z1 in E4.
  rewrite !length_app, !Nat2Z.inj_add, !Z.add_assoc. exact E4.
Qed.

(** C1 (as amended).  In [extract_slide_elements] the shared z-order
    counter advances exactly when an extractor returns an element.  Whatever
    the slide, and whether the walk ends normally or is left by an
    exception, the counter is one more than the number of elements
    appended; and the elements appended are those of the four loops, one
    after the other over the shapes, pictures, graphic frames and groups
    below the shape tree, each source handed to its extractor with the
    counter as it stands at that turn: an element that comes back is
    appended and the counter goes up by one, a source for which the
    extractor returns [None] takes no slot, and an exception ends the walk. *)
Theorem counter_follows_emitted (pkg : package) (slide_root : snode) (slide_file : string) :
  z_order (fst (extract_slide_elements pkg slide_root slide_file))
  = 1 + Z.of_nat (List.length (appended (fst (extract_slide_elements pkg slide_root slide_file))))
  /\ match ET.find p:"spTree" slide_root with
     | None => extract_slide_elements pkg slide_root slide_file = (start, false)
     | Some sp_tree =>
         exists shapes pictures frames groups left1 left2 left3,
           appended (fst (extract_slide_elements pkg slide_root slide_file))
           = shapes ++ pictures ++ frames ++ groups
           /\ loop_emits (extract_shape_element pkg slide_file)
                         (ET.findall p:"sp" sp_tree) 1 shapes left1
           /\ next_loop_emits (extract_picture_element pkg slide_file)
                              (ET.findall p:"pic" sp_tree)
                              (1 + Z.of_nat (List.length shapes)) pictures left1 left2
           /\ next_loop_emits (extract_graphic_frame pkg slide_file)
                              (ET.findall p:"graphicFrame" sp_tree)
                              (1 + Z.of_nat (List.length (shapes ++ pictures)))
                              frames left2 left3
           /\ next_loop_emits (extract_group_element pkg slide_file)
                              (ET.findall p:"grpSp" sp_tree)
                              (1 + Z.of_nat (List.length (shapes ++ pictures ++ frames)))
                              groups left3
                              (snd (extract_slide_elements pkg slide_root slide_file))
     end.
Proof.
  split; [|apply walk_emits].
  change (counts (fst (extract_slide_elements pkg slide_root slide_file))).
  unfold extract_slide_elements.
  destruct (ET.find _ slide_root) as [sp_tree|]; [|apply counts_start].
  cbv zeta. do 3 apply then_pass_counts. apply run_pass_counts, counts_start.
Qed.

Lemma walk_numbered (pkg : package) (slide_root : snode) (slide_file : string) :
  numbered (fst (extract_slide_elements pkg slide_root slide_file)).
Proof.
  unfold extract_slide_elements.
  destruct (ET.find _ slide_root) as [sp_tree|]; [|apply numbered_start].
  cbv zeta. apply then_pass_numbered; [apply group_stamps | do 2 apply then_pass_counts |].
  { apply run_pass_counts, counts_start. }
  apply then_pass_numbered; [apply frame_stamps | apply then_pass_counts |].
  { apply run_pass_counts, counts_start. }
  apply then_pass_numbered; [apply picture_stamps | |].
  { apply run_pass_counts, counts_start. }
  apply run_pass_numbered;
    [apply shape_stamps | apply counts_start | apply numbered_start].
Qed.

(** C2.  The [z_order] attributes of the elements appended for a slide are
    1, 2, ..., n in the order of the output: they are the successive values
    of the counter of the walk, not values read from the source. *)
Theorem z_orders_contiguous (pkg : package) (slide_root : snode) (slide_file : string) :
  map z_order_attr (appended (fst (extract_slide_elements pkg slide_root slide_file)))
  = map (fun k => Some (PInt k))
        (z_range 1 (List.length
                      (appended (fst (extract_slide_elements pkg slide_root slide_file))))).
Proof. exact (walk_numbered pkg slide_root slide_file). Qed.

Lemma emits_sources keep ty (f : extractor) l :
  sorts keep ty f ->
  forall z es, loop_emits f l z es false -> Forall2 (came_from f) (filter keep l) es.
Proof.
  intros Hf. induction l as [|src l IH]; cbn [loop_emits filter]; intros z es H.
  - destruct H as [-> _]. constructor.
  - destruct (Hf src z) as [Hnone Hsome].
    destruct (f src z) as [[e|]|] eqn:E.
    + destruct H as (es' & -> & H). destruct (Hsome e eq_refl) as [-> _].
      constructor; [exists z; exact E | exact (IH _ _ H)].
    + rewrite (Hnone eq_refl). exact (IH _ _ H).
    + destruct H as [_ H]. discriminate.
Qed.

Lemma next_loop_completed (f : extractor) l z es left_before :
  next_loop_emits f l z es left_before false ->
  left_before = false /\ loop_emits f l z es false.
Proof.
  unfold next_loop_emits. destruct left_before; [intros [_ H]; discriminate | auto].
Qed.

Lemma descendants_nested {V : Type} : forall (n d x : node V),
  In d (ET.descendants n) -> In x (ET.descendants d) -> In x (ET.descendants n).
Proof.
  fix IH 1. intros [tg a t cs] d x Hd Hx. rewrite descendants_node in *.
  induction cs as [|c cs IHcs]; [destruct Hd|].
  cbn [flat_map] in *. apply in_app_or in Hd. apply in_or_app.
  destruct Hd as [[<-|Hd]|Hd].
  - left. right. exact Hx.
  - left. right. exact (IH c d x Hd Hx).
  - right. exact (IHcs Hd).
Qed.

Lemma findall_nested {V : Type} t t' (n d x : node V) :
  In d (ET.findall t n) -> In x (ET.findall t' d) -> In x (ET.findall t' n).
Proof.
  unfold ET.findall. rewrite !filter_In. intros [Hd _] [Hx Ht]. split; [|exact Ht].
  exact (descendants_nested n d x Hd Hx).
Qed.

Lemma group_holds_shapes pkg slide_file grp e :
  came_from (extract_group_element pkg slide_file) grp e ->
  holds_shapes_of pkg slide_file grp e.
Proof.
  intros [z H]. unfold extract_group_element in H.
  apply bind_ok in H as (geom & _ & H).
  destruct (run_pass_emits (extract_shape_element pkg slide_file)
              (ET.findall p:"sp" grp) start) as (inner & A & _ & E).
  destruct (run_pass _ _ start) as [cur [|]]; [discriminate|]. emitted H.
  cbn [fst snd appended start app z_order] in A, E.
  exists geom, (appended cur). split; [reflexivity|]. rewrite A.
  exact (emits_sources _ _ _ _ (shape_sorts pkg slide_file) _ _ E).
Qed.

Lemma Forall2_impl {A B : Type} (P Q : A -> B -> Prop) l l' :
  (forall a b, P a b -> Q a b) -> Forall2 P l l' -> Forall2 Q l l'.
Proof.
  intros H. induction 1; constructor; auto.
Qed.

(** C3 (as amended).  When the walk over a slide ends normally, the types of
    the elements appended are: one [textbox] for every [sp] below the shape
    tree that has its naming element, then one [picture] for every such
    [pic], then the type of every [graphicFrame], then one [group] for every
    [grpSp].  The elements of each loop come from its sources in document
    order, one by one, and the sources range over all the descendants of the
    shape tree, at any depth: whatever lies below a group is below the shape
    tree too, and is gone through by the loop of its kind.  A group element
    also holds, as its children, the elements of the named shapes below the
    group, in document order. *)
Theorem four_passes_over_descendants
        (pkg : package) (slide_root sp_tree : snode) (slide_file : string) :
  ET.find p:"spTree" slide_root = Some sp_tree ->
  snd (extract_slide_elements pkg slide_root slide_file) = false ->
  map type_attr (appended (fst (extract_slide_elements pkg slide_root slide_file)))
  = map (fun _ => Some (PStr "textbox"))
        (filter (named p:"nvSpPr") (ET.findall p:"sp" sp_tree))
    ++ map (fun _ => Some (PStr "picture"))
           (filter (named p:"nvPicPr") (ET.findall p:"pic" sp_tree))
    ++ map (fun gf => Some (PStr (frame_type gf)))
           (ET.findall p:"graphicFrame" sp_tree)
    ++ map (fun _ => Some (PStr "group")) (ET.findall p:"grpSp" sp_tree)
  /\ (exists shapes pictures frames groups,
        appended (fst (extract_slide_elements pkg slide_root slide_file))
        = shapes ++ pictures ++ frames ++ groups
        /\ Forall2 (came_from (extract_shape_element pkg slide_file))
                   (filter (named p:"nvSpPr") (ET.findall p:"sp" sp_tree)) shapes
        /\ Forall2 (came_from (extract_picture_element pkg slide_file))
                   (filter (named p:"nvPicPr") (ET.findall p:"pic" sp_tree)) pictures
        /\ Forall2 (came_from (extract_graphic_frame pkg slide_file))
                   (ET.findall p:"graphicFrame" sp_tree) frames
        /\ Forall2 (came_from (extract_group_element pkg slide_file))
                   (ET.findall p:"grpSp" sp_tree) groups
        /\ Forall2 (holds_shapes_of pkg slide_file)
                   (ET.findall p:"grpSp" sp_tree) groups)
  /\ (forall grp t x,
         In grp (ET.findall p:"grpSp" sp_tree) -> In x (ET.findall t grp) ->
         In x (ET.findall t sp_tree)).
Proof.
  intros Htree Hdone. split; [|split].
  - revert Hdone. unfold extract_slide_elements. rewrite Htree. intros Hdone.
    cbv zeta in *.
    match goal with
    | |- context [fst ?r] => destruct r as [cur4 exn] eqn:E4
    end.
    simpl in Hdone; subst exn; simpl fst.
    apply then_pass_completed in E4 as [H3 E4].
    destruct (then_pass (extract_graphic_frame pkg slide_file) _ _) as [cur3 exn] eqn:E3.
    simpl in H3, E4; subst exn.
    apply then_pass_completed in E3 as [H2 E3].
    destruct (then_pass (extract_picture_element pkg slide_file) _ _) as [cur2 exn] eqn:E2.
    simpl in H2, E3; subst exn.
    apply then_pass_completed in E2 as [H1 E2].
    destruct (run_pass (extract_shape_element pkg slide_file) _ _) as [cur1 exn] eqn:E1.
    simpl in H1, E2; subst exn.
    rewrite (run_pass_types _ _ _ _ (group_sorts pkg slide_file) _ _ E4).
    rewrite (run_pass_types _ _ _ _ (frame_sorts pkg slide_file) _ _ E3).
    rewrite (run_pass_types _ _ _ _ (picture_sorts pkg slide_file) _ _ E2).
    rewrite (run_pass_types _ _ _ _ (shape_sorts pkg slide_file) _ _ E1).
    rewrite !filter_all, <- !app_assoc. reflexivity.
  - pose proof (walk_emits pkg slide_root slide_file) as H. rewrite Htree, Hdone in H.
    destruct H as (shapes & pictures & frames & groups & l1 & l2 & l3 & Ha & E1 & E2 & E3 & E4).
    apply next_loop_completed in E4 as [-> E4].
    apply next_loop_completed in E3 as [-> E3].
    apply next_loop_completed in E2 as [-> E2].
    exists shapes, pictures, frames, groups. split; [exact Ha|].
    pose proof (emits_sources _ _ _ _ (group_sorts pkg slide_file) _ _ E4) as G.
    pose proof (emits_sources _ _ _ _ (frame_sorts pkg slide_file) _ _ E3) as F.
    rewrite filter_all in G, F.
    split; [exact (emits_sources _ _ _ _ (shape_sorts pkg slide_file) _ _ E1)|].
    split; [exact (emits_sources _ _ _ _ (picture_sorts pkg slide_file) _ _ E2)|].
    split; [exact F|]. split; [exact G|].
    exact (Forall2_impl _ _ _ _ (group_holds_shapes pkg slide_file) G).
  - intros grp t x. apply findall_nested.
Qed.

(** C1, counterexample.  On a slide whose first shape lacks its naming
    element the two shapes gone through leave the counter at 2, not 3. *)
Lemma counter_skips_dropped_shape :
  ET.find p:"spTree" Sample.dropped_then_kept = Some (Sample.shape_tree Sample.two_shapes)
  /\ processed (Sample.shape_tree Sample.two_shapes) = Sample.two_shapes
  /\ snd (extract_slide_elements [] Sample.dropped_then_kept Sample.slide1) = false
  /\ z_order (fst (extract_slide_elements [] Sample.dropped_then_kept Sample.slide1)) = 2
  /\ ~ per_child_counter [] Sample.dropped_then_kept Sample.slide1.
Proof.
  repeat split.
  intros H. specialize (H _ eq_refl eq_refl). vm_compute in H. discriminate.
Qed.

(** C3, counterexample.  The shape inside a group is appended at the top
    level too, before the group; a walk over the direct children of the
    shape tree would append the group alone. *)
Lemma nested_shape_reaches_top_level :
  map (fun e => ET.get e "id")
      (appended (fst (extract_slide_elements [] Sample.nested Sample.slide1)))
  = [Some (PStr "7"); None]
  /\ map (fun e => ET.get e "id")
         (appended (fst (extract_slide_elements_top_level [] Sample.nested Sample.slide1)))
     = [None].
Proof. split; vm_compute; reflexivity. Qed.

(** C3, witness: a slide whose document order is group, chart, picture,
    shape. *)
Lemma four_passes_witness :
  ET.find p:"spTree" Sample.mixed = Some (Sample.shape_tree Sample.mixed_shapes)
  /\ snd (extract_slide_elements [] Sample.mixed Sample.slide1) = false
  /\ map type_attr (appended (fst (extract_slide_elements [] Sample.mixed Sample.slide1)))
     = [Some (PStr "textbox"); Some (PStr "textbox"); Some (PStr "picture");
        Some (PStr "chart"); Some (PStr "group")].
Proof.
  assert (H1 : ET.find p:"spTree" Sample.mixed
               = Some (Sample.shape_tree Sample.mixed_shapes)) by reflexivity.
  assert (H2 : snd (extract_slide_elements [] Sample.mixed Sample.slide1) = false)
    by reflexivity.
  split; [exact H1|]. split; [exact H2|].
  rewrite (proj1 (four_passes_over_descendants [] Sample.mixed _ Sample.slide1 H1 H2)).
  reflexivity.
Defined.

(** ** Searching a tree past subtrees that lack a tag *)

Lemma lacks_node t tg a x cs :
  lacks t (Node tg a x cs) = negb (String.eqb tg t) && forallb (lacks t) cs.
Proof.
  reflexivity.
Qed.

Lemma lacks_no_match t : forall n : onode,
  lacks t n = true -> filter (ET.has_tag t) (n :: ET.descendants n) = [].
Proof.
  fix IH 1. intros [tg a x cs] H.
  rewrite lacks_node in H. apply andb_prop in H as [Htag Hcs].
  rewrite descendants_node. cbn [filter]. unfold ET.has_tag at 1. cbn [ET.tag].
  apply negb_true_iff in Htag. rewrite Htag.
  induction cs as [|c cs IHcs]; [reflexivity|].
  cbn [forallb] in Hcs. apply andb_prop in Hcs as [Hc Hcs].
  change (flat_map (fun c0 : onode => c0 :: ET.descendants c0) (c :: cs))
    with ((c :: ET.descendants c)
          ++ flat_map (fun c0 : onode => c0 :: ET.descendants c0) cs).
  rewrite filter_app, (IH c Hc), (IHcs Hcs). reflexivity.
Qed.

Lemma find_after_lacking t tg a x (pre : list (onode)) (hit : onode) post :
  forallb (lacks t) pre = true -> ET.tag hit = t ->
  ET.find t (Node tg a x (pre ++ hit :: post)) = Some hit.
Proof.
  intros Hpre Hhit. unfold ET.find, ET.findall. rewrite descendants_node.
  induction pre as [|c pre IH].
  - cbn [app flat_map filter]. unfold ET.has_tag at 1.
    rewrite Hhit, String.eqb_refl. reflexivity.
  - cbn [forallb] in Hpre. apply andb_prop in Hpre as [Hc Hpre].
    change (flat_map (fun c0 : onode => c0 :: ET.descendants c0)
                     ((c :: pre) ++ hit :: post))
      with ((c :: ET.descendants c)
            ++ flat_map (fun c0 : onode => c0 :: ET.descendants c0)
                        (pre ++ hit :: post)).
    rewrite filter_app, (lacks_no_match t c Hc). exact (IH Hpre).
Qed.

(** The [elements] child of a slide holds what the walk appended, whether
    or not an exception ended the walk. *)
Lemma slide_elements_are_the_walk
      (pkg : package) (slide_file : string) (index : Z) (slide_root : snode) :
  read_xml pkg slide_file = Ok slide_root ->
  ET.find "elements" (extract_slide_features pkg slide_file index)
  = Some (elem "elements" []
            (appended (fst (extract_slide_elements pkg slide_root slide_file)))).
Proof.
  intros Hread. unfold extract_slide_features. rewrite Hread.
  destruct (extract_slide_elements pkg slide_root slide_file) as [cur exn].
  cbn [fst].
  set (metadata := extract_slide_metadata pkg slide_root slide_file).
  set (bg := extract_background slide_root).
  assert (Hpre : forallb (lacks "elements")
                   [metadata; bg;
                    leaf "semantic_role" (PStr (infer_slide_role slide_root index));
                    leaf "slide_hash" (PDigest slide_file)] = true).
  { subst metadata bg. unfold extract_slide_metadata, extract_background, solid_color.
    destruct (ET.find p:"transition" slide_root);
      destruct (ET.find p:"bg" slide_root) as [bg_elem|]; try reflexivity;
      destruct (ET.find a:"solidFill" bg_elem) as [sf|];
      try destruct (nonempty (extract_color_value sf));
      try reflexivity;
      destruct (ET.find a:"gradFill" bg_elem); try reflexivity;
      destruct (ET.find a:"blipFill" bg_elem); reflexivity. }
  set (pre := [metadata; bg;
               leaf "semantic_role" (PStr (infer_slide_role slide_root index));
               leaf "slide_hash" (PDigest slide_file)]) in *.
  set (hit := elem "elements" [] (appended cur)).
  destruct exn.
  - exact (find_after_lacking "elements" "slide" _ None pre hit [] Hpre eq_refl).
  - match goal with
    | |- context [compute_slide_features ?s] => destruct (compute_slide_features s) as [computed|]
    end.
    + exact (find_after_lacking "elements" "slide" _ None pre hit [computed] Hpre eq_refl).
    + exact (find_after_lacking "elements" "slide" _ None pre hit [] Hpre eq_refl).
Qed.

(** The numbering, read off the [elements] child of the slide element. *)
Lemma slide_z_orders
      (pkg : package) (slide_file : string) (index : Z) (slide_root : snode) :
  read_xml pkg slide_file = Ok slide_root ->
  exists elements,
    ET.find "elements" (extract_slide_features pkg slide_file index) = Some elements
    /\ map z_order_attr (ET.children elements)
       = map (fun k => Some (PInt k)) (z_range 1 (List.length (ET.children elements))).
Proof.
  intros Hread. eexists. split.
  - apply slide_elements_are_the_walk, Hread.
  - apply walk_numbered.
Qed.

Lemma forallb_flat_map {A B : Type} (P : B -> bool) (f : A -> list B) (l : list A) :
  (forall x, forallb P (f x) = true) -> forallb P (flat_map f l) = true.
Proof.
  intros H. induction l as [|x l IH]; cbn [flat_map]; [reflexivity|].
  rewrite forallb_app, H, IH. reflexivity.
Qed.

Lemma forallb_mapped {A B : Type} (P : B -> bool) (f : A -> B) (l : list A) :
  (forall x, P (f x) = true) -> forallb P (map f l) = true.
Proof.
  intros H. induction l as [|x l IH]; cbn [map forallb]; [reflexivity|].
  rewrite H, IH. reflexivity.
Qed.

(** ** No decoder of the document level writes a [slides] element *)

Section NoSlidesTag.
Variable pkg : package.

Lemma provenance_lacks_slides :
  lacks "slides"
        (elem "provenance" []
              (map (fun '(key, value) => leaf key (PStr value))
                   (extract_core_properties pkg))) = true.
Proof.
  unfold extract_core_properties.
  destruct (read_xml pkg "docProps/core.xml"), (read_xml pkg "docProps/app.xml");
    reflexivity.
Qed.

Lemma slide_dimensions_lacks_slides : lacks "slides" (extract_slide_dimensions pkg) = true.
Proof.
  unfold extract_slide_dimensions.
  destruct (read_xml pkg "ppt/presentation.xml") as [root|]; [|reflexivity].
  destruct (ET.find _ root) as [sld_sz|]; [|reflexivity].
  destruct (int_attr sld_sz "cx" 9144000) as [w|]; [|reflexivity]. cbn [bind].
  destruct (int_attr sld_sz "cy" 6858000) as [h|]; [|reflexivity]. cbn [bind].
  destruct (calculate_aspect_ratio w h); reflexivity.
Qed.

Lemma custom_properties_lack_slides :
  forallb (lacks "slides") (opt_list (extract_custom_properties pkg)) = true.
Proof.
  unfold extract_custom_properties.
  destruct (read_xml pkg "docProps/custom.xml") as [root|]; [|reflexivity].
  match goal with
  | |- context [match ?l with [] => None | _ :: _ => _ end] =>
      assert (H : forallb (lacks "slides") l = true); [|destruct l; [reflexivity|]]
  end.
  - apply forallb_flat_map. intros prop.
    destruct (ET.find_any_with_attr "lpwstr" prop); reflexivity.
  - cbn [opt_list forallb]. unfold elem. rewrite lacks_node, H. reflexivity.
Qed.

Lemma document_metadata_lacks_slides :
  lacks "slides" (extract_document_metadata pkg) = true.
Proof.
  unfold extract_document_metadata, elem at 1. rewrite lacks_node, forallb_app.
  rewrite custom_properties_lack_slides. cbn [forallb].
  rewrite slide_dimensions_lacks_slides, provenance_lacks_slides. reflexivity.
Qed.

Lemma color_scheme_lacks_slides theme_root :
  lacks "slides" (extract_color_scheme theme_root) = true.
Proof.
  unfold extract_color_scheme, elem at 1 2. rewrite lacks_node. cbn [forallb].
  rewrite lacks_node.
  destruct (ET.find _ theme_root) as [clr_scheme|]; [|reflexivity].
  rewrite forallb_flat_map; [reflexivity|]. intros [name role].
  destruct (ET.find _ clr_scheme) as [color_elem|]; [|reflexivity].
  destruct (nonempty _); reflexivity.
Qed.

Lemma font_scheme_lacks_slides theme_root :
  lacks "slides" (extract_font_scheme theme_root) = true.
Proof.
  unfold extract_font_scheme.
  destruct (ET.find _ theme_root) as [fs|]; [|reflexivity].
  destruct (find_child_of _ _ fs), (find_child_of _ _ fs); reflexivity.
Qed.

Lemma effect_styles_lack_slides theme_root :
  forallb (lacks "slides") (opt_list (extract_effect_styles theme_root)) = true.
Proof.
  unfold extract_effect_styles.
  match goal with
  | |- context [match ?l with [] => None | _ :: _ => _ end] =>
      assert (H : forallb (lacks "slides") l = true); [|destruct l; [reflexivity|]]
  end.
  - destruct (ET.find _ theme_root) as [effect_list|]; [|reflexivity].
    apply forallb_mapped. intros [idx e]. reflexivity.
  - cbn [opt_list forallb]. unfold elem. rewrite lacks_node, H. reflexivity.
Qed.

Lemma theme_definition_lacks_slides :
  lacks "slides" (extract_theme_definition pkg) = true.
Proof.
  unfold extract_theme_definition.
  destruct (read_xml pkg "ppt/theme/theme1.xml") as [root|]; [|reflexivity].
  unfold elem at 1. rewrite lacks_node, !forallb_app.
  rewrite effect_styles_lack_slides. cbn [forallb].
  rewrite color_scheme_lacks_slides, font_scheme_lacks_slides.
  destruct (ET.find _ root); reflexivity.
Qed.

Lemma geometry_lacks_slides xfrm g :
  extract_geometry pkg xfrm = Ok g -> lacks "slides" g = true.
Proof.
  unfold extract_geometry. destruct (canvas_size pkg) as [w h]. intros H.
  apply bind_ok in H as (position & Hp & H).
  apply bind_ok in H as (size & Hs & H).
  apply bind_ok in H as (rot & _ & H). emitted H.
  assert (forallb (lacks "slides") position = true) as Ep.
  { destruct (ET.find _ xfrm); [run_binds Hp|]; emitted Hp; reflexivity. }
  assert (forallb (lacks "slides") size = true) as Es.
  { destruct (ET.find a:"ext" xfrm); [run_binds Hs|]; emitted Hs; reflexivity. }
  unfold elem. rewrite lacks_node, !forallb_app, Ep, Es. reflexivity.
Qed.

Lemma placeholder_lacks_slides sp e :
  extract_placeholder_info pkg sp = Ok (Some e) -> lacks "slides" e = true.
Proof.
  unfold extract_placeholder_info, geometry_of.
  destruct (ET.find _ sp) as [ph|]; [|discriminate]. intros H.
  apply bind_ok in H as (geom & Hg & H). emitted H.
  unfold elem. rewrite lacks_node. cbn [negb String.eqb andb].
  destruct (ET.find _ sp) as [xfrm|].
  - apply bind_ok in Hg as (g & Hg & H). emitted H. cbn [forallb].
    rewrite (geometry_lacks_slides _ _ Hg). reflexivity.
  - emitted Hg. reflexivity.
Qed.

Lemma run_pass_lacks t (f : extractor) l :
  (forall src z e, f src z = Ok (Some e) -> lacks t e = true) ->
  forall cur, forallb (lacks t) (appended cur) = true ->
              forallb (lacks t) (appended (fst (run_pass f l cur))) = true.
Proof.
  intros Hf. induction l as [|src l IH]; cbn [run_pass]; intros cur Hc; auto.
  destruct (f src (z_order cur)) as [[e|]|] eqn:E; auto.
  apply IH. cbn [appended]. rewrite forallb_app, Hc. cbn [forallb].
  rewrite (Hf _ _ _ E). reflexivity.
Qed.

Lemma layout_lacks_slides layout_file :
  lacks "slides" (extract_layout_info pkg layout_file) = true.
Proof.
  unfold extract_layout_info.
  destruct (read_xml pkg layout_file) as [layout_root|]; [|reflexivity].
  match goal with
  | |- context [run_pass ?f ?l start] =>
      assert (H : forallb (lacks "slides") (appended (fst (run_pass f l start))) = true);
        [apply run_pass_lacks;
         [intros src z e; apply placeholder_lacks_slides | reflexivity]
        |destruct (run_pass f l start) as [cur exn]]
  end.
  cbn [fst] in H. unfold elem. rewrite lacks_node, H. reflexivity.
Qed.

Lemma layouts_lack_slides rels :
  forallb (lacks "slides") (layouts_of pkg rels) = true.
Proof.
  induction rels as [|[rel|] rels IH]; cbn [layouts_of forallb]; [reflexivity| |reflexivity].
  rewrite layout_lacks_slides, IH. reflexivity.
Qed.

Lemma master_lacks_slides master_file :
  lacks "slides" (extract_master_info pkg master_file) = true.
Proof.
  unfold extract_master_info.
  destruct (read_xml pkg master_file); [|reflexivity].
  unfold elem. rewrite lacks_node. cbn [forallb]. rewrite lacks_node, layouts_lack_slides.
  reflexivity.
Qed.

Lemma slide_masters_lacks_slides :
  lacks "slides" (extract_slide_masters pkg) = true.
Proof.
  unfold extract_slide_masters.
  destruct (read_xml pkg "ppt/presentation.xml") as [root|]; [|reflexivity].
  destruct (ET.find _ root) as [lst|]; [|reflexivity].
  unfold elem. rewrite lacks_node, forallb_flat_map; [reflexivity|].
  intros m. destruct (nonempty _); [|reflexivity].
  cbn [forallb]. rewrite master_lacks_slides. reflexivity.
Qed.

End NoSlidesTag.

(** ** A package without slide parts *)

(** The scan of the archive by name is not tried when the presentation part
    parses: without a slide list no slide part is found, whatever the
    archive holds. *)
Lemma no_scan_when_presentation_parses (pkg : package) (root : snode) :
  read_xml pkg "ppt/presentation.xml" = Ok root ->
  ET.find p:"sldIdLst" root = None ->
  get_slide_files pkg = [].
Proof.
  intros Hread Hlist. unfold get_slide_files. rewrite Hread, Hlist. reflexivity.
Qed.

(** ** The role of a slide *)

(** C6.  The rules of [infer_slide_role] are tried in order and the first
    that applies decides: index 1 gives [title_slide]; otherwise a chart in
    the shape tree gives [data_visualization]; otherwise a table gives
    [table_content]; otherwise more than two pictures give [image_gallery];
    otherwise [content].  Pictures do not matter once there is a chart. *)
Theorem slide_role_rules (slide_root : snode) (index : Z) :
  let charts := count_in_shape_tree c:"chart" slide_root in
  let tables := count_in_shape_tree a:"tbl" slide_root in
  let pics := count_in_shape_tree p:"pic" slide_root in
  (index = 1 -> infer_slide_role slide_root index = "title_slide")
  /\ (index <> 1 -> (1 <= charts)%nat ->
      infer_slide_role slide_root index = "data_visualization")
  /\ (index <> 1 -> charts = 0%nat -> (1 <= tables)%nat ->
      infer_slide_role slide_root index = "table_content")
  /\ (index <> 1 -> charts = 0%nat -> tables = 0%nat -> (2 < pics)%nat ->
      infer_slide_role slide_root index = "image_gallery")
  /\ (index <> 1 -> charts = 0%nat -> tables = 0%nat -> (pics <= 2)%nat ->
      infer_slide_role slide_root index = "content").
Proof.
  unfold infer_slide_role, count_in_shape_tree.
  destruct (Z.eqb_spec index 1) as [->|Hne].
  - repeat split; intros; try reflexivity; congruence.
  - destruct (ET.find _ slide_root) as [sp_tree|]; cbn zeta.
    + destruct (ET.findall c:"chart" sp_tree) as [|ch chs];
        destruct (ET.findall a:"tbl" sp_tree) as [|tb tbs];
        cbn [List.length];
        repeat split; intros; try reflexivity; try congruence; try lia;
        destruct (Nat.ltb_spec 2 (List.length (ET.findall p:"pic" sp_tree)));
        try reflexivity; lia.
    + repeat split; intros; try reflexivity; try congruence; cbn in *; lia.
Qed.

(** C6, witness: the second slide of a deck, with one chart and three
    pictures. *)
Lemma slide_role_witness :
  2 <> 1
  /\ (1 <= count_in_shape_tree c:"chart" Sample.chart_and_pictures)%nat
  /\ count_in_shape_tree p:"pic" Sample.chart_and_pictures = 3%nat
  /\ infer_slide_role Sample.chart_and_pictures 2 = "data_visualization".
Proof.
  assert (H1 : 2 <> 1) by lia.
  assert (H2 : (1 <= count_in_shape_tree c:"chart"
                                         Sample.chart_and_pictures)%nat)
    by (vm_compute; lia).
  split; [exact H1|]. split; [exact H2|]. split; [reflexivity|].
  exact (proj1 (proj2 (slide_role_rules Sample.chart_and_pictures 2)) H1 H2).
Defined.

(** ** Color resolution *)

(** C9.  [extract_color_value] takes the literal sRGB value when there is
    one; else the scheme reference, as [scheme:<name>]; else the
    last-rendered value of the system color, which is the [lastClr]
    attribute of the first [sysClr] below the node when that attribute is
    there and not empty; else the preset name, as [preset:<name>]; and it
    returns [None] exactly when the node has none of the four. *)
Theorem color_precedence (element : snode) :
  (forall srgb_clr,
      ET.find a:"srgbClr" element = Some srgb_clr ->
      extract_color_value element
      = Some ("#" ++ PyStr.upper (ET.get_or srgb_clr "val" "FFFFFF"))%string)
  /\ (ET.find a:"srgbClr" element = None ->
      forall scheme_clr,
        ET.find a:"schemeClr" element = Some scheme_clr ->
        extract_color_value element
        = Some ("scheme:" ++ ET.get_or scheme_clr "val" "dk1")%string)
  /\ (ET.find a:"srgbClr" element = None ->
      ET.find a:"schemeClr" element = None ->
      forall sys_clr last_clr,
        ET.find a:"sysClr" element = Some sys_clr ->
        ET.get sys_clr "lastClr" = Some last_clr ->
        last_clr <> "" ->
        extract_color_value element = Some ("#" ++ PyStr.upper last_clr)%string)
  /\ (ET.find a:"srgbClr" element = None ->
      ET.find a:"schemeClr" element = None ->
      (ET.find a:"sysClr" element = None
       \/ exists sys_clr,
            ET.find a:"sysClr" element = Some sys_clr
            /\ (ET.get sys_clr "lastClr" = None \/ ET.get sys_clr "lastClr" = Some "")) ->
      forall prst_clr,
        ET.find a:"prstClr" element = Some prst_clr ->
        extract_color_value element
        = Some ("preset:" ++ ET.get_or prst_clr "val" "black")%string)
  /\ (extract_color_value element = None <->
      ET.find a:"srgbClr" element = None
      /\ ET.find a:"schemeClr" element = None
      /\ (ET.find a:"sysClr" element = None
          \/ exists sys_clr,
               ET.find a:"sysClr" element = Some sys_clr
               /\ (ET.get sys_clr "lastClr" = None \/ ET.get sys_clr "lastClr" = Some ""))
      /\ ET.find a:"prstClr" element = None).
Proof.
  assert (Hsys : last_rendered element = None
                 <-> (ET.find a:"sysClr" element = None
                      \/ exists sys_clr,
                           ET.find a:"sysClr" element = Some sys_clr
                           /\ (ET.get sys_clr "lastClr" = None
                               \/ ET.get sys_clr "lastClr" = Some ""))).
  { unfold last_rendered. destruct (ET.find a:"sysClr" element) as [sys_clr|].
    - destruct (ET.get sys_clr "lastClr") as [[|c s]|] eqn:E; cbn [nonempty PyStr.truthy].
      + split; [intros _; right; exists sys_clr; auto | reflexivity].
      + split; [discriminate|].
        intros [H | (s' & Hs & [H | H])]; [discriminate | |];
          injection Hs as <-; rewrite E in H; discriminate.
      + split; [intros _; right; exists sys_clr; auto | reflexivity].
    - split; [auto | reflexivity]. }
  assert (Hlast : forall sys_clr last_clr,
             ET.find a:"sysClr" element = Some sys_clr ->
             ET.get sys_clr "lastClr" = Some last_clr -> last_clr <> "" ->
             last_rendered element = Some last_clr).
  { intros sys_clr last_clr Hf Hg Hne. unfold last_rendered. rewrite Hf, Hg.
    destruct last_clr; [contradiction | reflexivity]. }
  unfold extract_color_value.
  destruct (ET.find a:"srgbClr" element) as [srgb|].
  { repeat split; try congruence; try (intros; discriminate).
    intros (H & _). discriminate. }
  destruct (ET.find a:"schemeClr" element) as [scheme|].
  { repeat split; try congruence; try (intros; discriminate).
    intros (_ & H & _). discriminate. }
  split; [intros ? [=]|]. split; [intros _ ? [=]|].
  split.
  { intros _ _ sys_clr last_clr Hf Hg Hne. rewrite (Hlast _ _ Hf Hg Hne). reflexivity. }
  split.
  { intros _ _ Habsent prst_clr Hp. rewrite (proj2 Hsys Habsent), Hp. reflexivity. }
  destruct (last_rendered element) as [last|] eqn:L.
  - split; [discriminate|]. intros (_ & _ & Habsent & _).
    apply Hsys in Habsent. discriminate.
  - destruct (ET.find a:"prstClr" element) as [prst|].
    + split; [discriminate|]. intros (_ & _ & _ & H). discriminate.
    + split; [|reflexivity]. intros _. repeat split. now apply Hsys.
Qed.

(** C9, witness: a fill that names a scheme color before a literal one, a
    system color with its last-rendered value, and one without. *)
Lemma color_precedence_witness :
  (ET.find a:"srgbClr" Sample.two_forms
   = Some (Node a:"srgbClr" [("val", "00ff00")] None [])
   /\ extract_color_value Sample.two_forms = Some "#00FF00")
  /\ (ET.find a:"sysClr" Resolved.window_text
      = Some (Node a:"sysClr" [("val", "windowText"); ("lastClr", "0a0b0c")] None [])
      /\ extract_color_value Resolved.window_text = Some "#0A0B0C")
  /\ extract_color_value Resolved.bare_system_color = None.
Proof.
  split; [|split].
  - split; [reflexivity|].
    exact (proj1 (color_precedence Sample.two_forms) _ eq_refl).
  - split; [reflexivity|].
    refine (proj1 (proj2 (proj2 (color_precedence Resolved.window_text)))
                  eq_refl eq_refl _ "0a0b0c" eq_refl eq_refl _).
    discriminate.
  - apply (proj2 (proj2 (proj2 (proj2 (color_precedence Resolved.bare_system_color))))).
    repeat split. right. eexists. split; [reflexivity|]. left. reflexivity.
Defined.

(** C10, at the failing inputs.  A literal color whose value is [-1-1-1]
    reaches [hex_to_rgb] as [#-1-1-1], and its three slices parse as signed
    hexadecimal numbers: the components are negative.  A string of five
    hexadecimal digits is not sent to the fallback either: its last slice
    has one digit. *)
Theorem hex_to_rgb_signed_and_short :
  extract_color_value Sample.signed_color = Some "#-1-1-1"
  /\ hex_to_rgb "#-1-1-1" = (-1, -1, -1)
  /\ hex_to_rgb "abcde" = (171, 205, 14).
Proof. repeat split. Qed.

Lemma prefix_head (c : ascii) (pre s : string) :
  prefix (String c pre) s = true -> exists s', s = String c s'.
Proof.
  destruct s as [|d s']; cbn [prefix]; [discriminate|].
  destruct (ascii_dec c d) as [->|]; [eauto | discriminate].
Qed.

(** What holds of [hex_to_rgb]: it is a total function, and a scheme or
    preset reference is sent to the fallback. *)
Lemma references_are_gray (hex_color : string) :
  PyStr.startswith hex_color "scheme:" = true
  \/ PyStr.startswith hex_color "preset:" = true ->
  hex_to_rgb hex_color = gray.
Proof.
  unfold PyStr.startswith. intros H. unfold hex_to_rgb.
  assert (PyStr.startswith hex_color "#" = false) as ->.
  { destruct H as [H|H]; apply prefix_head in H as [s' ->]; reflexivity. }
  unfold PyStr.startswith. destruct H as [-> | ->]; [reflexivity|].
  rewrite orb_true_r. reflexivity.
Qed.

Lemma int16_of_two_digits (c1 c2 : ascii) :
  In c1 hex_chars -> In c2 hex_chars ->
  exists v, PyInt.int16 (String c1 (String c2 "")) = Ok v /\ 0 <= v <= 255.
Proof.
  intros H1 H2. cbn [hex_chars list_ascii_of_string In] in H1, H2.
  repeat (destruct H1 as [<-|H1]; [|]); try contradiction;
    repeat (destruct H2 as [<-|H2]; [|]); try contradiction;
    (eexists; split; [vm_compute; reflexivity | lia]).
Qed.

Lemma hex_char_is_plain (c : ascii) (s : string) :
  In c hex_chars ->
  PyStr.startswith (String c s) "#" = false
  /\ PyStr.startswith (String c s) "scheme:" = false
  /\ PyStr.startswith (String c s) "preset:" = false.
Proof.
  intros H. cbn [hex_chars list_ascii_of_string In] in H.
  repeat (destruct H as [<-|H]; [repeat split|]); contradiction.
Qed.

(** On six hexadecimal digits, with or without the leading [#], the
    components are three bytes. *)
Lemma six_digits_are_bytes (c1 c2 c3 c4 c5 c6 : ascii) (hex_color : string) :
  Forall (fun c => In c hex_chars) [c1; c2; c3; c4; c5; c6] ->
  hex_color = String c1 (String c2 (String c3 (String c4 (String c5 (String c6 "")))))
  \/ hex_color
     = String "#" (String c1 (String c2 (String c3 (String c4 (String c5 (String c6 "")))))) ->
  exists r g b,
    hex_to_rgb hex_color = (r, g, b)
    /\ PyInt.int16 (String c1 (String c2 "")) = Ok r
    /\ PyInt.int16 (String c3 (String c4 "")) = Ok g
    /\ PyInt.int16 (String c5 (String c6 "")) = Ok b
    /\ 0 <= r <= 255 /\ 0 <= g <= 255 /\ 0 <= b <= 255.
Proof.
  intros Hall Hform.
  inversion Hall as [|? ? H1 Hall1]; subst. inversion Hall1 as [|? ? H2 Hall2]; subst.
  inversion Hall2 as [|? ? H3 Hall3]; subst. inversion Hall3 as [|? ? H4 Hall4]; subst.
  inversion Hall4 as [|? ? H5 Hall5]; subst. inversion Hall5 as [|? ? H6 _]; subst.
  destruct (int16_of_two_digits c1 c2 H1 H2) as (r & Hr & Br).
  destruct (int16_of_two_digits c3 c4 H3 H4) as (g & Hg & Bg).
  destruct (int16_of_two_digits c5 c6 H5 H6) as (b & Hb & Bb).
  exists r, g, b. repeat split; try assumption; try lia.
  unfold hex_to_rgb.
  destruct (hex_char_is_plain c1
              (String c2 (String c3 (String c4 (String c5 (String c6 ""))))) H1)
    as (Hsharp & Hscheme & Hpreset).
  destruct Hform as [-> | ->].
  - rewrite Hsharp, Hscheme, Hpreset. cbn [orb].
    change (PyStr.slice 0 2 _) with (String c1 (String c2 "")).
    change (PyStr.slice 2 4 _) with (String c3 (String c4 "")).
    change (PyStr.slice 4 6 _) with (String c5 (String c6 "")).
    rewrite Hr, Hg, Hb. reflexivity.
  - change (PyStr.startswith (String "#" _) "#") with true. cbn iota.
    change (PyStr.drop 1 (String "#" ?s)) with s.
    cbn [PyStr.drop]. rewrite Hscheme, Hpreset. cbn [orb].
    change (PyStr.slice 0 2 _) with (String c1 (String c2 "")).
    change (PyStr.slice 2 4 _) with (String c3 (String c4 "")).
    change (PyStr.slice 4 6 _) with (String c5 (String c6 "")).
    rewrite Hr, Hg, Hb. reflexivity.
Qed.

(** ** The color ranking of the document *)

(** C8, at the failing input.  Of three text runs colored with a literal
    red, a preset red and a scheme accent, the ranking leaves out the scheme
    reference only: the preset reference is ranked, and counted in the
    total that the percentages are taken of. *)
Theorem preset_reference_is_ranked :
  exists training_data,
    extract_all_features Sample.colored_package = Ok training_data
    /\ ET.find "most_used_colors" training_data
       = Some (elem "most_used_colors" []
                 [elem "color" [("hex", PStr "#FF0000"); ("count", PInt 1);
                                ("percentage", PFixed 1 (100 # 2))] [];
                  elem "color" [("hex", PStr "preset:red"); ("count", PInt 1);
                                ("percentage", PFixed 1 (100 # 2))] []]).
Proof. eexists. split; vm_compute; reflexivity. Qed.

(** ** Layout balance *)

Lemma Qltb_lt (x y : Q) : Qltb x y = true <-> (x < y)%Q.
Proof.
  unfold Qltb. rewrite negb_true_iff. split; intros H.
  - apply Qnot_le_lt. intros L. apply Qle_bool_iff in L. congruence.
  - destruct (Qle_bool y x) eqn:E; [|reflexivity].
    apply Qle_bool_iff in E. lra.
Qed.

Lemma Qltb_ge (x y : Q) : Qltb x y = false <-> (y <= x)%Q.
Proof.
  unfold Qltb. rewrite negb_false_iff. apply Qle_bool_iff.
Qed.

Lemma balance_without_mass (a b : Q) : (a + b <= 0)%Q -> balance a b = 1%Q.
Proof.
  intros H. unfold balance. apply Qltb_ge in H. rewrite H. reflexivity.
Qed.

Lemma balance_one_sided (a b : Q) :
  (0 < a + b)%Q -> (a == 0 \/ b == 0)%Q -> (balance a b == 0)%Q.
Proof.
  intros Hpos Hside. unfold balance.
  apply Qltb_lt in Hpos as Hb. rewrite Hb.
  assert (Qabs (a - b) == a + b)%Q as E.
  { destruct Hside as [Ha|Hb0].
    - rewrite Qabs_neg by lra. lra.
    - rewrite Qabs_pos by lra. lra. }
  rewrite E. field. lra.
Qed.

Lemma place_sides (x y width height : Q) :
  let w := place no_weight x y width height in
  ((left_weight w + right_weight w == width * height)
   /\ (left_weight w == 0 \/ right_weight w == 0)
   /\ (top_weight w + bottom_weight w == width * height)
   /\ (top_weight w == 0 \/ bottom_weight w == 0))%Q.
Proof.
  unfold place.
  destruct (Qltb (x + width / 2) (1 # 2)), (Qltb (y + height / 2) (1 # 2));
    cbn; repeat split; try lra; (left; lra) || (right; lra).
Qed.

Lemma reading_of_full_geometry (e geom x_elem y_elem width_elem height_elem : onode)
      (x y width height : Q) :
  ET.find "geometry" e = Some geom ->
  ET.find "x" geom = Some x_elem -> ET.find "y" geom = Some y_elem ->
  ET.find "width" geom = Some width_elem -> ET.find "height" geom = Some height_elem ->
  py_float (ET.text x_elem) = Ok x -> py_float (ET.text y_elem) = Ok y ->
  py_float (ET.text width_elem) = Ok width -> py_float (ET.text height_elem) = Ok height ->
  geometry_reading e = Ok (Some (x, y, width, height)).
Proof.
  intros Hg Hx Hy Hw Hh Ex Ey Ew Eh. unfold geometry_reading.
  rewrite Hg, Hx, Hy, Hw, Hh, Ex, Ey, Ew, Eh. reflexivity.
Qed.

Lemma reading_of_partial_geometry (e : onode) :
  ET.find "geometry" e = None
  \/ (exists geom,
         ET.find "geometry" e = Some geom
         /\ (ET.find "x" geom = None \/ ET.find "y" geom = None
             \/ ET.find "width" geom = None \/ ET.find "height" geom = None)) ->
  geometry_reading e = Ok None.
Proof.
  unfold geometry_reading. intros [-> | (geom & -> & H)]; [reflexivity|].
  destruct (ET.find "x" geom), (ET.find "y" geom), (ET.find "width" geom),
    (ET.find "height" geom); try reflexivity;
    destruct H as [H | [H | [H | H]]]; discriminate.
Qed.

(** C5 (as amended).  Both balances are 1 for a slide without elements.  For
    a slide with a single element they are 1 when the element has no
    geometry or its geometry lacks one of [x], [y], [width] and [height],
    and when it has all four but no positive area (total mass 0); they are
    both 0 when it has all four and a positive area: its whole weight lies
    on one side of each midpoint, wherever its centre is -- on the right
    and bottom side when the centre is exactly at (0.5, 0.5). *)
Theorem layout_balance_cases (elements : onode) :
  (ET.findall "element" elements = [] -> layout_balance elements = Ok (1%Q, 1%Q))
  /\ (forall e,
         ET.findall "element" elements = [e] ->
         ET.find "geometry" e = None
         \/ (exists geom,
                ET.find "geometry" e = Some geom
                /\ (ET.find "x" geom = None \/ ET.find "y" geom = None
                    \/ ET.find "width" geom = None \/ ET.find "height" geom = None)) ->
         layout_balance elements = Ok (1%Q, 1%Q))
  /\ (forall e geom x_elem y_elem width_elem height_elem x y width height,
         ET.findall "element" elements = [e] ->
         ET.find "geometry" e = Some geom ->
         ET.find "x" geom = Some x_elem -> ET.find "y" geom = Some y_elem ->
         ET.find "width" geom = Some width_elem ->
         ET.find "height" geom = Some height_elem ->
         py_float (ET.text x_elem) = Ok x -> py_float (ET.text y_elem) = Ok y ->
         py_float (ET.text width_elem) = Ok width ->
         py_float (ET.text height_elem) = Ok height ->
         ((width * height <= 0)%Q -> layout_balance elements = Ok (1%Q, 1%Q))
         /\ ((0 < width * height)%Q ->
             exists h v, layout_balance elements = Ok (h, v) /\ (h == 0)%Q /\ (v == 0)%Q)).
Proof.
  unfold layout_balance. split; [|split].
  - intros ->. reflexivity.
  - intros e -> Hpartial. cbn [weigh_all]. unfold weigh.
    rewrite (reading_of_partial_geometry e Hpartial). reflexivity.
  - intros e geom x_elem y_elem width_elem height_elem x y width height
           -> Hg Hx Hy Hw Hh Ex Ey Ew Eh.
    cbn [weigh_all]. unfold weigh.
    rewrite (reading_of_full_geometry e geom x_elem y_elem width_elem height_elem
               x y width height Hg Hx Hy Hw Hh Ex Ey Ew Eh).
    cbn [bind].
    destruct (place_sides x y width height) as (Hh' & Hhs & Hv & Hvs). split.
    + intros Hmass. rewrite !balance_without_mass; [reflexivity | lra | lra].
    + intros Hmass. do 2 eexists. split; [reflexivity|].
      split; apply balance_one_sided; auto; lra.
Qed.

(** C5, witness: one shape of half the canvas in each direction. *)
Lemma layout_balance_witness :
  exists elements e geom x_elem y_elem width_elem height_elem x y width height,
    ET.find "elements" (extract_slide_features Sample.centred_package Sample.slide1 1)
    = Some elements
    /\ ET.findall "element" elements = [e]
    /\ ET.find "geometry" e = Some geom
    /\ ET.find "x" geom = Some x_elem /\ ET.find "y" geom = Some y_elem
    /\ ET.find "width" geom = Some width_elem /\ ET.find "height" geom = Some height_elem
    /\ py_float (ET.text x_elem) = Ok x /\ py_float (ET.text y_elem) = Ok y
    /\ py_float (ET.text width_elem) = Ok width
    /\ py_float (ET.text height_elem) = Ok height
    /\ (0 < width * height)%Q
    /\ exists h v, layout_balance elements = Ok (h, v) /\ (h == 0)%Q /\ (v == 0)%Q.
Proof.
  do 11 eexists.
  split; [vm_compute; reflexivity|].
  split; [vm_compute; reflexivity|].
  split; [vm_compute; reflexivity|].
  split; [vm_compute; reflexivity|]. split; [vm_compute; reflexivity|].
  split; [vm_compute; reflexivity|]. split; [vm_compute; reflexivity|].
  split; [vm_compute; reflexivity|]. split; [vm_compute; reflexivity|].
  split; [vm_compute; reflexivity|]. split; [vm_compute; reflexivity|].
  split; [reflexivity|].
  refine (proj2 (proj2 (proj2 (layout_balance_cases _)) _ _ _ _ _ _ _ _ _ _
                       _ _ _ _ _ _ _ _ _ _) _);
    [vm_compute; reflexivity ..| reflexivity].
Defined.

(** C5, counterexample.  That shape is centred exactly at (0.5, 0.5), and
    the balances of its slide are not 1. *)
Lemma centred_element_is_unbalanced :
  exists elements e x y width height,
    ET.find "elements" (extract_slide_features Sample.centred_package Sample.slide1 1)
    = Some elements
    /\ ET.findall "element" elements = [e]
    /\ geometry_reading e = Ok (Some (x, y, width, height))
    /\ (x + width / 2 == 1 # 2)%Q
    /\ (y + height / 2 == 1 # 2)%Q
    /\ ~ (exists h v, layout_balance elements = Ok (h, v) /\ (h == 1)%Q /\ (v == 1)%Q).
Proof.
  do 6 eexists.
  split; [vm_compute; reflexivity|].
  split; [vm_compute; reflexivity|].
  split; [vm_compute; reflexivity|].
  split; [reflexivity|].
  split; [reflexivity|].
  intros (h & v & E & Hh & _). vm_compute in E. injection E as <- <-.
  vm_compute in Hh. discriminate.
Qed.

(** ** Normalized coordinates *)

(** What [extract_geometry] writes for a raw offset is its quotient by the
    canvas width at six decimals, and that text reads back as
    [normalized]. *)
Lemma geometry_writes_normalized
      (pkg : package) (xfrm off : snode) (x : Z) (g : onode) :
  ET.find a:"off" xfrm = Some off ->
  int_attr off "x" 0 = Ok x ->
  extract_geometry pkg xfrm = Ok g ->
  let canvas := fst (canvas_size pkg) in
  ET.find "x" g = Some (leaf "x" (PFixed 6 (inject_Z x / inject_Z canvas)))
  /\ py_float (Some (PFixed 6 (inject_Z x / inject_Z canvas))) = Ok (normalized x canvas).
Proof.
  intros Hoff Hx. unfold extract_geometry.
  destruct (canvas_size pkg) as [w h]. rewrite Hoff, Hx. cbn [bind fst].
  intros H. split; [|reflexivity].
  apply bind_ok in H as (position & Hp & H).
  apply bind_ok in Hp as (y & _ & Hp).
  apply bind_ok in Hp as (nx & Hnx & Hp).
  apply bind_ok in Hp as (ny & _ & Hp). emitted Hp.
  run_binds H. emitted H.
  unfold py_div in Hnx. destruct (w =? 0); [discriminate|]. emitted Hnx.
  reflexivity.
Qed.

Lemma round_half_even_close (q : Q) :
  (Qabs (inject_Z (round_half_even q) - q) <= 1 # 2)%Q.
Proof.
  unfold round_half_even.
  pose proof (Qfloor_le q) as Hlo.
  pose proof (Qlt_floor q) as Hhi.
  rewrite inject_Z_plus in Hhi. change (inject_Z 1) with 1%Q in Hhi.
  apply Qabs_Qle_condition.
  destruct (Qcompare_spec (q - inject_Z (Qfloor q)) (1 # 2)) as [E|L|G].
  - destruct (Z.even (Qfloor q));
      [|rewrite inject_Z_plus; change (inject_Z 1) with 1%Q]; lra.
  - lra.
  - rewrite inject_Z_plus; change (inject_Z 1) with 1%Q. lra.
Qed.

Lemma scaled_back_error (raw canvas : Z) :
  0 < canvas ->
  (Qabs (scaled_back raw canvas - inject_Z raw) <= inject_Z canvas / 2000000)%Q.
Proof.
  intros Hc. unfold scaled_back, normalized, fixed_value.
  assert (0 < inject_Z canvas)%Q as Hq
    by (change 0%Q with (inject_Z 0); rewrite <- Zlt_Qlt; exact Hc).
  change (inject_Z (10 ^ Z.of_nat 6)) with 1000000%Q.
  set (s := (inject_Z raw / inject_Z canvas * 1000000)%Q).
  pose proof (round_half_even_close s) as Hr.
  set (r := inject_Z (round_half_even s)) in *.
  assert (r / 1000000 * inject_Z canvas - inject_Z raw
          == (r - s) * (inject_Z canvas / 1000000))%Q as E.
  { unfold s. field. lra. }
  rewrite E, Qabs_Qmult.
  rewrite (Qabs_pos (inject_Z canvas / 1000000)).
  2:{ apply Qle_shift_div_l; lra. }
  assert (0 <= inject_Z canvas / 1000000)%Q as Hpos by (apply Qle_shift_div_l; lra).
  setoid_replace (inject_Z canvas / 2000000)%Q
    with ((1 # 2) * (inject_Z canvas / 1000000))%Q by (field).
  apply Qmult_le_compat_r; assumption.
Qed.

(** C7 (as amended).  On a canvas dimension [canvas > 0], a raw value that is
    normalized to six decimals and scaled back is off by at most half a
    millionth of the canvas dimension; the relative error is within 1e-4
    whenever the raw value is at least 1/200 of the canvas dimension in
    magnitude. *)
Theorem round_trip_error (raw canvas : Z) :
  0 < canvas ->
  (Qabs (scaled_back raw canvas - inject_Z raw) <= inject_Z canvas / 2000000)%Q
  /\ (canvas <= 200 * Z.abs raw ->
      (Qabs (scaled_back raw canvas - inject_Z raw)
       <= (1 # 10000) * Qabs (inject_Z raw))%Q).
Proof.
  intros Hc. pose proof (scaled_back_error raw canvas Hc) as Hall.
  split; [exact Hall|]. intros Hbig.
  change (Qabs (inject_Z raw)) with (inject_Z (Z.abs raw)).
  rewrite Zle_Qle, inject_Z_mult in Hbig.
  change (inject_Z 200) with 200%Q in Hbig.
  eapply Qle_trans; [exact Hall|].
  apply Qle_shift_div_r; lra.
Qed.

(** C7, witness: a quarter of the default canvas width. *)
Lemma round_trip_witness :
  0 < 9144000
  /\ 9144000 <= 200 * Z.abs 2286000
  /\ (Qabs (scaled_back 2286000 9144000 - inject_Z 2286000)
      <= (1 # 10000) * Qabs (inject_Z 2286000))%Q.
Proof.
  assert (H1 : 0 < 9144000) by reflexivity.
  assert (H2 : 9144000 <= 200 * Z.abs 2286000) by lia.
  split; [exact H1|]. split; [exact H2|].
  exact (proj2 (round_trip_error 2286000 9144000 H1) H2).
Defined.

(** C7, counterexample.  An offset of one raw unit on the default canvas is
    written as 0.000000; scaled back it is 0, a relative error of 1. *)
Lemma small_offset_is_lost :
  exists geom,
    extract_geometry [] Sample.near_corner = Ok geom
    /\ ET.find "x" geom = Some (leaf "x" (PFixed 6 (1 # 9144000)))
    /\ py_float (Some (PFixed 6 (1 # 9144000))) = Ok (normalized 1 9144000)
    /\ (scaled_back 1 9144000 == 0)%Q
    /\ ~ (Qabs (scaled_back 1 9144000 - inject_Z 1)
          <= (1 # 10000) * Qabs (inject_Z 1))%Q.
Proof.
  eexists. split; [vm_compute; reflexivity|].
  split; [vm_compute; reflexivity|].
  split; [vm_compute; reflexivity|].
  split; [reflexivity|].
  intros H. vm_compute in H. exact (H eq_refl).
Qed.

(** ** What holds of the ranking

    At most ten colors are reported, scheme references are never among
    them, and the order is descending by count with ties in the order of
    first occurrence. *)

Lemma top_colors_at_most_ten (training_data : onode) :
  (List.length (top_colors training_data) <= 10)%nat.
Proof. unfold top_colors. apply firstn_le_length. Qed.

Lemma scheme_references_not_counted (training_data : onode) (v : pyval) :
  In v (counted_colors training_data) -> pv_startswith v "scheme:" = false.
Proof.
  unfold counted_colors. rewrite in_flat_map. intros (color & _ & H).
  destruct (ET.get color "hex") as [hex_val|]; [|contradiction].
  destruct (pv_truthy hex_val && negb (pv_startswith hex_val "scheme:")) eqn:E;
    [|contradiction].
  destruct H as [<-|[]]. apply andb_prop in E as [_ E].
  now apply negb_true_iff in E.
Qed.

Lemma insert_desc_in x l y : In y (insert_desc x l) -> y = x \/ In y l.
Proof.
  induction l as [|z l IH]; cbn [insert_desc].
  - intros [<-|[]]. auto.
  - destruct (snd z <? snd x).
    + intros [<-|H]; auto.
    + intros [<-|H]; [right; left; auto|].
      destruct (IH H); auto. right; right; auto.
Qed.

Lemma insert_desc_descending x l : descending l -> descending (insert_desc x l).
Proof.
  unfold descending. induction l as [|z l IH]; cbn [insert_desc]; intros Hs.
  - repeat constructor.
  - destruct (Z.ltb_spec (snd z) (snd x)) as [Hlt|Hge].
    + constructor; [exact Hs|].
      inversion Hs as [|? ? Hl Hz]; subst.
      constructor; [lia|].
      rewrite Forall_forall in *. intros y Hy. specialize (Hz y Hy). lia.
    + inversion Hs as [|? ? Hl Hz]; subst.
      constructor; [auto|].
      rewrite Forall_forall in *. intros y Hy.
      apply insert_desc_in in Hy as [->|Hy]; auto.
Qed.

Lemma insert_desc_ties x l c :
  descending l ->
  filter (fun i => snd i =? c) (insert_desc x l)
  = filter (fun i => snd i =? c) l ++ (if snd x =? c then [x] else []).
Proof.
  unfold descending. induction l as [|z l IH]; cbn [insert_desc]; intros Hs.
  - cbn [filter app]. destruct (snd x =? c); reflexivity.
  - inversion Hs as [|? ? Hl Hz]; subst.
    destruct (Z.ltb_spec (snd z) (snd x)) as [Hlt|Hge].
    + cbn [filter]. destruct (Z.eqb_spec (snd x) c) as [Hx|Hx].
      * assert (filter (fun i => snd i =? c) l = []) as ->.
        { clear IH Hl Hs. induction l as [|y l IHl]; [reflexivity|].
          inversion Hz as [|? ? Hy Hz']; subst. cbn [filter].
          destruct (Z.eqb_spec (snd y) (snd x)); [lia | auto]. }
        destruct (Z.eqb_spec (snd z) c); [lia|]. reflexivity.
      * rewrite app_nil_r. reflexivity.
    + cbn [filter]. rewrite (IH Hl).
      destruct (snd z =? c); reflexivity.
Qed.

Lemma sorted_desc_from acc items c :
  descending acc ->
  descending (fold_left (fun a x => insert_desc x a) items acc)
  /\ filter (fun i => snd i =? c) (fold_left (fun a x => insert_desc x a) items acc)
     = filter (fun i => snd i =? c) acc ++ filter (fun i => snd i =? c) items.
Proof.
  revert acc. induction items as [|x items IH]; cbn [fold_left]; intros acc Hs.
  - rewrite app_nil_r. auto.
  - destruct (IH (insert_desc x acc) (insert_desc_descending x acc Hs)) as [Hd Hf].
    split; [exact Hd|]. rewrite Hf, insert_desc_ties by exact Hs.
    cbn [filter]. rewrite <- app_assoc. destruct (snd x =? c); reflexivity.
Qed.

Lemma sorted_desc_stable (items : list (pyval * Z)) (c : Z) :
  descending (sorted_desc items)
  /\ filter (fun i => snd i =? c) (sorted_desc items)
     = filter (fun i => snd i =? c) items.
Proof.
  unfold sorted_desc.
  destruct (sorted_desc_from [] items c) as [Hd Hf]; [constructor|]. auto.
Qed.

(** * Further properties of the extractor *)

(** ** What the element extractors write

    No extractor below the [elements] child of a slide writes a tag of the
    slide level, and the coordinates that it writes are numbers. *)

Lemma map_enumerate_all {A B : Type} (P : B -> bool) (f : A -> Z -> result B) (l : list A) :
  (forall x i y, f x i = Ok y -> P y = true) ->
  forall from ys, map_enumerate f from l = Ok ys -> forallb P ys = true.
Proof.
  intros Hf. induction l as [|x l IH]; cbn [map_enumerate]; intros from ys H.
  - emitted H. reflexivity.
  - apply bind_ok in H as (y & Hy & H). apply bind_ok in H as (ys' & Hys & H).
    emitted H. cbn [forallb]. rewrite (Hf _ _ _ Hy), (IH _ _ Hys). reflexivity.
Qed.

Ltac open_lists := repeat (first [rewrite forallb_app | progress cbn [app forallb]]).

Lemma sound_node tg a x cs :
  sound (Node tg a x cs) = element_part tg x && forallb sound cs.
Proof.
  reflexivity.
Qed.

Lemma sound_lacks t :
  slide_level t = true -> forall n : onode, sound n = true -> lacks t n = true.
Proof.
  intros Ht. fix IH 1. intros [tg a x cs] H.
  rewrite sound_node in H. apply andb_prop in H as [Hp Hcs].
  rewrite lacks_node. apply andb_true_intro. split.
  - unfold element_part in Hp. apply andb_prop in Hp as [Hp _].
    destruct (String.eqb tg t) eqn:E; [|reflexivity].
    apply String.eqb_eq in E. subst tg. rewrite Ht in Hp. discriminate.
  - induction cs as [|c cs IHcs]; [reflexivity|].
    cbn [forallb] in *. apply andb_prop in Hcs as [Hc Hcs].
    rewrite (IH c Hc), (IHcs Hcs). reflexivity.
Qed.

Lemma run_pass_sound (f : extractor) l :
  (forall src z e, f src z = Ok (Some e) -> sound e = true) ->
  forall cur, forallb sound (appended cur) = true ->
              forallb sound (appended (fst (run_pass f l cur))) = true.
Proof.
  intros Hf. induction l as [|src l IH]; cbn [run_pass]; intros cur Hc; auto.
  destruct (f src (z_order cur)) as [[e|]|] eqn:E; auto.
  apply IH. cbn [appended]. rewrite forallb_app, Hc. cbn [forallb].
  rewrite (Hf _ _ _ E). reflexivity.
Qed.

Section Vocabulary.
Variable pkg : package.

Lemma geometry_sound xfrm g : extract_geometry pkg xfrm = Ok g -> sound g = true.
Proof.
  unfold extract_geometry. destruct (canvas_size pkg) as [w h]. intros H.
  apply bind_ok in H as (position & Hp & H).
  apply bind_ok in H as (size & Hs & H).
  apply bind_ok in H as (rot & _ & H). emitted H.
  assert (forallb sound position = true) as Ep.
  { destruct (ET.find _ xfrm); [run_binds Hp|]; emitted Hp; reflexivity. }
  assert (forallb sound size = true) as Es.
  { destruct (ET.find a:"ext" xfrm); [run_binds Hs|]; emitted Hs; reflexivity. }
  unfold elem. rewrite sound_node; open_lists; rewrite Ep, Es. reflexivity.
Qed.

Lemma geometry_of_sound src gs : geometry_of pkg src = Ok gs -> forallb sound gs = true.
Proof.
  unfold geometry_of. destruct (ET.find _ src) as [xfrm|]; intros H.
  - apply bind_ok in H as (g & Hg & H). emitted H. cbn [forallb].
    rewrite (geometry_sound _ _ Hg). reflexivity.
  - emitted H. reflexivity.
Qed.

Lemma fill_sound shape : sound (extract_fill_properties shape) = true.
Proof.
  unfold extract_fill_properties.
  destruct (ET.find _ shape) as [sp_pr|]; [|reflexivity].
  destruct (solid_color sp_pr); [reflexivity|].
  destruct (ET.find a:"gradFill" sp_pr) as [grad|].
  - unfold elem at 1. rewrite sound_node, forallb_flat_map; [reflexivity|].
    intros stop. destruct (nonempty _); reflexivity.
  - destruct (ET.find a:"pattFill" sp_pr); [reflexivity|].
    destruct (ET.find a:"blipFill" sp_pr); [reflexivity|].
    destruct (ET.find a:"noFill" sp_pr); reflexivity.
Qed.

Lemma stroke_sound shape s : extract_stroke_properties shape = Ok s -> sound s = true.
Proof.
  unfold extract_stroke_properties.
  destruct (ET.find _ shape) as [sp_pr|]; [|intros H; emitted H; reflexivity].
  destruct (ET.find _ sp_pr) as [ln|]; intros H.
  - run_binds H. emitted H. reflexivity.
  - emitted H. reflexivity.
Qed.

Lemma text_run_sound r idx e : extract_text_run r idx = Ok e -> sound e = true.
Proof.
  unfold extract_text_run. intros H.
  apply bind_ok in H as (formatting & Hf & H). emitted H.
  assert (forallb sound formatting = true) as Ef.
  { destruct (ET.find a:"rPr" r) as [r_pr|]; [|emitted Hf; reflexivity].
    apply bind_ok in Hf as (sz & _ & Hf).
    apply bind_ok in Hf as (spacing & Hsp & Hf). emitted Hf.
    assert (forallb sound spacing = true) as Esp.
    { destruct (String.eqb _ "0"); [emitted Hsp; reflexivity|].
      run_binds Hsp. emitted Hsp. reflexivity. }
    open_lists. rewrite Esp.
    destruct (solid_color r_pr); destruct (String.eqb (ET.get_or r_pr "baseline" "0") "0");
      reflexivity. }
  unfold elem. rewrite sound_node; open_lists; rewrite Ef. reflexivity.
Qed.

Lemma spacing_points_sound p_pr tag out :
  out = "space_before" \/ out = "space_after" ->
  forallb sound (spacing_points p_pr tag out) = true.
Proof.
  intros Hout. unfold spacing_points.
  destruct (ET.find tag p_pr) as [spc|]; [|reflexivity].
  destruct (ET.find _ spc); [|reflexivity].
  destruct Hout as [-> | ->]; reflexivity.
Qed.

Lemma paragraph_sound p idx e : extract_paragraph p idx = Ok e -> sound e = true.
Proof.
  unfold extract_paragraph. intros H.
  apply bind_ok in H as ([attrs kids] & Hp & H).
  apply bind_ok in H as (runs & Hr & H). emitted H. cbn [fst snd].
  assert (forallb sound kids = true) as Ek.
  { destruct (ET.find a:"pPr" p) as [p_pr|]; [|injection Hp as <- <-; reflexivity].
    apply bind_ok in Hp as (ls & Hls & Hp). injection Hp as _ <-.
    assert (forallb sound ls = true) as Els.
    { destruct (ET.find a:"lnSpc" p_pr) as [ln|]; [|emitted Hls; reflexivity].
      destruct (ET.find _ ln); [|emitted Hls; reflexivity].
      run_binds Hls. emitted Hls. reflexivity. }
    open_lists. rewrite Els, !spacing_points_sound by auto.
    reflexivity. }
  pose proof (map_enumerate_all sound _ _ text_run_sound _ _ Hr) as Er.
  unfold elem. rewrite sound_node; open_lists; rewrite Ek, Er.
  destruct (ET.findall a:"r" p); [destruct (ET.find a:"endParaRPr" p)|];
    reflexivity.
Qed.

Lemma text_body_sound tx e : extract_text_body tx = Ok e -> sound e = true.
Proof.
  unfold extract_text_body. intros H.
  apply bind_ok in H as (ps & Hps & H). emitted H.
  pose proof (map_enumerate_all sound _ _ paragraph_sound _ _ Hps) as Ep.
  unfold elem. rewrite sound_node; open_lists; rewrite Ep.
  destruct (ET.find _ tx); reflexivity.
Qed.

Lemma accessibility_sound c_nv_pr : forallb sound (accessibility c_nv_pr) = true.
Proof.
  unfold accessibility. destruct (PyStr.truthy _); reflexivity.
Qed.

Lemma shape_sound slide_file shape z e :
  extract_shape_element pkg slide_file shape z = Ok (Some e) -> sound e = true.
Proof.
  unfold extract_shape_element.
  destruct (ET.find _ shape) as [nv|]; [|discriminate]. intros H.
  apply bind_ok in H as (geom & Hg & H).
  apply bind_ok in H as (stroke & Hs & H).
  apply bind_ok in H as (body & Hb & H). emitted H.
  assert (forallb sound body = true) as Eb.
  { destruct (ET.find p:"txBody" shape) as [tx|]; [|emitted Hb; reflexivity].
    apply bind_ok in Hb as (b & Hb & H). emitted H. cbn [forallb].
    rewrite (text_body_sound _ _ Hb). reflexivity. }
  unfold elem at 1. rewrite sound_node; open_lists.
  rewrite (geometry_of_sound _ _ Hg), Eb, accessibility_sound. cbn [forallb].
  rewrite fill_sound, (stroke_sound _ _ Hs).
  destruct (ET.find p:"ph" nv); reflexivity.
Qed.

Lemma picture_sound slide_file pic z e :
  extract_picture_element pkg slide_file pic z = Ok (Some e) -> sound e = true.
Proof.
  unfold extract_picture_element.
  destruct (ET.find _ pic) as [nv|]; [|discriminate]. intros H.
  apply bind_ok in H as (geom & Hg & H). emitted H.
  unfold elem at 1. rewrite sound_node; open_lists.
  rewrite (geometry_of_sound _ _ Hg), accessibility_sound.
  destruct (ET.find a:"blip" pic) as [blip|]; [|reflexivity].
  destruct (nonempty (ET.get blip _)); [|reflexivity].
  destruct (nonempty (get_relationship_target _ _ _)); reflexivity.
Qed.

Lemma chart_definition_sound chart_file :
  sound (extract_chart_definition pkg chart_file) = true.
Proof.
  unfold extract_chart_definition.
  match goal with
  | |- context [match ?b with Ok _ => _ | Raise => _ end] => destruct b as [parts|] eqn:E
  end; [|reflexivity].
  apply bind_ok in E as (root & _ & E).
  apply bind_ok in E as (ctype & Hc & E). emitted E.
  assert (forallb sound ctype = true) as Ec.
  { destruct (ET.find c:"plotArea" root) as [pa|]; [|emitted Hc; reflexivity].
    destruct (List.find _ (ET.children pa)); [|emitted Hc; reflexivity].
    run_binds Hc. emitted Hc. reflexivity. }
  unfold elem at 1. rewrite sound_node. open_lists. rewrite Ec.
  change (element_part "chart_definition" None) with true.
  cbn [andb]. repeat (apply andb_true_intro; split).
  - destruct (nonempty (get_text_from_chart_element (ET.find c:"title" root)));
      reflexivity.
  - destruct (ET.find c:"legend" root); reflexivity.
  - destruct (ET.findall c:"ser" root) as [|s0 ss]; [reflexivity|].
    cbn [forallb]. unfold elem at 1. rewrite sound_node. cbn [forallb].
    rewrite forallb_mapped.
    + reflexivity.
    + intros [idx ser]. reflexivity.
Qed.

Lemma chart_element_sound slide_file gf z e :
  extract_chart_element pkg slide_file gf z = Ok e -> sound e = true.
Proof.
  unfold extract_chart_element. intros H.
  apply bind_ok in H as (geom & Hg & H). emitted H.
  unfold elem at 1. rewrite sound_node. open_lists.
  rewrite (geometry_of_sound _ _ Hg).
  destruct (ET.find c:"chart" gf) as [ch|]; [|reflexivity].
  destruct (nonempty (ET.get ch _)); [|reflexivity].
  destruct (nonempty (get_relationship_target _ _ _)); [|reflexivity].
  cbn [forallb]. rewrite chart_definition_sound. reflexivity.
Qed.

Lemma table_element_sound slide_file gf z e :
  extract_table_element pkg slide_file gf z = Ok e -> sound e = true.
Proof.
  unfold extract_table_element. intros H.
  apply bind_ok in H as (geom & Hg & H). emitted H.
  unfold elem at 1. rewrite sound_node. open_lists.
  rewrite (geometry_of_sound _ _ Hg).
  destruct (ET.find a:"tbl" gf) as [tbl|]; [|reflexivity].
  cbn [forallb]. unfold elem at 1. rewrite sound_node. open_lists.
  change (element_part "element" None) with true.
  change (element_part "table_definition" None) with true.
  assert (sound (leaf "row_count"
                     (PInt (Z.of_nat (List.length (ET.findall a:"tr" tbl))))) = true)
    as -> by (reflexivity).
  cbn [andb]. rewrite andb_true_r. apply andb_true_intro; split.
  - destruct (ET.findall a:"tr" tbl); reflexivity.
  - unfold elem at 1. rewrite sound_node, forallb_mapped; [reflexivity|].
    intros [row_idx row]. unfold elem at 1.
    rewrite sound_node, forallb_mapped; [reflexivity|].
    intros [cell_idx cell]. destruct (PyStr.truthy _); reflexivity.
Qed.

Lemma frame_sound slide_file gf z e :
  extract_graphic_frame pkg slide_file gf z = Ok (Some e) -> sound e = true.
Proof.
  unfold extract_graphic_frame.
  destruct (ET.find c:"chart" gf); [|destruct (ET.find a:"tbl" gf)]; intros H.
  - apply bind_ok in H as (e' & He & H). emitted H. eapply chart_element_sound, He.
  - apply bind_ok in H as (e' & He & H). emitted H. eapply table_element_sound, He.
  - emitted H. reflexivity.
Qed.

Lemma group_sound slide_file grp z e :
  extract_group_element pkg slide_file grp z = Ok (Some e) -> sound e = true.
Proof.
  unfold extract_group_element. intros H.
  apply bind_ok in H as (geom & Hg & H).
  match type of H with
  | context [run_pass ?f ?l start] =>
      pose proof (run_pass_sound f l (shape_sound slide_file) start eq_refl) as Hin;
        destruct (run_pass f l start) as [inner [|]]
  end; [discriminate|]. emitted H. cbn [fst] in Hin.
  unfold elem at 1. rewrite sound_node. open_lists.
  rewrite (geometry_of_sound _ _ Hg). unfold elem. rewrite sound_node, Hin.
  reflexivity.
Qed.

Lemma then_pass_sound (f : extractor) l st :
  (forall src z e, f src z = Ok (Some e) -> sound e = true) ->
  forallb sound (appended (fst st)) = true ->
  forallb sound (appended (fst (then_pass f l st))) = true.
Proof.
  intros Hf Hst. unfold then_pass. destruct (snd st); [exact Hst|].
  now apply run_pass_sound.
Qed.

Lemma walk_sound slide_root slide_file :
  forallb sound
          (appended (fst (extract_slide_elements pkg slide_root slide_file))) = true.
Proof.
  unfold extract_slide_elements.
  destruct (ET.find _ slide_root) as [sp_tree|]; [|reflexivity]. cbv zeta.
  apply then_pass_sound; [apply group_sound|].
  apply then_pass_sound; [apply frame_sound|].
  apply then_pass_sound; [apply picture_sound|].
  apply run_pass_sound; [apply shape_sound | reflexivity].
Qed.

Lemma slide_metadata_sound slide_root slide_file :
  sound (extract_slide_metadata pkg slide_root slide_file) = true.
Proof.
  unfold extract_slide_metadata. destruct (ET.find _ slide_root); reflexivity.
Qed.

Lemma background_sound slide_root : sound (extract_background slide_root) = true.
Proof.
  unfold extract_background.
  destruct (ET.find _ slide_root) as [bg|]; [|reflexivity].
  destruct (solid_color bg); [reflexivity|].
  destruct (ET.find a:"gradFill" bg); [reflexivity|].
  destruct (ET.find a:"blipFill" bg); reflexivity.
Qed.

End Vocabulary.

(** ** The slide element and the statistics *)

Lemma findall_node t tg a x (cs : list onode) :
  ET.findall t (Node tg a x cs)
  = flat_map (fun c => filter (ET.has_tag t) (c :: ET.descendants c)) cs.
Proof.
  unfold ET.findall. rewrite descendants_node.
  induction cs as [|c cs IH]; [reflexivity|].
  change (flat_map (fun c0 : onode => c0 :: ET.descendants c0) (c :: cs))
    with ((c :: ET.descendants c)
          ++ flat_map (fun c0 : onode => c0 :: ET.descendants c0) cs).
  rewrite filter_app, IH. reflexivity.
Qed.

Lemma own_match t (n : onode) :
  ET.tag n = t -> forallb (lacks t) (ET.children n) = true ->
  filter (ET.has_tag t) (n :: ET.descendants n) = [n].
Proof.
  destruct n as [tg a x cs]. cbn [ET.tag ET.children]. intros -> Hcs.
  cbn [filter]. unfold ET.has_tag at 1. cbn [ET.tag]. rewrite String.eqb_refl.
  f_equal. change (ET.findall t (Node t a x cs) = []).
  rewrite findall_node. induction cs as [|c cs IH]; [reflexivity|].
  cbn [forallb] in Hcs. apply andb_prop in Hcs as [Hc Hcs].
  cbn [flat_map]. rewrite (lacks_no_match t c Hc), (IH Hcs). reflexivity.
Qed.

Lemma no_matches t (cs : list onode) :
  forallb (lacks t) cs = true ->
  flat_map (fun c => filter (ET.has_tag t) (c :: ET.descendants c)) cs = [].
Proof.
  induction cs as [|c cs IH]; [reflexivity|]. cbn [forallb flat_map].
  intros H. apply andb_prop in H as [Hc Hcs].
  rewrite (lacks_no_match t c Hc), (IH Hcs). reflexivity.
Qed.

Section SlideShape.
Variable pkg : package.

Lemma slide_sections_free t slide_root slide_file index :
  t = "slide" \/ t = "computed_features" ->
  forallb (lacks t) (slide_sections pkg slide_root slide_file index) = true.
Proof.
  intros Ht.
  assert (Hl : slide_level t = true) by (destruct Ht as [-> | ->]; reflexivity).
  unfold slide_sections. cbn [forallb].
  rewrite (sound_lacks t Hl _ (slide_metadata_sound pkg slide_root slide_file)).
  rewrite (sound_lacks t Hl _ (background_sound slide_root)).
  unfold elem. rewrite lacks_node.
  assert (forallb (lacks t)
            (appended (fst (extract_slide_elements pkg slide_root slide_file))) = true) as ->.
  { pose proof (walk_sound pkg slide_root slide_file) as H.
    induction (appended _) as [|e l IH]; [reflexivity|].
    cbn [forallb] in *. apply andb_prop in H as [He H].
    rewrite (sound_lacks t Hl e He), (IH H). reflexivity. }
  destruct Ht as [-> | ->]; reflexivity.
Qed.

Lemma elements_of_sections slide_root slide_file index a post :
  ET.find "elements"
          (Node "slide" a None (slide_sections pkg slide_root slide_file index ++ post))
  = Some (elem "elements" []
            (appended (fst (extract_slide_elements pkg slide_root slide_file)))).
Proof.
  unfold slide_sections.
  match goal with
  | |- ET.find _ (Node _ _ _ ([?m; ?b; ?r; ?h; ?e] ++ _)) =
       _ => exact (find_after_lacking "elements" "slide" a None [m; b; r; h] e post
                     ltac:(cbn [forallb];
                           rewrite (sound_lacks "elements" eq_refl _
                                      (slide_metadata_sound pkg slide_root slide_file)),
                             (sound_lacks "elements" eq_refl _
                                      (background_sound slide_root));
                           reflexivity)
                     eq_refl)
  end.
Qed.

(** What [compute_slide_features] returns on a slide element that has its
    five sections. *)
Lemma slide_computed slide_root slide_file index a computed :
  compute_slide_features
    (Node "slide" a None (slide_sections pkg slide_root slide_file index)) = Ok computed ->
  exists rest,
    computed
    = elem "computed_features" []
        (leaf "element_count"
              (PInt (Z.of_nat (List.length
                 (appended (fst (extract_slide_elements pkg slide_root slide_file))))))
         :: rest)
    /\ forallb (lacks "element_count") rest = true
    /\ forallb (lacks "computed_features") rest = true
    /\ forallb (lacks "slide") rest = true
    /\ forallb (lacks "semantic_role") rest = true.
Proof.
  unfold compute_slide_features.
  rewrite <- (app_nil_r (slide_sections pkg slide_root slide_file index)).
  rewrite elements_of_sections. intros H.
  apply bind_ok in H as (area & _ & H).
  apply bind_ok in H as (hv & _ & H). emitted H.
  eexists. split; [reflexivity|].
  repeat split; destruct (0 <? _); try destruct (0 <? _); reflexivity.
Qed.

Lemma sound_descendants : forall n : onode,
  sound n = true -> forallb sound (ET.descendants n) = true.
Proof.
  fix IH 1. intros [tg a x cs] H. rewrite sound_node in H.
  apply andb_prop in H as [_ Hcs]. rewrite descendants_node.
  induction cs as [|c cs IHcs]; [reflexivity|].
  cbn [forallb] in Hcs. apply andb_prop in Hcs as [Hc Hcs].
  cbn [flat_map]. rewrite forallb_app. cbn [forallb].
  rewrite Hc, (IH c Hc), (IHcs Hcs). reflexivity.
Qed.

Lemma sound_below tg a x (cs : list onode) :
  forallb sound cs = true -> forallb sound (ET.descendants (Node tg a x cs)) = true.
Proof.
  intros Hcs. rewrite descendants_node.
  induction cs as [|c cs IHcs]; [reflexivity|].
  cbn [forallb] in Hcs. apply andb_prop in Hcs as [Hc Hcs].
  cbn [flat_map]. rewrite forallb_app. cbn [forallb].
  rewrite Hc, (sound_descendants c Hc), (IHcs Hcs). reflexivity.
Qed.

Lemma forallb_filter {A : Type} (P Q : A -> bool) (l : list A) :
  forallb P l = true -> forallb P (filter Q l) = true.
Proof.
  induction l as [|y l IH]; [reflexivity|]. cbn [forallb filter].
  intros H. apply andb_prop in H as [Hy H].
  destruct (Q y); cbn [forallb]; rewrite ?Hy, (IH H); reflexivity.
Qed.

Lemma found_is_sound t (n d : onode) :
  forallb sound (ET.descendants n) = true -> ET.find t n = Some d ->
  sound d = true /\ ET.tag d = t.
Proof.
  unfold ET.find, ET.findall. intros Hn Hd.
  induction (ET.descendants n) as [|y l IH]; [discriminate|].
  cbn [forallb] in Hn. apply andb_prop in Hn as [Hy Hl].
  cbn [filter] in Hd. destruct (ET.has_tag t y) eqn:E.
  - injection Hd as <-. split; [exact Hy|]. now apply String.eqb_eq.
  - exact (IH Hl Hd).
Qed.

Lemma coordinate_is_read t (n : onode) :
  coordinate t = true -> sound n = true ->
  match ET.find t n with
  | Some d => exists q, py_float (ET.text d) = Ok q
  | None => True
  end.
Proof.
  intros Ht Hn. destruct (ET.find t n) as [d|] eqn:E; [|exact I].
  apply found_is_sound in E as [Hd <-]; [|now apply sound_descendants].
  destruct d as [tg a x cs]. rewrite sound_node in Hd.
  apply andb_prop in Hd as [Hd _]. unfold element_part in Hd.
  apply andb_prop in Hd as [_ Hd]. cbn [ET.tag] in Ht. rewrite Ht in Hd.
  cbn [negb orb ET.text] in *. unfold is_number in Hd.
  destruct (py_float x) as [q|]; [now exists q | discriminate].
Qed.

Lemma element_area_ok (e : onode) : sound e = true -> exists q, element_area e = Ok q.
Proof.
  intros He. unfold element_area.
  destruct (ET.find "geometry" e) as [geom|] eqn:G; [|now eexists].
  apply found_is_sound in G as [Hg _]; [|now apply sound_descendants].
  pose proof (coordinate_is_read "width" geom eq_refl Hg) as Hw.
  pose proof (coordinate_is_read "height" geom eq_refl Hg) as Hh.
  destruct (ET.find "width" geom) as [w|]; [|now eexists].
  destruct (ET.find "height" geom) as [h|]; [|now eexists].
  destruct Hw as [qw ->], Hh as [qh ->]. now eexists.
Qed.

Lemma geometry_reading_ok (e : onode) :
  sound e = true -> exists g, geometry_reading e = Ok g.
Proof.
  intros He. unfold geometry_reading.
  destruct (ET.find "geometry" e) as [geom|] eqn:G; [|now eexists].
  apply found_is_sound in G as [Hg _]; [|now apply sound_descendants].
  pose proof (coordinate_is_read "x" geom eq_refl Hg) as Hx.
  pose proof (coordinate_is_read "y" geom eq_refl Hg) as Hy.
  pose proof (coordinate_is_read "width" geom eq_refl Hg) as Hw.
  pose proof (coordinate_is_read "height" geom eq_refl Hg) as Hh.
  destruct (ET.find "x" geom) as [x|]; [|now eexists].
  destruct (ET.find "y" geom) as [y|]; [|now eexists].
  destruct (ET.find "width" geom) as [w|]; [|now eexists].
  destruct (ET.find "height" geom) as [h|]; [|now eexists].
  destruct Hx as [qx ->], Hy as [qy ->], Hw as [qw ->], Hh as [qh ->]. now eexists.
Qed.

Lemma total_area_ok (l : list onode) :
  forallb sound l = true -> exists q, sum_results (map element_area l) = Ok q.
Proof.
  induction l as [|e l IH]; [now eexists|]. cbn [forallb map sum_results].
  intros H. apply andb_prop in H as [He Hl].
  destruct (element_area_ok e He) as [q ->], (IH Hl) as [s ->]. now eexists.
Qed.

Lemma weigh_all_ok (l : list onode) :
  forallb sound l = true -> forall w, exists w', weigh_all w l = Ok w'.
Proof.
  induction l as [|e l IH]; [now eexists|]. cbn [forallb weigh_all].
  intros H w. apply andb_prop in H as [He Hl]. unfold weigh.
  destruct (geometry_reading_ok e He) as [[[[[x y] width] height]|] ->]; cbn [bind];
    apply (IH Hl).
Qed.

(** On a slide element with its five sections [compute_slide_features]
    does not raise: every number that it reads back was written by
    [extract_geometry]. *)
Lemma features_are_computed slide_root slide_file index a :
  exists computed,
    compute_slide_features
      (Node "slide" a None (slide_sections pkg slide_root slide_file index)) = Ok computed.
Proof.
  unfold compute_slide_features.
  rewrite <- (app_nil_r (slide_sections pkg slide_root slide_file index)).
  rewrite elements_of_sections.
  assert (Hs : forallb sound
                 (ET.findall "element"
                    (elem "elements" []
                       (appended (fst (extract_slide_elements pkg slide_root slide_file)))))
               = true).
  { apply forallb_filter, sound_below, walk_sound. }
  destruct (total_area_ok _ Hs) as [area ->]. cbn [bind].
  unfold layout_balance. destruct (weigh_all_ok _ Hs no_weight) as [w ->].
  cbn [bind]. now eexists.
Qed.

Lemma slide_shape (slide_file : string) (index : Z) :
  exists kids,
    extract_slide_features pkg slide_file index
    = Node "slide" (slide_attrs slide_file index) None kids
    /\ ((read_xml pkg slide_file = Raise /\ kids = [])
        \/ exists slide_root,
             read_xml pkg slide_file = Ok slide_root
             /\ (kids = slide_sections pkg slide_root slide_file index
                 \/ exists computed,
                      compute_slide_features
                        (Node "slide" (slide_attrs slide_file index) None
                              (slide_sections pkg slide_root slide_file index))
                      = Ok computed
                      /\ snd (extract_slide_elements pkg slide_root slide_file) = false
                      /\ kids = slide_sections pkg slide_root slide_file index ++ [computed])).
Proof.
  unfold extract_slide_features.
  destruct (read_xml pkg slide_file) as [slide_root|].
  - unfold slide_sections.
    destruct (extract_slide_elements pkg slide_root slide_file) as [cur [|]] eqn:W;
      cbn [fst snd].
    + eexists. split; [reflexivity|]. right. exists slide_root. split; [reflexivity|].
      left. rewrite W. reflexivity.
    + cbn [elem ET.extend app].
      match goal with
      | |- context [compute_slide_features ?s] =>
          destruct (compute_slide_features s) as [computed|] eqn:E
      end.
      * eexists. split; [reflexivity|]. right. exists slide_root. split; [reflexivity|].
        right. exists computed. rewrite W. split; [exact E|]. split; reflexivity.
      * eexists. split; [reflexivity|]. right. exists slide_root. split; [reflexivity|].
        left. rewrite W. reflexivity.
  - exists []. split; [reflexivity|]. now left.
Qed.

Lemma slide_is_one_slide slide_file index :
  filter (ET.has_tag "slide")
         (extract_slide_features pkg slide_file index
          :: ET.descendants (extract_slide_features pkg slide_file index))
  = [extract_slide_features pkg slide_file index].
Proof.
  apply own_match.
  - destruct (slide_shape slide_file index) as (kids & -> & _). reflexivity.
  - destruct (slide_shape slide_file index) as (kids & -> & H). cbn [ET.children].
    destruct H as [[_ ->] | (slide_root & _ & [-> | (computed & Hc & _ & ->)])].
    + reflexivity.
    + apply slide_sections_free. now left.
    + rewrite forallb_app, slide_sections_free by now left.
      apply slide_computed in Hc as (rest & -> & _ & _ & Hs & _).
      cbn [forallb]. unfold elem. rewrite lacks_node. cbn [forallb]. rewrite Hs.
      reflexivity.
Qed.

Lemma background_tag slide_root : ET.tag (extract_background slide_root) = "background".
Proof.
  unfold extract_background.
  destruct (ET.find _ slide_root) as [bg|]; [|reflexivity].
  destruct (solid_color bg); [reflexivity|].
  destruct (ET.find a:"gradFill" bg); [reflexivity|].
  destruct (ET.find a:"blipFill" bg); reflexivity.
Qed.

Lemma skip_rest t (rest : list onode) :
  forallb (lacks t) rest = true -> filter (ET.has_tag t) rest = [].
Proof.
  induction rest as [|[tg a x cs] rest IH]; [reflexivity|].
  cbn [forallb]. intros H. apply andb_prop in H as [Hr Hrest].
  rewrite lacks_node in Hr. apply andb_prop in Hr as [Hr _].
  apply negb_true_iff in Hr. cbn [filter]. unfold ET.has_tag at 1. cbn [ET.tag].
  rewrite Hr. exact (IH Hrest).
Qed.

(** The counts that the statistics read from one slide add up to what the
    slide reports. *)
Lemma slide_counts slide_file index :
  sum_ints
    (map (fun e => py_int (ET.text e))
         (flat_map (ET.children_with_tag "element_count")
                   (filter (ET.has_tag "computed_features")
                           (extract_slide_features pkg slide_file index
                            :: ET.descendants (extract_slide_features pkg slide_file index)))))
  = Ok (reported_elements (extract_slide_features pkg slide_file index)).
Proof.
  destruct (slide_shape slide_file index) as (kids & -> & H).
  change (filter (ET.has_tag "computed_features") _)
    with (ET.findall "computed_features"
            (Node "slide" (slide_attrs slide_file index) None kids)).
  rewrite findall_node. unfold reported_elements, ET.children_with_tag. cbn [ET.children].
  destruct H as [[_ ->] | (slide_root & _ & [-> | (computed & Hc & _ & ->)])].
  - reflexivity.
  - rewrite no_matches by (apply slide_sections_free; now right).
    rewrite (skip_rest "computed_features")
      by (apply slide_sections_free; now right).
    reflexivity.
  - rewrite flat_map_app, no_matches by (apply slide_sections_free; now right).
    rewrite !filter_app.
    rewrite (skip_rest "computed_features" (slide_sections _ _ _ _))
      by (apply slide_sections_free; now right).
    apply slide_computed in Hc as (rest & -> & Hcount & Hown & _ & _).
    cbn [app flat_map].
    rewrite (own_match "computed_features")
      by (try reflexivity; cbn [ET.children elem forallb]; rewrite Hown; reflexivity).
    cbn [app flat_map]. unfold ET.children_with_tag, elem at 1. cbn [ET.children].
    cbn [filter]. unfold ET.has_tag at 1. cbn [ET.tag leaf].
    change ("element_count" =? "element_count")%string with true. cbv iota.
    rewrite (skip_rest "element_count" rest Hcount).
    cbn [app map sum_ints ET.text py_int bind leaf]. rewrite Z.add_0_r. f_equal.
    unfold ET.has_tag at 1. cbn [ET.tag elem].
    change ("computed_features" =? "computed_features")%string with true. cbv iota.
    unfold slide_sections. cbn [filter]. unfold ET.has_tag. rewrite background_tag.
    reflexivity.
Qed.

(** The three ways in which [extract_slide_features] ends. *)
Lemma slide_cases (slide_file : string) (index : Z) :
  match read_xml pkg slide_file with
  | Raise =>
      extract_slide_features pkg slide_file index
      = Node "slide" (slide_attrs slide_file index) None []
  | Ok slide_root =>
      let sections := slide_sections pkg slide_root slide_file index in
      if snd (extract_slide_elements pkg slide_root slide_file)
      then extract_slide_features pkg slide_file index
           = Node "slide" (slide_attrs slide_file index) None sections
      else exists computed,
             compute_slide_features
               (Node "slide" (slide_attrs slide_file index) None sections) = Ok computed
             /\ extract_slide_features pkg slide_file index
                = Node "slide" (slide_attrs slide_file index) None (sections ++ [computed])
  end.
Proof.
  unfold extract_slide_features.
  destruct (read_xml pkg slide_file) as [slide_root|]; [|reflexivity].
  cbv zeta.
  destruct (features_are_computed slide_root slide_file index
              (slide_attrs slide_file index)) as [computed Hc].
  unfold slide_sections in *.
  destruct (extract_slide_elements pkg slide_root slide_file) as [cur [|]];
    cbn [fst snd] in *; [reflexivity|].
  exists computed. split; [exact Hc|].
  cbn [elem ET.extend app] in *. unfold slide_attrs in *. rewrite Hc. reflexivity.
Qed.

(** What a slide element reports, in terms of the walk over its part. *)
Lemma reported_elements_of_slide slide_file index :
  reported_elements (extract_slide_features pkg slide_file index)
  = match read_xml pkg slide_file with
    | Ok slide_root =>
        if snd (extract_slide_elements pkg slide_root slide_file) then 0
        else Z.of_nat (List.length
                         (appended (fst (extract_slide_elements pkg slide_root slide_file))))
    | Raise => 0
    end.
Proof.
  pose proof (slide_cases slide_file index) as H.
  destruct (read_xml pkg slide_file) as [slide_root|]; [|rewrite H; reflexivity].
  cbv zeta in H. unfold reported_elements, ET.children_with_tag.
  destruct (snd (extract_slide_elements pkg slide_root slide_file)).
  - rewrite H. cbn [ET.children].
    rewrite (skip_rest "computed_features")
      by (apply slide_sections_free; now right).
    reflexivity.
  - destruct H as (computed & Hc & ->). cbn [ET.children].
    apply slide_computed in Hc as (rest & -> & _ & _ & _ & _).
    rewrite !filter_app.
    rewrite (skip_rest "computed_features" (slide_sections _ _ _ _))
      by (apply slide_sections_free; now right).
    unfold slide_sections. cbn [filter app]. unfold ET.has_tag. rewrite background_tag.
    reflexivity.
Qed.

End SlideShape.

Lemma sum_ints_app l1 l2 a b :
  sum_ints l1 = Ok a -> sum_ints l2 = Ok b -> sum_ints (l1 ++ l2) = Ok (a + b).
Proof.
  revert a. induction l1 as [|r l1 IH]; cbn [app sum_ints]; intros a H1 H2.
  - injection H1 as <-. rewrite H2. reflexivity.
  - apply bind_ok in H1 as (x & -> & H1). apply bind_ok in H1 as (s & Hs & H1).
    injection H1 as <-. cbn [bind]. rewrite (IH s Hs H2). cbn [bind]. f_equal. lia.
Qed.

Section Driver.
Variable pkg : package.

Lemma slides_found :
  ET.find "slides" (training_data pkg) = Some (elem "slides" [] (slides_of pkg)).
Proof.
  unfold training_data.
  apply (find_after_lacking "slides" _ _ _
           [extract_document_metadata pkg; extract_theme_definition pkg;
            extract_slide_masters pkg] (elem "slides" [] (slides_of pkg)) []);
    [|reflexivity].
  cbn [forallb].
  rewrite document_metadata_lacks_slides, theme_definition_lacks_slides,
    slide_masters_lacks_slides. reflexivity.
Qed.

Lemma slides_are_the_children :
  ET.findall "slide" (elem "slides" [] (slides_of pkg)) = slides_of pkg.
Proof.
  unfold elem. rewrite findall_node. unfold slides_of.
  induction (enumerate 1 (get_slide_files pkg)) as [|[idx f] l IH]; [reflexivity|].
  cbn [map flat_map].
  rewrite (slide_is_one_slide pkg f idx), IH. reflexivity.
Qed.

Lemma total_elements :
  sum_ints (map (fun e => py_int (ET.text e))
                (flat_map (ET.children_with_tag "element_count")
                          (ET.findall "computed_features"
                                      (elem "slides" [] (slides_of pkg)))))
  = Ok (sum_Z (map reported_elements (slides_of pkg))).
Proof.
  unfold elem. rewrite findall_node. unfold slides_of.
  induction (enumerate 1 (get_slide_files pkg)) as [|[idx f] l IH]; [reflexivity|].
  cbn [map flat_map]. rewrite flat_map_app, map_app.
  apply sum_ints_app; [apply slide_counts | exact IH].
Qed.

Lemma slides_of_length :
  List.length (slides_of pkg) = List.length (get_slide_files pkg).
Proof.
  unfold slides_of. rewrite length_map.
  generalize 1. induction (get_slide_files pkg) as [|f l IH]; intros from; [reflexivity|].
  cbn [enumerate List.length]. now rewrite IH.
Qed.

Lemma slides_of_are_slides :
  Forall (fun s => exists f i kids, s = Node "slide" (slide_attrs f i) None kids)
         (slides_of pkg).
Proof.
  unfold slides_of.
  induction (enumerate 1 (get_slide_files pkg)) as [|[idx f] l IH]; [constructor|].
  cbn [map]. constructor; [|exact IH].
  destruct (slide_shape pkg f idx) as (kids & -> & _). eauto.
Qed.

Lemma tally_repeat (k : pyval) (n : nat) :
  tally (repeat k n) = match n with O => [] | S _ => [(k, Z.of_nat n)] end.
Proof.
  unfold tally. destruct n as [|n]; [reflexivity|]. cbn [repeat fold_left bump].
  assert (H : forall m c, fold_left (fun d k0 => bump k0 d) (repeat k m) [(k, c)]
                        = [(k, c + Z.of_nat m)]).
  { induction m as [|m IH]; intros c; cbn [repeat fold_left bump].
    - now rewrite Z.add_0_r.
    - unfold pyval_eqb at 1. destruct (pyval_eq_dec k k) as [_|N]; [|contradiction].
      rewrite IH. do 2 f_equal. lia. }
  rewrite H. do 2 f_equal. lia.
Qed.

Lemma layout_refs :
  map (fun slide => ET.get_or slide "layout_ref" (PStr "unknown")) (slides_of pkg)
  = repeat (PStr "unknown") (List.length (get_slide_files pkg)).
Proof.
  rewrite <- slides_of_length.
  induction (slides_of_are_slides) as [|s l Hs _ IH]; [reflexivity|].
  cbn [map List.length repeat]. rewrite IH. f_equal.
  destruct Hs as (f & i & kids & ->). reflexivity.
Qed.

(** The statistics of any package. *)
Lemma statistics_of_package :
  exists stats,
    compute_global_statistics (training_data pkg) = Ok stats
    /\ ET.tag stats = "global_statistics"
    /\ ET.children_with_tag "total_slides" stats
       = [leaf "total_slides" (PInt (Z.of_nat (List.length (get_slide_files pkg))))]
    /\ ET.children_with_tag "avg_elements_per_slide" stats
       = [leaf "avg_elements_per_slide"
               (PFixed 1
                  (if 0 <? Z.of_nat (List.length (get_slide_files pkg))
                   then inject_Z (sum_Z (map reported_elements (slides_of pkg)))
                        / inject_Z (Z.of_nat (List.length (get_slide_files pkg)))
                   else 0)%Q)]
    /\ ET.children_with_tag "layout_usage" stats
       = [elem "layout_usage" []
            match get_slide_files pkg with
            | [] => []
            | _ :: _ =>
                [elem "layout" [("ref", PStr "unknown");
                                ("count",
                                 PInt (Z.of_nat (List.length (get_slide_files pkg))))] []]
            end].
Proof.
  unfold compute_global_statistics. rewrite slides_found. cbv zeta.
  rewrite total_elements. cbn [bind].
  rewrite slides_are_the_children, slides_of_length, layout_refs, tally_repeat.
  eexists. split; [reflexivity|]. repeat split.
  unfold ET.children_with_tag. cbn [elem ET.children filter ET.has_tag ET.tag leaf].
  destruct (get_slide_files pkg); reflexivity.
Qed.

End Driver.

(** X3.  [extract_slide_features] ends in one of three ways.  A part that
    cannot be read or parsed gives a [slide] element without children.  A
    walk that an exception left gives the five sections and no computed
    features.  Otherwise the features are computed, which never raises, and
    appended as the sixth child. *)
Theorem slide_outcomes (pkg : package) (slide_file : string) (index : Z) :
  match read_xml pkg slide_file with
  | Raise =>
      extract_slide_features pkg slide_file index
      = Node "slide" (slide_attrs slide_file index) None []
  | Ok slide_root =>
      let sections := slide_sections pkg slide_root slide_file index in
      if snd (extract_slide_elements pkg slide_root slide_file)
      then extract_slide_features pkg slide_file index
           = Node "slide" (slide_attrs slide_file index) None sections
      else exists computed,
             compute_slide_features
               (Node "slide" (slide_attrs slide_file index) None sections) = Ok computed
             /\ extract_slide_features pkg slide_file index
                = Node "slide" (slide_attrs slide_file index) None (sections ++ [computed])
  end.
Proof.
  apply slide_cases.
Qed.

(** X1.  [extract_all_features] raises on no package: whatever the parts
    hold, and whichever of them are missing or malformed, it returns the
    tree with the document metadata, the theme, the masters, one [slides]
    element and the statistics, in this order. *)
Theorem extraction_never_raises (pkg : package) :
  exists stats,
    extract_all_features pkg
    = Ok (Node "presentation_training_data" [("version", PStr "1.0")] None
               [extract_document_metadata pkg; extract_theme_definition pkg;
                extract_slide_masters pkg; elem "slides" [] (slides_of pkg); stats])
    /\ ET.tag stats = "global_statistics".
Proof.
  destruct (statistics_of_package pkg) as (stats & Hs & Ht & _).
  exists stats. split; [|exact Ht].
  unfold extract_all_features. cbv zeta.
  change (compute_global_statistics _) with (compute_global_statistics (training_data pkg)).
  rewrite Hs. reflexivity.
Qed.

(** X2.  Every slide part that [get_slide_files] finds gives one [slide]
    element, in the order found, with the name of the part as [id] and its
    position from 1 as [index], also when the part cannot be read; and
    [total_slides] is the number of these parts. *)
Theorem every_part_gives_a_slide (pkg : package) :
  map (fun slide => (ET.tag slide, ET.attrib slide)) (slides_of pkg)
  = map (fun '(idx, slide_file) =>
           ("slide", [("id", PStem slide_file); ("index", PInt idx)]))
        (enumerate 1 (get_slide_files pkg))
  /\ exists stats,
      extract_all_features pkg = Ok (ET.append (training_data pkg) stats)
      /\ ET.children_with_tag "total_slides" stats
         = [leaf "total_slides" (PInt (Z.of_nat (List.length (get_slide_files pkg))))].
Proof.
  split.
  - unfold slides_of. rewrite map_map.
    apply map_ext. intros [idx slide_file].
    destruct (slide_shape pkg slide_file idx) as (kids & -> & _). reflexivity.
  - destruct (statistics_of_package pkg) as (stats & Hs & _ & Ht & _).
    exists stats. split; [|exact Ht].
    unfold extract_all_features. cbv zeta.
    change (compute_global_statistics _)
      with (compute_global_statistics (training_data pkg)).
    rewrite Hs. reflexivity.
Qed.

(** X4.  [avg_elements_per_slide] divides by the number of all the slide
    parts found, and adds up, for each of them, the number of its elements
    when its walk was completed and nothing otherwise: a slide that could
    not be read, or whose walk an exception left, lowers the average. *)
Theorem average_counts_every_part (pkg : package) :
  exists stats,
    extract_all_features pkg = Ok (ET.append (training_data pkg) stats)
    /\ ET.children_with_tag "avg_elements_per_slide" stats
       = [leaf "avg_elements_per_slide"
               (PFixed 1
                  (if 0 <? Z.of_nat (List.length (get_slide_files pkg))
                   then inject_Z (sum_Z (map reported_elements (slides_of pkg)))
                        / inject_Z (Z.of_nat (List.length (get_slide_files pkg)))
                   else 0)%Q)]
    /\ forall slide_file index,
        reported_elements (extract_slide_features pkg slide_file index)
        = match read_xml pkg slide_file with
          | Ok slide_root =>
              if snd (extract_slide_elements pkg slide_root slide_file) then 0
              else Z.of_nat
                     (List.length
                        (appended (fst (extract_slide_elements pkg slide_root slide_file))))
          | Raise => 0
          end.
Proof.
  destruct (statistics_of_package pkg) as (stats & Hs & _ & _ & Ha & _).
  exists stats. split; [|split; [exact Ha | apply reported_elements_of_slide]].
  unfold extract_all_features. cbv zeta.
  change (compute_global_statistics _) with (compute_global_statistics (training_data pkg)).
  rewrite Hs. reflexivity.
Qed.

(** X5.  No [slide] element carries a [layout_ref], so [layout_usage]
    puts all the slides under the one reference [unknown] (and is empty
    for a package without slide parts). *)
Theorem layout_usage_is_unknown (pkg : package) :
  exists stats,
    extract_all_features pkg = Ok (ET.append (training_data pkg) stats)
    /\ ET.children_with_tag "layout_usage" stats
       = [elem "layout_usage" []
            match get_slide_files pkg with
            | [] => []
            | _ :: _ =>
                [elem "layout" [("ref", PStr "unknown");
                                ("count",
                                 PInt (Z.of_nat (List.length (get_slide_files pkg))))] []]
            end].
Proof.
  destruct (statistics_of_package pkg) as (stats & Hs & _ & _ & _ & Hl).
  exists stats. split; [|exact Hl].
  unfold extract_all_features. cbv zeta.
  change (compute_global_statistics _) with (compute_global_statistics (training_data pkg)).
  rewrite Hs. reflexivity.
Qed.

(** ** A walk that an exception leaves, and the children of a group *)

Lemma run_pass_app (f : extractor) l1 l2 : forall cur,
  run_pass f (l1 ++ l2) cur = then_pass f l2 (run_pass f l1 cur).
Proof.
  induction l1 as [|src l1 IH]; intros cur; cbn [app run_pass]; [reflexivity|].
  destruct (f src (z_order cur)) as [[e|]|]; auto.
Qed.

(** X6.  When the extraction of a shape raises, the slide keeps the
    elements of the shapes before it and nothing else: the shapes after it,
    the pictures, the graphic frames and the groups are not visited, and
    no features are computed. *)
Theorem failing_shape_truncates_slide
        (pkg : package) (slide_file : string) (index : Z)
        (slide_root sp_tree : snode) (before : list snode) (bad : snode)
        (rest : list snode) :
  read_xml pkg slide_file = Ok slide_root ->
  ET.find p:"spTree" slide_root = Some sp_tree ->
  ET.findall p:"sp" sp_tree = before ++ bad :: rest ->
  snd (run_pass (extract_shape_element pkg slide_file) before start) = false ->
  extract_shape_element pkg slide_file bad
    (z_order (fst (run_pass (extract_shape_element pkg slide_file) before start)))
  = Raise ->
  extract_slide_features pkg slide_file index
  = Node "slide" [("id", PStem slide_file); ("index", PInt index)] None
         [extract_slide_metadata pkg slide_root slide_file;
          extract_background slide_root;
          leaf "semantic_role" (PStr (infer_slide_role slide_root index));
          leaf "slide_hash" (PDigest slide_file);
          elem "elements" []
               (appended (fst (run_pass (extract_shape_element pkg slide_file)
                                        before start)))].
Proof.
  intros Hread Htree Hshapes Hbefore Hbad.
  unfold extract_slide_features, extract_slide_elements.
  rewrite Hread, Htree, Hshapes, run_pass_app. cbv zeta.
  unfold then_pass at 4. rewrite Hbefore. cbn [run_pass]. rewrite Hbad.
  unfold then_pass. cbn [snd fst]. reflexivity.
Qed.

(** X6, witness: a sound shape, a shape whose offset is not a number, and
    a picture. *)
Lemma failing_shape_witness :
  extract_slide_features Broken.deck Sample.slide1 1
  = Node "slide" [("id", PStem Sample.slide1); ("index", PInt 1)] None
         [extract_slide_metadata Broken.deck Broken.slide Sample.slide1;
          extract_background Broken.slide;
          leaf "semantic_role" (PStr (infer_slide_role Broken.slide 1));
          leaf "slide_hash" (PDigest Sample.slide1);
          elem "elements" []
               (appended (fst (run_pass (extract_shape_element Broken.deck Sample.slide1)
                                        [Sample.shape "1"] start)))].
Proof.
  apply (failing_shape_truncates_slide
           Broken.deck Sample.slide1 1 Broken.slide
           (Sample.shape_tree [Sample.shape "1"; Broken.bad_offset; Sample.picture "3"])
           [Sample.shape "1"] Broken.bad_offset []);
    reflexivity.
Defined.

(** X7.  The children of a group element are the named shapes below the
    group, all of type [textbox], numbered from 1 whatever the [z_order] of
    the group itself. *)
Theorem group_children_numbered
        (pkg : package) (slide_file : string) (grp : snode) (z : Z) (e : onode) :
  extract_group_element pkg slide_file grp z = Ok (Some e) ->
  exists geom inner,
    e = elem "element" [("type", PStr "group"); ("z_order", PInt z)]
             (geom ++ [elem "children" [] inner])
    /\ map z_order_attr inner
       = map (fun k => Some (PInt k)) (z_range 1 (List.length inner))
    /\ map type_attr inner
       = map (fun _ => Some (PStr "textbox"))
             (filter (named p:"nvSpPr") (ET.findall p:"sp" grp)).
Proof.
  unfold extract_group_element. intros H.
  apply bind_ok in H as (geom & _ & H).
  pose proof (run_pass_numbered (extract_shape_element pkg slide_file)
                (ET.findall p:"sp" grp) (shape_stamps pkg slide_file)
                start counts_start numbered_start) as Hn.
  pose proof (run_pass_types _ _ (extract_shape_element pkg slide_file)
                (ET.findall p:"sp" grp) (shape_sorts pkg slide_file) start) as Ht.
  destruct (run_pass _ _ start) as [inner [|]]; [discriminate|]. emitted H.
  exists geom, (appended inner). split; [reflexivity|]. split; [exact Hn|].
  exact (Ht inner eq_refl).
Qed.

(** X7, witness: a group of one shape, extracted with the counter at 5. *)
Lemma group_children_witness :
  exists geom inner,
    elem "element" [("type", PStr "group"); ("z_order", PInt 5)]
         [elem "children" []
               [elem "element" [("id", PStr "7"); ("type", PStr "textbox");
                                ("z_order", PInt 1)]
                     [elem "fill" [("type", PStr "none")] [];
                      elem "stroke" [("width", PStr "0")] []]]]
    = elem "element" [("type", PStr "group"); ("z_order", PInt 5)]
           (geom ++ [elem "children" [] inner])
    /\ map z_order_attr inner
       = map (fun k => Some (PInt k)) (z_range 1 (List.length inner))
    /\ map type_attr inner
       = map (fun _ => Some (PStr "textbox"))
             (filter (named p:"nvSpPr")
                     (ET.findall p:"sp" (Sample.group [Sample.shape "7"]))).
Proof.
  apply (group_children_numbered [] Sample.slide1 (Sample.group [Sample.shape "7"]) 5).
  reflexivity.
Defined.

(** ** Paragraphs and runs *)

Lemma map_enumerate_numbered {A : Type} (f : A -> Z -> result onode) (l : list A) :
  (forall x i y, f x i = Ok y -> idx_attr y = Some (PInt i)) ->
  forall from ys,
    map_enumerate f from l = Ok ys ->
    map idx_attr ys = map (fun k => Some (PInt k)) (z_range from (List.length l)).
Proof.
  intros Hf. induction l as [|x l IH]; cbn [map_enumerate]; intros from ys H.
  - emitted H. reflexivity.
  - apply bind_ok in H as (y & Hy & H). apply bind_ok in H as (ys' & Hys & H).
    emitted H. cbn [map List.length z_range]. rewrite (Hf _ _ _ Hy), (IH _ _ Hys).
    reflexivity.
Qed.

Lemma keep_all {A : Type} (P : A -> bool) (l : list A) :
  forallb P l = true -> filter P l = l.
Proof.
  induction l as [|x l IH]; [reflexivity|]. cbn [forallb filter].
  intros H. apply andb_prop in H as [-> H]. now rewrite IH.
Qed.

Lemma text_run_head r idx e :
  extract_text_run r idx = Ok e ->
  ET.tag e = "text_run" /\ idx_attr e = Some (PInt idx).
Proof.
  unfold extract_text_run. intros H.
  apply bind_ok in H as (formatting & _ & H). emitted H. split; reflexivity.
Qed.




(** X9.  The [text_run] children of a paragraph are as many as the runs
    below the source paragraph, with [idx] counting from 0; a paragraph
    without runs gets one run, of index ["0"], exactly when it has an end
    mark. *)
Theorem runs_follow_source (p : snode) (idx : Z) (paragraph : onode) :
  extract_paragraph p idx = Ok paragraph ->
  map idx_attr (ET.children_with_tag "text_run" paragraph)
  = match ET.findall a:"r" p, ET.find a:"endParaRPr" p with
    | [], Some _ => [Some (PStr "0")]
    | runs, _ => map (fun k => Some (PInt k)) (z_range 0 (List.length runs))
    end.
Proof.
  unfold extract_paragraph. intros H.
  apply bind_ok in H as ([attrs kids] & Hp & H).
  apply bind_ok in H as (run_elems & Hr & H). emitted H.
  unfold ET.children_with_tag. cbn [elem ET.children fst snd]. rewrite !filter_app.
  assert (filter (ET.has_tag "text_run") kids = []) as ->.
  { destruct (ET.find a:"pPr" p) as [p_pr|]; [|injection Hp as _ <-; reflexivity].
    apply bind_ok in Hp as (ls & Hls & Hp). injection Hp as _ <-.
    cbn [app filter]. change (ET.has_tag "text_run" (leaf "alignment" _)) with false.
    cbv iota. rewrite !filter_app.
    assert (filter (ET.has_tag "text_run") ls = []) as ->.
    { destruct (ET.find a:"lnSpc" p_pr) as [ln|]; [|emitted Hls; reflexivity].
      destruct (ET.find _ ln); [|emitted Hls; reflexivity].
      run_binds Hls. emitted Hls. reflexivity. }
    unfold spacing_points.
    destruct (ET.find a:"spcBef" p_pr) as [b|]; [destruct (ET.find _ b)|];
      (destruct (ET.find a:"spcAft" p_pr) as [f|]; [destruct (ET.find _ f)|]);
      reflexivity. }
  cbn [app]. rewrite map_app.
  rewrite (keep_all _ run_elems).
  2:{ apply (map_enumerate_all _ extract_text_run _
               (fun x i y H => proj2 (String.eqb_eq _ _) (proj1 (text_run_head x i y H)))
               _ _ Hr). }
  rewrite (map_enumerate_numbered extract_text_run _
             (fun x i y H => proj2 (text_run_head x i y H)) _ _ Hr).
  destruct (ET.findall a:"r" p) as [|r0 runs].
  - destruct (ET.find a:"endParaRPr" p); reflexivity.
  - cbn [filter map]. rewrite app_nil_r. reflexivity.
Qed.

(** X9, witness: a paragraph of two runs. *)
Lemma runs_witness :
  exists paragraph,
    extract_paragraph Text.two_runs 0 = Ok paragraph
    /\ map idx_attr (ET.children_with_tag "text_run" paragraph)
       = [Some (PInt 0); Some (PInt 1)].
Proof.
  eexists. split; [reflexivity|].
  apply (runs_follow_source Text.two_runs 0). reflexivity.
Defined.

(** ** The aspect ratio *)

(** X10.  Unless both sizes are 0, [calculate_aspect_ratio] returns the
    ratio in lowest terms: its two numbers have no common divisor and are
    the sizes divided by their greatest common divisor. *)
Theorem aspect_ratio_reduced (width height : Z) :
  width <> 0 \/ height <> 0 ->
  exists w h,
    calculate_aspect_ratio width height = Ok (PRatio w h)
    /\ Z.gcd w h = 1
    /\ w * height = h * width
    /\ width = w * Z.gcd width height
    /\ height = h * Z.gcd width height.
Proof.
  intros Hnz. unfold calculate_aspect_ratio. cbv zeta.
  assert (Hg : Z.gcd width height <> 0).
  { intros E. apply Z.gcd_eq_0 in E. lia. }
  destruct (Z.eqb_spec (Z.gcd width height) 0) as [E|_]; [contradiction|].
  exists (width / Z.gcd width height), (height / Z.gcd width height).
  destruct (Z.gcd_divide_l width height) as [a Ha].
  destruct (Z.gcd_divide_r width height) as [b Hb].
  assert (Ea : width / Z.gcd width height = a)
    by (rewrite Ha at 1; apply Z.div_mul; exact Hg).
  assert (Eb : height / Z.gcd width height = b)
    by (rewrite Hb at 1; apply Z.div_mul; exact Hg).
  split; [reflexivity|]. split; [apply Z.gcd_div_gcd; [exact Hg | reflexivity]|].
  rewrite Ea, Eb. split; [|split; assumption].
  rewrite Hb at 1. rewrite Ha at 2. ring.
Qed.

(** X10, witness: the default canvas, of ratio 4:3. *)
Lemma aspect_ratio_witness :
  exists w h,
    calculate_aspect_ratio 9144000 6858000 = Ok (PRatio w h)
    /\ Z.gcd w h = 1
    /\ w * 6858000 = h * 9144000
    /\ 9144000 = w * Z.gcd 9144000 6858000
    /\ 6858000 = h * Z.gcd 9144000 6858000.
Proof.
  apply (aspect_ratio_reduced 9144000 6858000). left. lia.
Defined.

(** ** The counter *)

Lemma pyval_eqb_eq x y : pyval_eqb x y = true <-> x = y.
Proof.
  unfold pyval_eqb. destruct (pyval_eq_dec x y); split; congruence.
Qed.

Lemma bump_keys k d : NoDup (map fst d) -> NoDup (map fst (bump k d)).
Proof.
  induction d as [|[k' n] d IH]; cbn [bump map fst]; intros H.
  - repeat constructor. intros [].
  - inversion H as [|? ? Hk Hd]; subst.
    destruct (pyval_eqb k' k) eqn:E; cbn [map fst]; [constructor; assumption|].
    constructor; [|auto]. intros Hin. apply Hk.
    clear - Hin E. induction d as [|[k2 n2] d IH]; cbn [bump map fst In] in *.
    + destruct Hin as [<-|[]]. rewrite (proj2 (pyval_eqb_eq k k)) in E by reflexivity.
      discriminate.
    + destruct (pyval_eqb k2 k); cbn [map fst In] in Hin; tauto.
Qed.

Lemma bump_count k k2 d :
  count_of k2 (bump k d) = count_of k2 d + (if pyval_eqb k k2 then 1 else 0).
Proof.
  induction d as [|[k' n] d IH]; cbn [bump count_of].
  - lia.
  - destruct (pyval_eqb k' k) eqn:E; cbn [count_of].
    + apply pyval_eqb_eq in E. subst k'. destruct (pyval_eqb k k2); lia.
    + destruct (pyval_eqb k' k2) eqn:E2; [|exact IH].
      apply pyval_eqb_eq in E2. subst k'.
      destruct (pyval_eqb k k2) eqn:E3; [|lia].
      apply pyval_eqb_eq in E3. subst k2.
      rewrite (proj2 (pyval_eqb_eq k k)) in E by reflexivity. discriminate.
Qed.

Lemma bump_positive k d :
  Forall (fun i => 0 < snd i) d -> Forall (fun i => 0 < snd i) (bump k d).
Proof.
  induction d as [|[k' n] d IH]; cbn [bump]; intros H.
  - repeat constructor.
  - inversion H as [|? ? Hn Hd]; subst. cbn [snd] in Hn.
    destruct (pyval_eqb k' k); constructor; cbn [snd]; auto; lia.
Qed.

Lemma tally_from keys : forall d,
  NoDup (map fst d) -> Forall (fun i => 0 < snd i) d ->
  let d' := fold_left (fun d k => bump k d) keys d in
  NoDup (map fst d')
  /\ Forall (fun i => 0 < snd i) d'
  /\ forall k, count_of k d' = count_of k d + occurrences k keys.
Proof.
  unfold occurrences.
  induction keys as [|k0 keys IH]; cbn [fold_left count_occ]; intros d Hd Hp.
  - repeat split; auto. intros k. cbn. lia.
  - destruct (IH (bump k0 d) (bump_keys k0 d Hd) (bump_positive k0 d Hp))
      as (H1 & H2 & H3).
    repeat split; auto. intros k. rewrite H3, bump_count.
    unfold pyval_eqb. destruct (pyval_eq_dec k0 k); lia.
Qed.

Lemma count_of_in k n d : NoDup (map fst d) -> In (k, n) d -> count_of k d = n.
Proof.
  induction d as [|[k' n'] d IH]; cbn [map fst In count_of]; [tauto|].
  intros H [E|Hin]; inversion H as [|? ? Hk Hd]; subst.
  - injection E as -> ->. now rewrite (proj2 (pyval_eqb_eq k k)).
  - destruct (pyval_eqb k' k) eqn:E; [|auto].
    apply pyval_eqb_eq in E. subst k'. exfalso. apply Hk.
    change k with (fst (k, n)). now apply in_map.
Qed.

Lemma count_of_absent k d : ~ In k (map fst d) -> count_of k d = 0.
Proof.
  induction d as [|[k' n'] d IH]; cbn [map fst In count_of]; [reflexivity|].
  intros H. destruct (pyval_eqb k' k) eqn:E; [|tauto].
  apply pyval_eqb_eq in E. tauto.
Qed.

(** What a counter holds: one entry per distinct key, with the number of
    its occurrences. *)
Lemma tally_counts (keys : list pyval) :
  NoDup (map fst (tally keys))
  /\ (forall k n, In (k, n) (tally keys) -> n = occurrences k keys /\ 0 < n)
  /\ (forall k, In k keys -> In (k, occurrences k keys) (tally keys)).
Proof.
  destruct (tally_from keys [] ltac:(constructor) ltac:(constructor)) as (H1 & H2 & H3).
  fold (tally keys) in *. cbn [count_of] in H3. split; [exact H1|]. split.
  - intros k n Hin. split.
    + rewrite <- (count_of_in k n _ H1 Hin). apply H3.
    + rewrite Forall_forall in H2. exact (H2 _ Hin).
  - intros k Hk.
    assert (Hpos : 0 < occurrences k keys).
    { unfold occurrences. apply (count_occ_In pyval_eq_dec) in Hk. lia. }
    destruct (in_dec pyval_eq_dec k (map fst (tally keys))) as [Hin|Hout].
    + apply in_map_iff in Hin as ([k' n] & E & Hin). cbn [fst] in E. subst k'.
      rewrite <- (count_of_in k n _ H1 Hin) in Hin. rewrite H3 in Hin. exact Hin.
    + apply count_of_absent in Hout. rewrite H3 in Hout. lia.
Qed.

(** ** The ranking *)

Lemma insert_desc_perm x l : Permutation (x :: l) (insert_desc x l).
Proof.
  induction l as [|y l IH]; cbn [insert_desc]; [reflexivity|].
  destruct (snd y <? snd x); [reflexivity|].
  rewrite perm_swap. now constructor.
Qed.

Lemma sorted_desc_perm items : Permutation items (sorted_desc items).
Proof.
  unfold sorted_desc.
  assert (H : forall acc, Permutation (acc ++ items)
                            (fold_left (fun a x => insert_desc x a) items acc)).
  { induction items as [|x items IH]; intros acc; cbn [fold_left].
    - now rewrite app_nil_r.
    - rewrite <- IH. rewrite <- insert_desc_perm. cbn [app].
      symmetry. apply Permutation_middle. }
  exact (H []).
Qed.

Lemma in_firstn {A : Type} n (l : list A) x : In x (firstn n l) -> In x l.
Proof.
  intros H. rewrite <- (firstn_skipn n l). apply in_or_app. now left.
Qed.

Lemma in_skipn {A : Type} n (l : list A) x : In x (skipn n l) -> In x l.
Proof.
  intros H. rewrite <- (firstn_skipn n l). apply in_or_app. now right.
Qed.

Lemma descending_split n (l : list (pyval * Z)) :
  descending l ->
  forall x y, In x (firstn n l) -> In y (skipn n l) -> snd y <= snd x.
Proof.
  unfold descending. revert l. induction n as [|n IH]; intros l Hl x y Hx Hy.
  - destruct Hx.
  - destruct l as [|z l]; [destruct Hx|]. cbn [firstn skipn] in *.
    inversion Hl as [|? ? Hs Hz]; subst.
    destruct Hx as [<-|Hx]; [|eauto].
    rewrite Forall_forall in Hz. apply Hz. eapply in_skipn. exact Hy.
Qed.

Lemma descending_firstn n (l : list (pyval * Z)) :
  descending l -> descending (firstn n l).
Proof.
  unfold descending. revert l. induction n as [|n IH]; intros l Hl; [constructor|].
  destruct l as [|z l]; [constructor|]. cbn [firstn].
  inversion Hl as [|? ? Hs Hz]; subst. constructor; [auto|].
  rewrite Forall_forall in *. intros y Hy. apply Hz. eapply in_firstn. exact Hy.
Qed.

Lemma NoDup_firstn {A : Type} n (l : list A) : NoDup l -> NoDup (firstn n l).
Proof.
  revert l. induction n as [|n IH]; intros l Hl; [constructor|].
  destruct l as [|z l]; [constructor|]. cbn [firstn].
  inversion Hl as [|? ? Hz Hl']; subst. constructor; [|auto].
  intros Hin. apply Hz. eapply in_firstn. exact Hin.
Qed.

(** X11.  The ranking [most_used_colors]: at most ten entries, in
    descending order of count, no color twice, every count the number of
    occurrences of its color among the counted ones; and a counted color
    is left out only when ten colors are listed, none with a smaller
    count. *)
Theorem ranking_is_faithful (training_data : onode) :
  let colors := counted_colors training_data in
  let ranking := top_colors training_data in
  (List.length ranking <= 10)%nat
  /\ descending ranking
  /\ NoDup (map fst ranking)
  /\ (forall color count,
        In (color, count) ranking -> count = occurrences color colors /\ 0 < count)
  /\ (forall color,
        In color colors -> ~ In color (map fst ranking) ->
        List.length ranking = 10%nat
        /\ forall count, In count (map snd ranking) -> occurrences color colors <= count).
Proof.
  cbv zeta. unfold top_colors.
  set (colors := counted_colors training_data).
  destruct (tally_counts colors) as (Hkeys & Hcount & Hall).
  destruct (sorted_desc_stable (tally colors) 0) as [Hdesc _].
  pose proof (sorted_desc_perm (tally colors)) as Hperm.
  set (sorted := sorted_desc (tally colors)) in *.
  split; [apply firstn_le_length|].
  split; [now apply descending_firstn|].
  split.
  { rewrite <- firstn_map. apply NoDup_firstn.
    eapply Permutation_NoDup; [|exact Hkeys]. now apply Permutation_map. }
  split.
  { intros color count Hin. apply Hcount.
    eapply Permutation_in; [symmetry; exact Hperm|]. eapply in_firstn. exact Hin. }
  intros color Hcolor Hout.
  assert (Hs : In (color, occurrences color colors) sorted)
    by (eapply Permutation_in; [exact Hperm | auto]).
  rewrite <- (firstn_skipn 10 sorted) in Hs. apply in_app_or in Hs as [Hs|Hs].
  { exfalso. apply Hout. change color with (fst (color, occurrences color colors)).
    now apply in_map. }
  split.
  - apply firstn_length_le. destruct (Nat.le_gt_cases 10 (List.length sorted)); [assumption|].
    rewrite skipn_all2 in Hs by lia. destruct Hs.
  - intros count Hc. apply in_map_iff in Hc as (x & <- & Hx).
    exact (descending_split 10 sorted Hdesc x _ Hx Hs).
Qed.

(** ** The scan of the archive by name *)

Lemma insert_sorted_perm x l : Permutation (x :: l) (PyStr.insert_sorted x l).
Proof.
  induction l as [|y l IH]; cbn [PyStr.insert_sorted]; [reflexivity|].
  destruct (String.leb x y); [reflexivity|].
  rewrite perm_swap. now constructor.
Qed.

Lemma insert_sorted_sorted x l :
  Sorted name_order l -> Sorted name_order (PyStr.insert_sorted x l).
Proof.
  induction l as [|y l IH]; cbn [PyStr.insert_sorted]; intros Hl.
  - repeat constructor.
  - destruct (String.leb x y) eqn:E.
    + constructor; [exact Hl|]. constructor. exact E.
    + inversion Hl as [|? ? Hs Hh]; subst.
      constructor; [auto|].
      assert (Hyx : name_order y x).
      { destruct (String.leb_total x y) as [H|H]; [congruence | exact H]. }
      destruct l as [|z l]; cbn [PyStr.insert_sorted].
      * constructor. exact Hyx.
      * destruct (String.leb x z); constructor; [exact Hyx|].
        inversion Hh; assumption.
Qed.

Lemma sort_sorts l :
  Permutation l (PyStr.sort l) /\ Sorted name_order (PyStr.sort l).
Proof.
  unfold PyStr.sort. induction l as [|x l [IHp IHs]]; cbn [fold_right].
  - split; constructor.
  - split; [|now apply insert_sorted_sorted].
    rewrite <- insert_sorted_perm. now constructor.
Qed.

(** X12.  When the presentation part cannot be read or parsed,
    [get_slide_files] returns the names in the archive that start with
    [ppt/slides/slide] and end with [.xml], each as often as the archive
    lists it, in the order of the code points of the names (so that
    [slide10.xml] comes before [slide2.xml]). *)
Theorem scan_lists_slide_parts_by_name (pkg : package) :
  read_xml pkg "ppt/presentation.xml" = Raise ->
  Permutation (filter is_slide_part (namelist pkg)) (get_slide_files pkg)
  /\ Sorted name_order (get_slide_files pkg).
Proof.
  intros Hread. unfold get_slide_files. rewrite Hread. apply sort_sorts.
Qed.

(** X12, witness: an archive without presentation part. *)
Lemma scan_witness :
  get_slide_files Scan.deck
  = ["ppt/slides/slide1.xml"; "ppt/slides/slide10.xml"; "ppt/slides/slide2.xml"]
  /\ Permutation (filter is_slide_part (namelist Scan.deck)) (get_slide_files Scan.deck)
  /\ Sorted name_order (get_slide_files Scan.deck).
Proof.
  split; [reflexivity|].
  apply (scan_lists_slide_parts_by_name Scan.deck). reflexivity.
Defined.

(** ** The canvas *)

(** X13.  On a canvas whose width or height is 0, [extract_geometry]
    raises for every transform that has an offset or an extent. *)
Theorem zero_canvas_fails_geometry (pkg : package) (xfrm : snode) :
  fst (canvas_size pkg) = 0 \/ snd (canvas_size pkg) = 0 ->
  named a:"off" xfrm = true \/ named a:"ext" xfrm = true ->
  extract_geometry pkg xfrm = Raise.
Proof.
  unfold extract_geometry, named. destruct (canvas_size pkg) as [w h]. cbn [fst snd].
  intros Hzero Hsome.
  assert (Hdiv : forall x y, (nx <- py_div x w ;; ny <- py_div y h ;; Ok (nx, ny)) = Raise).
  { intros x y. unfold py_div. destruct Hzero as [-> | ->]; [reflexivity|].
    destruct (w =? 0); reflexivity. }
  assert (Hraise : forall (n : snode) k1 k2 (t1 t2 : string),
             (a <- int_attr n k1 0 ;; b <- int_attr n k2 0 ;;
              na <- py_div a w ;; nb <- py_div b h ;;
              Ok [leaf t1 (PFixed 6 na); leaf t2 (PFixed 6 nb)]) = Raise).
  { intros n k1 k2 t1 t2.
    destruct (int_attr n k1 0) as [a|]; [|reflexivity].
    destruct (int_attr n k2 0) as [b|]; [|reflexivity]. cbn [bind].
    specialize (Hdiv a b). destruct (py_div a w); [|reflexivity]. cbn [bind] in *.
    destruct (py_div b h); [discriminate | reflexivity]. }
  destruct (ET.find a:"off" xfrm) as [off|].
  - rewrite Hraise. reflexivity.
  - cbn [bind]. destruct (ET.find a:"ext" xfrm) as [ext|].
    + rewrite Hraise. reflexivity.
    + destruct Hsome; discriminate.
Qed.

(** X13, witness: a canvas declared with width 0. *)
Lemma zero_canvas_witness :
  extract_geometry Canvas.flat Sample.near_corner = Raise.
Proof.
  apply (zero_canvas_fails_geometry Canvas.flat Sample.near_corner);
    left; reflexivity.
Defined.

(** X14.  When the width and the height of the canvas both parse,
    [slide_dimensions] starts with them, and they are the sizes that
    [extract_geometry] divides by. *)
Theorem reported_size_is_canvas
        (pkg : package) (root sld_sz : snode) (width height : Z) :
  read_xml pkg "ppt/presentation.xml" = Ok root ->
  ET.find p:"sldSz" root = Some sld_sz ->
  int_attr sld_sz "cx" 9144000 = Ok width ->
  int_attr sld_sz "cy" 6858000 = Ok height ->
  canvas_size pkg = (width, height)
  /\ exists rest,
      ET.children (extract_slide_dimensions pkg)
      = leaf "width" (PInt width) :: leaf "height" (PInt height) :: rest.
Proof.
  intros Hread Hsize Hcx Hcy. unfold canvas_size, extract_slide_dimensions.
  rewrite Hread, Hsize, Hcx, Hcy. split; [reflexivity|]. cbn [bind elem ET.children].
  destruct (calculate_aspect_ratio width height); cbn [app]; eexists; reflexivity.
Qed.

(** X14, witness: a canvas declared as 12192000 by 6858000. *)
Lemma reported_size_witness :
  canvas_size Wide.deck = (12192000, 6858000)
  /\ exists rest,
      ET.children (extract_slide_dimensions Wide.deck)
      = leaf "width" (PInt 12192000) :: leaf "height" (PInt 6858000) :: rest.
Proof.
  apply (reported_size_is_canvas
           Wide.deck (Canvas.presentation "12192000" "6858000")
           (Node p:"sldSz" [("cx", "12192000"); ("cy", "6858000")] None []));
    reflexivity.
Defined.

(** X15.  When the width of the canvas parses and its height does not,
    [slide_dimensions] reports the default width and height, while
    [extract_geometry] divides by the declared width and the default
    height. *)
Theorem unreadable_height_splits_canvas
        (pkg : package) (root sld_sz : snode) (width : Z) :
  read_xml pkg "ppt/presentation.xml" = Ok root ->
  ET.find p:"sldSz" root = Some sld_sz ->
  int_attr sld_sz "cx" 9144000 = Ok width ->
  int_attr sld_sz "cy" 6858000 = Raise ->
  canvas_size pkg = (width, 6858000)
  /\ extract_slide_dimensions pkg
     = elem "slide_dimensions" [("unit", PStr "emu")]
            [leaf "width" (PStr "9144000"); leaf "height" (PStr "6858000")].
Proof.
  intros Hread Hsize Hcx Hcy. unfold canvas_size, extract_slide_dimensions.
  rewrite Hread, Hsize, Hcx, Hcy. split; reflexivity.
Qed.

(** X15, witness: a canvas whose height is not a number. *)
Lemma unreadable_height_witness :
  canvas_size Canvas.odd_height = (12192000, 6858000)
  /\ extract_slide_dimensions Canvas.odd_height
     = elem "slide_dimensions" [("unit", PStr "emu")]
            [leaf "width" (PStr "9144000"); leaf "height" (PStr "6858000")].
Proof.
  apply (unreadable_height_splits_canvas
           Canvas.odd_height (Canvas.presentation "12192000" "tall")
           (Node p:"sldSz" [("cx", "12192000"); ("cy", "tall")] None []) 12192000);
    reflexivity.
Defined.

(** ** Relationships *)

(** X16.  [has_relationship_type] answers true exactly when
    [get_all_relationships] returns a target (absent ones included) for
    the same part and type. *)
Theorem relationship_type_found_iff_listed (pkg : package) (rels_file rel_type : string) :
  has_relationship_type pkg rels_file rel_type
  = negb (Nat.eqb (List.length (get_all_relationships pkg rels_file rel_type)) 0).
Proof.
  unfold has_relationship_type, get_all_relationships.
  destruct (read_xml pkg rels_file) as [rels_root|]; [|reflexivity].
  rewrite length_map.
  induction (relationship_nodes rels_root) as [|rel l IH]; [reflexivity|].
  cbn [existsb filter]. destruct (PyStr.contains rel_type _); [reflexivity | exact IH].
Qed.

(** X17.  For a part [stem.xml] whose stem has no dot, the relationships
    are looked up in [stem.xml.rels], in the folder of the part itself. *)
Theorem relationships_are_read_beside_the_part (stem : string) :
  dotless stem = true ->
  rels_of (stem ++ ".xml")%string = (stem ++ ".xml.rels")%string.
Proof.
  unfold rels_of, PyStr.replace.
  induction stem as [|c stem IH]; [reflexivity|]. cbn [dotless].
  intros H. apply andb_prop in H as [Hc Hs].
  change ((String c stem ++ ".xml")%string) with (String c (stem ++ ".xml")%string).
  cbn [PyStr.replace_from prefix].
  destruct (ascii_dec "." c) as [<-|_]; [discriminate|].
  rewrite (IH Hs). reflexivity.
Qed.

(** X17, witness: the first slide part. *)
Lemma relationships_witness :
  rels_of "ppt/slides/slide1.xml" = "ppt/slides/slide1.xml.rels".
Proof.
  apply (relationships_are_read_beside_the_part "ppt/slides/slide1"). reflexivity.
Defined.

(** X18.  When no part of that name can be read, a slide has no notes, a
    picture no media reference, a chart no definition and a master no
    layout, whatever else the package holds. *)
Theorem without_sibling_relationships (pkg : package) (part : string) :
  read_xml pkg (rels_of part) = Raise ->
  (forall slide_root,
      ET.children_with_tag "has_notes" (extract_slide_metadata pkg slide_root part)
      = [leaf "has_notes" (PStr "false")])
  /\ (forall pic z e,
         extract_picture_element pkg part pic z = Ok (Some e) ->
         ET.children_with_tag "media_reference" e = [])
  /\ (forall gf z e,
         extract_chart_element pkg part gf z = Ok e ->
         ET.children_with_tag "chart_definition" e = [])
  /\ ET.find "layout" (extract_master_info pkg part) = None.
Proof.
  intros Hrels. split; [|split; [|split]].
  - intros slide_root. unfold extract_slide_metadata, has_relationship_type.
    rewrite Hrels. destruct (ET.find _ slide_root); reflexivity.
  - intros pic z e. unfold extract_picture_element, get_relationship_target.
    destruct (ET.find _ pic) as [nv|]; [|discriminate]. rewrite Hrels. intros H.
    apply bind_ok in H as (geom & Hg & H). emitted H.
    unfold ET.children_with_tag. cbn [elem ET.children]. rewrite !filter_app.
    assert (filter (ET.has_tag "media_reference") geom = []) as ->.
    { unfold geometry_of in Hg. destruct (ET.find _ pic) as [xfrm|].
      - apply bind_ok in Hg as (g & Hg & H). emitted H.
        unfold extract_geometry in Hg. destruct (canvas_size pkg).
        run_binds Hg. emitted Hg. reflexivity.
      - emitted Hg. reflexivity. }
    unfold accessibility. destruct (PyStr.truthy _);
      destruct (ET.find a:"blip" pic) as [blip|]; try reflexivity;
      destruct (nonempty (ET.get blip _)); reflexivity.
  - intros gf z e. unfold extract_chart_element, get_relationship_target.
    rewrite Hrels. intros H.
    apply bind_ok in H as (geom & Hg & H). emitted H.
    unfold ET.children_with_tag. cbn [elem ET.children]. rewrite !filter_app.
    assert (filter (ET.has_tag "chart_definition") geom = []) as ->.
    { unfold geometry_of in Hg. destruct (ET.find _ gf) as [xfrm|].
      - apply bind_ok in Hg as (g & Hg & H). emitted H.
        unfold extract_geometry in Hg. destruct (canvas_size pkg).
        run_binds Hg. emitted Hg. reflexivity.
      - emitted Hg. reflexivity. }
    destruct (ET.find c:"chart" gf) as [ch|]; [|reflexivity].
    destruct (nonempty (ET.get ch _)); reflexivity.
  - unfold extract_master_info, get_all_relationships. rewrite Hrels.
    destruct (read_xml pkg part); reflexivity.
Qed.

(** X18, witness: a package that holds the relationships of its slide in
    the [_rels] folder. *)
Lemma without_sibling_witness :
  (forall slide_root,
      ET.children_with_tag "has_notes"
        (extract_slide_metadata Linked.deck slide_root Sample.slide1)
      = [leaf "has_notes" (PStr "false")])
  /\ (forall pic z e,
         extract_picture_element Linked.deck Sample.slide1 pic z = Ok (Some e) ->
         ET.children_with_tag "media_reference" e = [])
  /\ (forall gf z e,
         extract_chart_element Linked.deck Sample.slide1 gf z = Ok e ->
         ET.children_with_tag "chart_definition" e = [])
  /\ ET.find "layout" (extract_master_info Linked.deck Sample.slide1) = None.
Proof.
  apply (without_sibling_relationships Linked.deck Sample.slide1). reflexivity.
Defined.

(** ** Ranges of the derived features *)

Lemma Qmax_lower x y : (x <= Qmax x y)%Q.
Proof.
  unfold Qmax. destruct (Qle_bool x y) eqn:E; [now apply Qle_bool_iff | apply Qle_refl].
Qed.

Lemma Qmax_upper x y z : (x <= z)%Q -> (y <= z)%Q -> (Qmax x y <= z)%Q.
Proof.
  unfold Qmax. destruct (Qle_bool x y); auto.
Qed.

Lemma Qmin_upper_l x y : (Qmin x y <= x)%Q.
Proof.
  unfold Qmin. destruct (Qle_bool x y) eqn:E; [apply Qle_refl|].
  destruct (Qlt_le_dec y x) as [H|H]; [now apply Qlt_le_weak|].
  apply Qle_bool_iff in H. congruence.
Qed.

Lemma Qmin_upper_r x y : (Qmin x y <= y)%Q.
Proof.
  unfold Qmin. destruct (Qle_bool x y) eqn:E; [now apply Qle_bool_iff | apply Qle_refl].
Qed.

Lemma Qmin_lower x y z : (z <= x)%Q -> (z <= y)%Q -> (z <= Qmin x y)%Q.
Proof.
  unfold Qmin. destruct (Qle_bool x y); auto.
Qed.

Lemma balance_at_most_one (a b : Q) : (balance a b <= 1)%Q.
Proof.
  unfold balance. cbv zeta. destruct (Qltb 0 (a + b)) eqn:E; [|apply Qle_refl].
  apply Qltb_lt in E.
  assert (0 <= Qabs (a - b) / (a + b))%Q.
  { apply Qle_shift_div_l; [exact E|]. rewrite Qmult_0_l. apply Qabs_nonneg. }
  lra.
Qed.

Lemma balance_not_negative (a b : Q) : (0 <= a)%Q -> (0 <= b)%Q -> (0 <= balance a b)%Q.
Proof.
  intros Ha Hb. unfold balance. cbv zeta.
  destruct (Qltb 0 (a + b)) eqn:E; [|lra]. apply Qltb_lt in E.
  assert (Qabs (a - b) / (a + b) <= 1)%Q.
  { apply Qle_shift_div_r; [exact E|]. apply Qabs_Qle_condition. lra. }
  lra.
Qed.

(** X19.  The features of a slide that has an [elements] child: the
    number of the children of [elements], and seven measures of which the
    whitespace ratio is not negative, the readability lies between 0 and
    100, the hierarchy score is 0.5 or 0.9, the color diversity lies
    between 0 and 1 and the two balances are at most 1. *)
Theorem feature_ranges (slide_elem elements computed : onode) :
  ET.find "elements" slide_elem = Some elements ->
  compute_slide_features slide_elem = Ok computed ->
  exists ratio whitespace readability hierarchy diversity horizontal vertical,
    computed
    = elem "computed_features" []
        [leaf "element_count" (PInt (Z.of_nat (List.length (ET.children elements))));
         leaf "text_to_image_ratio" ratio;
         leaf "whitespace_ratio" (PFixed 2 whitespace);
         leaf "readability_flesch" (PFixed 1 readability);
         leaf "visual_hierarchy_score" (PFixed 2 hierarchy);
         leaf "color_diversity" (PFixed 2 diversity);
         leaf "layout_balance_horizontal" (PFixed 2 horizontal);
         leaf "layout_balance_vertical" (PFixed 2 vertical)]
    /\ (0 <= whitespace)%Q
    /\ (0 <= readability <= 100)%Q
    /\ (hierarchy = (1 # 2)%Q \/ hierarchy = (9 # 10)%Q)
    /\ (0 <= diversity <= 1)%Q
    /\ (horizontal <= 1)%Q /\ (vertical <= 1)%Q.
Proof.
  intros Hel. unfold compute_slide_features. rewrite Hel. intros H.
  apply bind_ok in H as (area & _ & H).
  apply bind_ok in H as (hv & Hhv & H). emitted H.
  unfold layout_balance in Hhv. apply bind_ok in Hhv as (w & _ & Hhv). emitted Hhv.
  do 7 eexists. split; [reflexivity|]. cbn [fst snd].
  split; [apply Qmax_lower|].
  split; [split; [apply Qmax_lower | apply Qmax_upper; [lra | apply Qmin_upper_l]]|].
  split; [destruct (existsb _ _); auto|].
  split.
  - split; [|apply Qmin_upper_r].
    apply Qmin_lower; [|lra]. apply Qle_shift_div_l; [lra|].
    rewrite Qmult_0_l. change 0%Q with (inject_Z 0). rewrite <- Zle_Qle. lia.
  - split; apply balance_at_most_one.
Qed.

(** X19, witness: a slide with one text box without geometry. *)
Lemma feature_ranges_witness :
  exists ratio whitespace readability hierarchy diversity horizontal vertical,
    elem "computed_features" []
      [leaf "element_count" (PInt 1);
       leaf "text_to_image_ratio" PInf;
       leaf "whitespace_ratio" (PFixed 2 (Qmax 0 (1 - Qmin (0 + 0) 1)));
       leaf "readability_flesch" (PFixed 1 (Qmax 0 (Qmin 100 (100 - inject_Z 0 / 10))));
       leaf "visual_hierarchy_score" (PFixed 2 (1 # 2));
       leaf "color_diversity" (PFixed 2 (Qmin (inject_Z 0 / 10) 1));
       leaf "layout_balance_horizontal" (PFixed 2 (balance 0 0));
       leaf "layout_balance_vertical" (PFixed 2 (balance 0 0))]
    = elem "computed_features" []
        [leaf "element_count"
              (PInt (Z.of_nat (List.length (ET.children Blank.elements))));
         leaf "text_to_image_ratio" ratio;
         leaf "whitespace_ratio" (PFixed 2 whitespace);
         leaf "readability_flesch" (PFixed 1 readability);
         leaf "visual_hierarchy_score" (PFixed 2 hierarchy);
         leaf "color_diversity" (PFixed 2 diversity);
         leaf "layout_balance_horizontal" (PFixed 2 horizontal);
         leaf "layout_balance_vertical" (PFixed 2 vertical)]
    /\ (0 <= whitespace)%Q
    /\ (0 <= readability <= 100)%Q
    /\ (hierarchy = (1 # 2)%Q \/ hierarchy = (9 # 10)%Q)
    /\ (0 <= diversity <= 1)%Q
    /\ (horizontal <= 1)%Q /\ (vertical <= 1)%Q.
Proof.
  apply (feature_ranges Blank.slide Blank.elements); reflexivity.
Defined.

(** ** Balance *)

Lemma place_settled w x y width height :
  settled w -> (0 <= width * height)%Q -> settled (place w x y width height).
Proof.
  unfold settled, place. cbv zeta. intros (H1 & H2 & H3 & H4) Ha.
  destruct (Qltb (x + width / 2) (1 # 2)), (Qltb (y + height / 2) (1 # 2));
    cbn [left_weight right_weight top_weight bottom_weight]; repeat split; lra.
Qed.

Lemma weigh_all_settled l : forall w w',
  forallb covers l = true -> settled w -> weigh_all w l = Ok w' -> settled w'.
Proof.
  induction l as [|e l IH]; cbn [forallb weigh_all]; intros w w' Hl Hw H.
  - now injection H as <-.
  - apply andb_prop in Hl as [He Hl].
    apply bind_ok in H as (w1 & H1 & H). apply (IH w1 w' Hl); [|exact H].
    unfold weigh in H1. unfold covers in He.
    destruct (geometry_reading e) as [[[[[x y] width] height]|]|]; cbn [bind] in H1;
      try discriminate; injection H1 as <-; [|exact Hw].
    apply place_settled; [exact Hw|]. now apply Qle_bool_iff.
Qed.

(** X20.  When no element weighs in with a negative area, the two layout
    balances lie between 0 and 1. *)
Theorem layout_balance_in_unit_interval (elements : onode) (horizontal vertical : Q) :
  forallb covers (ET.findall "element" elements) = true ->
  layout_balance elements = Ok (horizontal, vertical) ->
  (0 <= horizontal <= 1)%Q /\ (0 <= vertical <= 1)%Q.
Proof.
  intros Hc H. unfold layout_balance in H.
  apply bind_ok in H as (w & Hw & H). injection H as <- <-.
  assert (H0 : settled no_weight) by (repeat split; apply Qle_refl).
  destruct (weigh_all_settled _ _ _ Hc H0 Hw) as (H1 & H2 & H3 & H4).
  repeat split; auto using balance_at_most_one, balance_not_negative.
Qed.

(** X20, witness: one box in the upper left quarter. *)
Lemma balance_interval_witness :
  exists horizontal vertical,
    layout_balance Placed.elements = Ok (horizontal, vertical)
    /\ (0 <= horizontal <= 1)%Q /\ (0 <= vertical <= 1)%Q.
Proof.
  eexists. eexists. split; [vm_compute; reflexivity|].
  apply (layout_balance_in_unit_interval Placed.elements);
    [reflexivity | vm_compute; reflexivity].
Defined.

(** ** Components of a color *)

Lemma all_ascii_complete (c : ascii) : In c all_ascii.
Proof.
  unfold all_ascii. rewrite <- (ascii_nat_embedding c). apply in_map.
  apply in_seq. pose proof (nat_ascii_bounded c). lia.
Qed.

Lemma short_slices_in_range :
  forallb (fun c1 => in_range (String c1 "")
                     && forallb (fun c2 => in_range (String c1 (String c2 ""))) all_ascii)
          all_ascii = true.
Proof.
  vm_compute. reflexivity.
Qed.

Lemma slice_in_range (i : nat) (s : string) (v : Z) :
  PyInt.int16 (PyStr.slice i (i + 2) s) = Ok v -> -15 <= v <= 255.
Proof.
  unfold PyStr.slice. replace (i + 2 - i)%nat with 2%nat by lia.
  pose proof short_slices_in_range as H. rewrite forallb_forall in H.
  destruct (PyStr.drop i s) as [|c1 [|c2 rest]]; cbn [substring].
  - discriminate.
  - specialize (H c1 (all_ascii_complete c1)). apply andb_prop in H as [H _].
    unfold in_range in H. intros E. rewrite E in H. lia.
  - specialize (H c1 (all_ascii_complete c1)). apply andb_prop in H as [_ H].
    rewrite forallb_forall in H. specialize (H c2 (all_ascii_complete c2)).
    unfold in_range in H.
    assert (substring 0 0 rest = "") as -> by (destruct rest; reflexivity).
    intros E. rewrite E in H. lia.
Qed.

(** X21.  Whatever the string, no component that [hex_to_rgb] returns is
    below -15 or above 255. *)
Theorem hex_components_bounded (hex_color : string) :
  let '(r, g, b) := hex_to_rgb hex_color in
  -15 <= r <= 255 /\ -15 <= g <= 255 /\ -15 <= b <= 255.
Proof.
  unfold hex_to_rgb.
  set (s := if PyStr.startswith hex_color "#" then PyStr.drop 1 hex_color else hex_color).
  destruct (PyStr.startswith s "scheme:" || PyStr.startswith s "preset:");
    [cbn; lia|].
  destruct (PyInt.int16 (PyStr.slice 0 2 s)) as [r|] eqn:Er; [|cbn; lia].
  destruct (PyInt.int16 (PyStr.slice 2 4 s)) as [g|] eqn:Eg; [|cbn; lia].
  destruct (PyInt.int16 (PyStr.slice 4 6 s)) as [b|] eqn:Eb; [|cbn; lia].
  cbn [bind].
  pose proof (slice_in_range 0 s r Er). pose proof (slice_in_range 2 s g Eg).
  pose proof (slice_in_range 4 s b Eb). lia.
Qed.

Lemma int16_is_positional (c1 c2 : ascii) :
  In c1 hex_chars -> In c2 hex_chars ->
  PyInt.int16 (String c1 (String c2 "")) = Ok (16 * hex_value c1 + hex_value c2).
Proof.
  intros H1 H2. cbn [hex_chars list_ascii_of_string In] in H1, H2.
  repeat (destruct H1 as [<-|H1]; [|]); try contradiction;
    repeat (destruct H2 as [<-|H2]; [|]); try contradiction;
    vm_compute; reflexivity.
Qed.

(** X22.  On six hexadecimal digits, in either case and with or without
    the leading [#], [hex_to_rgb] returns the three bytes that the pairs
    of digits denote. *)
Theorem six_digits_give_their_bytes (c1 c2 c3 c4 c5 c6 : ascii) (hex_color : string) :
  Forall (fun c => In c hex_chars) [c1; c2; c3; c4; c5; c6] ->
  hex_color = String c1 (String c2 (String c3 (String c4 (String c5 (String c6 "")))))
  \/ hex_color
     = String "#" (String c1 (String c2 (String c3 (String c4 (String c5 (String c6 "")))))) ->
  hex_to_rgb hex_color
  = (16 * hex_value c1 + hex_value c2,
     16 * hex_value c3 + hex_value c4,
     16 * hex_value c5 + hex_value c6)
  /\ 0 <= 16 * hex_value c1 + hex_value c2 <= 255
  /\ 0 <= 16 * hex_value c3 + hex_value c4 <= 255
  /\ 0 <= 16 * hex_value c5 + hex_value c6 <= 255.
Proof.
  intros Hall Hform.
  destruct (six_digits_are_bytes c1 c2 c3 c4 c5 c6 hex_color Hall Hform)
    as (r & g & b & -> & Hr & Hg & Hb & Br & Bg & Bb).
  inversion Hall as [|? ? H1 Hall1]; subst. inversion Hall1 as [|? ? H2 Hall2]; subst.
  inversion Hall2 as [|? ? H3 Hall3]; subst. inversion Hall3 as [|? ? H4 Hall4]; subst.
  inversion Hall4 as [|? ? H5 Hall5]; subst. inversion Hall5 as [|? ? H6 _]; subst.
  assert (Er : r = 16 * hex_value c1 + hex_value c2)
    by (rewrite (int16_is_positional c1 c2 H1 H2) in Hr; congruence).
  assert (Eg : g = 16 * hex_value c3 + hex_value c4)
    by (rewrite (int16_is_positional c3 c4 H3 H4) in Hg; congruence).
  assert (Eb : b = 16 * hex_value c5 + hex_value c6)
    by (rewrite (int16_is_positional c5 c6 H5 H6) in Hb; congruence).
  rewrite <- Er, <- Eg, <- Eb. auto.
Qed.

(** X22, witness: an orange. *)
Lemma six_digits_witness :
  hex_to_rgb "#FF8000" = (255, 128, 0)
  /\ 0 <= 255 <= 255 /\ 0 <= 128 <= 255 /\ 0 <= 0 <= 255.
Proof.
  assert (Hall : Forall (fun c => In c hex_chars) ["F"; "F"; "8"; "0"; "0"; "0"]%char).
  { repeat (apply Forall_cons; [vm_compute; tauto|]). apply Forall_nil. }
  assert (Hform : "#FF8000" = "FF8000" \/ "#FF8000" = "#FF8000") by (right; reflexivity).
  exact (six_digits_give_their_bytes "F" "F" "8" "0" "0" "0" "#FF8000" Hall Hform).
Defined.

(** ** The roles in the statistics *)

Lemma role_is_not_empty slide_root index :
  PyStr.truthy (infer_slide_role slide_root index) = true.
Proof.
  unfold infer_slide_role. destruct (index =? 1); [reflexivity|].
  destruct (ET.find _ slide_root) as [sp_tree|]; [|reflexivity].
  destruct (ET.findall c:"chart" sp_tree); [|reflexivity].
  destruct (ET.findall a:"tbl" sp_tree); [|reflexivity].
  destruct (2 <? _)%nat; reflexivity.
Qed.

Lemma sections_role pkg slide_root slide_file index :
  flat_map (fun c => filter (ET.has_tag "semantic_role") (c :: ET.descendants c))
           (slide_sections pkg slide_root slide_file index)
  = [leaf "semantic_role" (PStr (infer_slide_role slide_root index))].
Proof.
  unfold slide_sections. cbn [flat_map].
  rewrite (lacks_no_match "semantic_role" _
             (sound_lacks "semantic_role" eq_refl _
                (slide_metadata_sound pkg slide_root slide_file))).
  rewrite (lacks_no_match "semantic_role" _
             (sound_lacks "semantic_role" eq_refl _ (background_sound slide_root))).
  rewrite (lacks_no_match "semantic_role" (elem "elements" [] _)).
  - reflexivity.
  - assert (Hl : forallb (lacks "semantic_role")
                   (appended (fst (extract_slide_elements pkg slide_root slide_file)))
                 = true).
    { pose proof (walk_sound pkg slide_root slide_file) as H.
      induction (appended _) as [|e l IH]; [reflexivity|].
      cbn [forallb] in *. apply andb_prop in H as [He H].
      rewrite (sound_lacks "semantic_role" eq_refl e He), (IH H). reflexivity. }
    unfold elem. rewrite lacks_node, Hl. reflexivity.
Qed.

Lemma slide_role_leaf pkg slide_file index :
  filter (ET.has_tag "semantic_role")
         (extract_slide_features pkg slide_file index
          :: ET.descendants (extract_slide_features pkg slide_file index))
  = match read_xml pkg slide_file with
    | Ok slide_root => [leaf "semantic_role" (PStr (infer_slide_role slide_root index))]
    | Raise => []
    end.
Proof.
  pose proof (slide_cases pkg slide_file index) as H.
  destruct (read_xml pkg slide_file) as [slide_root|]; [|rewrite H; reflexivity].
  cbv zeta in H.
  destruct (snd (extract_slide_elements pkg slide_root slide_file)).
  - rewrite H.
    change (filter _ _)
      with (ET.findall "semantic_role"
              (Node "slide" (slide_attrs slide_file index) None
                    (slide_sections pkg slide_root slide_file index))).
    rewrite findall_node. apply sections_role.
  - destruct H as (computed & Hc & ->).
    change (filter _ _)
      with (ET.findall "semantic_role"
              (Node "slide" (slide_attrs slide_file index) None
                    (slide_sections pkg slide_root slide_file index ++ [computed]))).
    rewrite findall_node, flat_map_app, sections_role. cbn [flat_map app].
    apply slide_computed in Hc as (rest & -> & _ & _ & _ & Hr).
    rewrite (lacks_no_match "semantic_role").
    + reflexivity.
    + unfold elem. rewrite lacks_node. cbn [forallb]. rewrite Hr. reflexivity.
Qed.

Lemma roles_found pkg :
  flat_map (fun role =>
              match ET.text role with
              | Some t => if pv_truthy t then [t] else []
              | None => []
              end)
           (ET.findall "semantic_role" (elem "slides" [] (slides_of pkg)))
  = readable_roles pkg.
Proof.
  unfold elem. rewrite findall_node. unfold slides_of, readable_roles.
  induction (enumerate 1 (get_slide_files pkg)) as [|[idx f] l IH]; [reflexivity|].
  cbn [map flat_map]. rewrite flat_map_app, IH, slide_role_leaf. f_equal.
  destruct (read_xml pkg f) as [slide_root|]; [|reflexivity].
  cbn [flat_map ET.text leaf pv_truthy app]. rewrite role_is_not_empty. reflexivity.
Qed.

(** X23.  The role distribution of the statistics lists every role that a
    readable slide part was given, once, with the number of the readable
    slide parts that have it: a part that cannot be read or parsed has no
    role and is not counted. *)
Theorem roles_count_readable_slides (pkg : package) :
  exists stats,
    extract_all_features pkg = Ok (ET.append (training_data pkg) stats)
    /\ ET.children_with_tag "semantic_role_distribution" stats
       = [elem "semantic_role_distribution" []
            (map (fun '(role, count) =>
                    elem "role" [("type", role); ("count", PInt count)] [])
                 (tally (readable_roles pkg)))]
    /\ NoDup (map fst (tally (readable_roles pkg)))
    /\ (forall role, In role (readable_roles pkg) ->
                     In (role, occurrences role (readable_roles pkg))
                        (tally (readable_roles pkg)))
    /\ (forall role count, In (role, count) (tally (readable_roles pkg)) ->
                           count = occurrences role (readable_roles pkg) /\ 0 < count).
Proof.
  destruct (tally_counts (readable_roles pkg)) as (Hk & Hc & Ha).
  unfold extract_all_features. cbv zeta.
  change (compute_global_statistics _) with (compute_global_statistics (training_data pkg)).
  unfold compute_global_statistics. rewrite slides_found. cbv zeta.
  rewrite total_elements, roles_found. cbn [bind].
  eexists. split; [reflexivity|]. split; [reflexivity|]. auto.
Qed.

(** * The run on a package without slide parts *)

Lemma writable_node tg a x cs :
  writable (Node tg a x cs)
  = forallb (fun kv => match snd kv with PNone => false | _ => true end) a
    && forallb writable cs.
Proof.
  reflexivity.
Qed.

(** ** What can be written

    No decoder of the document level writes [None] into an attribute,
    but for the key of a custom property. *)

Section Writable.
Variable pkg : package.

Lemma provenance_writable :
  writable
        (elem "provenance" []
              (map (fun '(key, value) => leaf key (PStr value))
                   (extract_core_properties pkg))) = true.
Proof.
  unfold extract_core_properties.
  destruct (read_xml pkg "docProps/core.xml"), (read_xml pkg "docProps/app.xml");
    reflexivity.
Qed.

Lemma slide_dimensions_writable : writable (extract_slide_dimensions pkg) = true.
Proof.
  unfold extract_slide_dimensions.
  destruct (read_xml pkg "ppt/presentation.xml") as [root|]; [|reflexivity].
  destruct (ET.find _ root) as [sld_sz|]; [|reflexivity].
  destruct (int_attr sld_sz "cx" 9144000) as [w|]; [|reflexivity]. cbn [bind].
  destruct (int_attr sld_sz "cy" 6858000) as [h|]; [|reflexivity]. cbn [bind].
  destruct (calculate_aspect_ratio w h); reflexivity.
Qed.

Lemma custom_properties_writable :
  forallb writable (opt_list (extract_custom_properties pkg)) = properties_named pkg.
Proof.
  unfold extract_custom_properties, properties_named.
  destruct (read_xml pkg "docProps/custom.xml") as [root|]; [|reflexivity].
  match goal with
  | |- forallb writable (opt_list match ?l with [] => None | _ :: _ => _ end) = _ =>
      transitivity (forallb writable l);
        [destruct l; [reflexivity|];
         cbn [opt_list]; unfold elem; cbn [forallb]; rewrite writable_node;
         cbn [forallb andb]; rewrite andb_true_r; reflexivity|]
  end.
  induction (ET.findall _ root) as [|prop props IH]; [reflexivity|].
  cbn [flat_map forallb]. rewrite forallb_app, IH. f_equal.
  destruct (ET.find_any_with_attr "lpwstr" prop); [|reflexivity].
  destruct (ET.get prop "name"); reflexivity.
Qed.

Lemma document_metadata_writable :
  writable (extract_document_metadata pkg) = properties_named pkg.
Proof.
  unfold extract_document_metadata, elem at 1. rewrite writable_node, forallb_app.
  rewrite custom_properties_writable. cbn [forallb].
  rewrite slide_dimensions_writable, provenance_writable. reflexivity.
Qed.

Lemma color_scheme_writable theme_root :
  writable (extract_color_scheme theme_root) = true.
Proof.
  unfold extract_color_scheme, elem at 1 2. rewrite writable_node. cbn [forallb].
  rewrite writable_node.
  destruct (ET.find _ theme_root) as [clr_scheme|]; [|reflexivity].
  rewrite forallb_flat_map; [reflexivity|]. intros [name role].
  destruct (ET.find _ clr_scheme) as [color_elem|]; [|reflexivity].
  destruct (nonempty _); reflexivity.
Qed.

Lemma font_scheme_writable theme_root :
  writable (extract_font_scheme theme_root) = true.
Proof.
  unfold extract_font_scheme.
  destruct (ET.find _ theme_root) as [fs|]; [|reflexivity].
  destruct (find_child_of _ _ fs), (find_child_of _ _ fs); reflexivity.
Qed.

Lemma effect_styles_writable theme_root :
  forallb writable (opt_list (extract_effect_styles theme_root)) = true.
Proof.
  unfold extract_effect_styles.
  match goal with
  | |- context [match ?l with [] => None | _ :: _ => _ end] =>
      assert (H : forallb writable l = true); [|destruct l; [reflexivity|]]
  end.
  - destruct (ET.find _ theme_root) as [effect_list|]; [|reflexivity].
    apply forallb_mapped. intros [idx e]. reflexivity.
  - cbn [opt_list forallb]. unfold elem. rewrite writable_node, H. reflexivity.
Qed.

Lemma theme_definition_writable :
  writable (extract_theme_definition pkg) = true.
Proof.
  unfold extract_theme_definition.
  destruct (read_xml pkg "ppt/theme/theme1.xml") as [root|]; [|reflexivity].
  unfold elem at 1. rewrite writable_node, !forallb_app.
  rewrite effect_styles_writable. cbn [forallb].
  rewrite color_scheme_writable, font_scheme_writable.
  destruct (ET.find _ root); reflexivity.
Qed.

Lemma geometry_writable xfrm g :
  extract_geometry pkg xfrm = Ok g -> writable g = true.
Proof.
  unfold extract_geometry. destruct (canvas_size pkg) as [w h]. intros H.
  apply bind_ok in H as (position & Hp & H).
  apply bind_ok in H as (size & Hs & H).
  apply bind_ok in H as (rot & _ & H). emitted H.
  assert (forallb writable position = true) as Ep.
  { destruct (ET.find _ xfrm); [run_binds Hp|]; emitted Hp; reflexivity. }
  assert (forallb writable size = true) as Es.
  { destruct (ET.find a:"ext" xfrm); [run_binds Hs|]; emitted Hs; reflexivity. }
  unfold elem. rewrite writable_node, !forallb_app, Ep, Es. reflexivity.
Qed.

Lemma placeholder_writable sp e :
  extract_placeholder_info pkg sp = Ok (Some e) -> writable e = true.
Proof.
  unfold extract_placeholder_info, geometry_of.
  destruct (ET.find _ sp) as [ph|]; [|discriminate]. intros H.
  apply bind_ok in H as (geom & Hg & H). emitted H.
  unfold elem. rewrite writable_node. cbn [negb String.eqb andb].
  destruct (ET.find _ sp) as [xfrm|].
  - apply bind_ok in Hg as (g & Hg & H). emitted H. cbn [forallb].
    rewrite (geometry_writable _ _ Hg). reflexivity.
  - emitted Hg. reflexivity.
Qed.

Lemma run_pass_writable (f : extractor) l :
  (forall src z e, f src z = Ok (Some e) -> writable e = true) ->
  forall cur, forallb writable (appended cur) = true ->
              forallb writable (appended (fst (run_pass f l cur))) = true.
Proof.
  intros Hf. induction l as [|src l IH]; cbn [run_pass]; intros cur Hc; auto.
  destruct (f src (z_order cur)) as [[e|]|] eqn:E; auto.
  apply IH. cbn [appended]. rewrite forallb_app, Hc. cbn [forallb].
  rewrite (Hf _ _ _ E). reflexivity.
Qed.

Lemma layout_writable layout_file :
  writable (extract_layout_info pkg layout_file) = true.
Proof.
  unfold extract_layout_info.
  destruct (read_xml pkg layout_file) as [layout_root|]; [|reflexivity].
  match goal with
  | |- context [run_pass ?f ?l start] =>
      assert (H : forallb writable (appended (fst (run_pass f l start))) = true);
        [apply run_pass_writable;
         [intros src z e; apply placeholder_writable | reflexivity]
        |destruct (run_pass f l start) as [cur exn]]
  end.
  cbn [fst] in H. unfold elem. rewrite writable_node, H.
  destruct (ET.find p:"cSld" layout_root); reflexivity.
Qed.

Lemma layouts_writable rels :
  forallb writable (layouts_of pkg rels) = true.
Proof.
  induction rels as [|[rel|] rels IH]; cbn [layouts_of forallb]; [reflexivity| |reflexivity].
  rewrite layout_writable, IH. reflexivity.
Qed.

Lemma master_writable master_file :
  writable (extract_master_info pkg master_file) = true.
Proof.
  unfold extract_master_info.
  destruct (read_xml pkg master_file); [|reflexivity].
  unfold elem. rewrite writable_node. cbn [forallb]. rewrite writable_node, layouts_writable.
  reflexivity.
Qed.

Lemma slide_masters_writable :
  writable (extract_slide_masters pkg) = true.
Proof.
  unfold extract_slide_masters.
  destruct (read_xml pkg "ppt/presentation.xml") as [root|]; [|reflexivity].
  destruct (ET.find _ root) as [lst|]; [|reflexivity].
  unfold elem. rewrite writable_node, forallb_flat_map; [reflexivity|].
  intros m. destruct (nonempty _); [|reflexivity].
  cbn [forallb]. rewrite master_writable. reflexivity.
Qed.

End Writable.

Lemma ranked_colors_are_values (training_data : onode) (color : pyval) (count : Z) :
  In (color, count) (top_colors training_data) -> pv_truthy color = true.
Proof.
  unfold top_colors. intros H. apply in_firstn in H.
  apply (Permutation_in _ (Permutation_sym (sorted_desc_perm _))) in H.
  destruct (tally_counts (counted_colors training_data)) as (_ & Hc & _).
  destruct (Hc _ _ H) as [-> Hpos].
  assert (Hin : In color (counted_colors training_data)).
  { apply (count_occ_In pyval_eq_dec). unfold occurrences in Hpos. lia. }
  unfold counted_colors in Hin. rewrite in_flat_map in Hin.
  destruct Hin as (c & _ & Hin).
  destruct (ET.get c "hex") as [hex_val|]; [|contradiction].
  destruct (pv_truthy hex_val && negb (pv_startswith hex_val "scheme:")) eqn:E;
    [|contradiction].
  destruct Hin as [<-|[]]. now apply andb_prop in E as [E _].
Qed.

Lemma ranking_writable (training_data : onode) (total : Z) :
  forallb writable
    (map (fun '(color, count) =>
            let percentage :=
              if 0 <? total then (inject_Z count / inject_Z total * 100)%Q else 0%Q in
            elem "color" [("hex", color); ("count", PInt count);
                          ("percentage", PFixed 1 percentage)] [])
         (top_colors training_data)) = true.
Proof.
  apply forallb_forall. intros e He.
  apply in_map_iff in He as ([color count] & <- & Hin).
  pose proof (ranked_colors_are_values training_data color count Hin) as H.
  destruct color; try discriminate; reflexivity.
Qed.

(** C4 (as amended).  When no slide part is found -- through the slide list of
    the presentation part or, when that part cannot be read or parsed,
    through the scan of the archive by name -- [extract_all_features] does
    not abort for that reason: it builds the output tree, whose [slides]
    element is empty and whose statistics report zero slides, and the write
    of that tree succeeds unless a custom property that has a value lacks
    its name (its [key] is then [None], which cannot be written). *)
Theorem no_slide_parts_completes (pkg : package) :
  get_slide_files pkg = [] ->
  exists stats,
    extract_all_features pkg
    = Ok (Node "presentation_training_data" [("version", PStr "1.0")] None
               [extract_document_metadata pkg; extract_theme_definition pkg;
                extract_slide_masters pkg; elem "slides" [] []; stats])
    /\ ET.find "total_slides" stats = Some (leaf "total_slides" (PInt 0))
    /\ extract_all_features_and_write pkg
       = if properties_named pkg
         then Ok (Node "presentation_training_data" [("version", PStr "1.0")] None
                       [extract_document_metadata pkg; extract_theme_definition pkg;
                        extract_slide_masters pkg; elem "slides" [] []; stats])
         else Raise.
Proof.
  intros Hfiles. unfold extract_all_features_and_write, extract_all_features.
  rewrite Hfiles. cbn [enumerate map]. unfold compute_global_statistics.
  rewrite (find_after_lacking "slides" _ _ _
             [extract_document_metadata pkg; extract_theme_definition pkg;
              extract_slide_masters pkg] (elem "slides" [] []) []).
  - cbv zeta. cbn [bind ET.findall ET.descendants elem filter map flat_map sum_ints tally
                     fold_left List.length Z.of_nat].
    eexists. split; [reflexivity|]. split; [reflexivity|].
    cbn [ET.append app]. unfold write_tree.
    match goal with
    | |- context [map ?f (top_colors ?td)] =>
        pose proof (ranking_writable td (total_color_count td)) as R;
          set (ranked := map f (top_colors td)) in *
    end.
    change (forallb writable ranked = true) in R.
    rewrite (writable_node "presentation_training_data"). cbn [forallb snd andb].
    rewrite document_metadata_writable, theme_definition_writable, slide_masters_writable.
    unfold elem, leaf.
    rewrite (writable_node "slides"), (writable_node "global_statistics").
    cbn [forallb snd andb].
    rewrite (writable_node "total_slides"), (writable_node "layout_usage"),
      (writable_node "semantic_role_distribution"),
      (writable_node "avg_elements_per_slide"), (writable_node "most_used_colors"), R.
    cbn [forallb andb]. rewrite andb_true_r.
    destruct (properties_named pkg); reflexivity.
  - cbn [forallb].
    rewrite document_metadata_lacks_slides, theme_definition_lacks_slides,
      slide_masters_lacks_slides. reflexivity.
  - reflexivity.
Qed.

(** C4, witness: a package whose presentation part is not well-formed and
    that holds no slide part. *)
Lemma no_slide_parts_witness :
  get_slide_files Sample.no_slides = []
  /\ exists stats,
      extract_all_features Sample.no_slides
      = Ok (Node "presentation_training_data" [("version", PStr "1.0")] None
                 [extract_document_metadata Sample.no_slides;
                  extract_theme_definition Sample.no_slides;
                  extract_slide_masters Sample.no_slides; elem "slides" [] []; stats])
      /\ ET.find "total_slides" stats = Some (leaf "total_slides" (PInt 0))
      /\ extract_all_features_and_write Sample.no_slides
         = if properties_named Sample.no_slides
           then Ok (Node "presentation_training_data" [("version", PStr "1.0")] None
                         [extract_document_metadata Sample.no_slides;
                          extract_theme_definition Sample.no_slides;
                          extract_slide_masters Sample.no_slides; elem "slides" [] [];
                          stats])
           else Raise.
Proof.
  split; [reflexivity | apply (no_slide_parts_completes Sample.no_slides); reflexivity].
Defined.

(** C4, counterexample.  On that package the scan by name finds no slide
    part and the run does not abort: the tree is built and written. *)
Lemma no_slide_parts_no_abort :
  get_slide_files Sample.no_slides = []
  /\ extract_all_features Sample.no_slides <> Raise
  /\ extract_all_features_and_write Sample.no_slides <> Raise.
Proof.
  split; [reflexivity|]. split; vm_compute; discriminate.
Qed.

(** A package without slide parts on which the run does end in an
    exception: not for the missing slides, but in the write, on the
    property without a name. *)
Lemma unnamed_property_stops_the_write :
  get_slide_files Unnamed.deck = []
  /\ extract_all_features Unnamed.deck <> Raise
  /\ extract_all_features_and_write Unnamed.deck = Raise.
Proof.
  split; [reflexivity|]. split; [vm_compute; discriminate | vm_compute; reflexivity].
Qed.
